(** * Hybrid Student Learning Portal: document and relational models

    A shallow embedding of the Mongoose document methods
    (Discussion.addPost / editPost, Assignment.addSubmission /
    gradeSubmission), of the Express handlers that sit on top of the two
    stores, of the activity logger, and of the SQL summary queries,
    together with the properties the specification states about them.

    Conventions.
    - A JavaScript [Number] that holds an identifier, a mark or a
      millisecond timestamp is a [Z]; [Date] values are compared through
      their millisecond value, as [>] on two Dates does.  Comparisons and
      [Math.max] are exact on Numbers; a sum is rounded to the nearest
      double ([JS.plus]).
    - A method that mutates [this] and may [throw] is a function from the
      document to an outcome and the document as it is when the method
      leaves: a throw keeps whatever mutation happened before it.
    - [new Date()] is an input of the method (one argument per call site).
    - [===] on two identifiers compares two Numbers; strings are compared
      character by character.
    - [save] and the SQL server belong to the drivers: what they answer is an
      input of the model wherever the code only awaits it. *)

From stdpp Require Import base list list_numbers sorting strings.
From Stdlib Require Import Ascii ZArith QArith Qround Qabs Lqa DecimalString.

#[local] Close Scope Q_scope.
#[local] Open Scope string_scope.
#[local] Open Scope list_scope.
#[local] Open Scope Z_scope.

(** ** JavaScript values shared by all modules *)

Module JS.

(** The exceptions the code raises or receives: [new Error(msg)] thrown by
    the model methods, a [TypeError] of the runtime (calling [undefined],
    reading a property of [undefined]), and an error reported by a store
    driver. *)
Inductive Exn : Type :=
| Error (message : string)
| TypeError (message : string)
| StoreError (message : string).

Definition message_of (e : Exn) : string :=
  match e with
  | Error m | TypeError m | StoreError m => m
  end.

(** What a document method does when it is called: it throws, or it
    reaches [return this.save()]. *)
Inductive Outcome : Type :=
| Threw (e : Exn)
| CallsSave.

(** The whitespace [String.prototype.trim] removes, restricted to the
    one-byte code points (TAB, LF, VT, FF, CR, SPACE). *)
Definition is_whitespace (a : ascii) : bool :=
  let n := Z.of_N (Ascii.N_of_ascii a) in
  ((9 <=? n) && (n <=? 13)) || (n =? 32).

Fixpoint trimStart (s : string) : string :=
  match s with
  | EmptyString => EmptyString
  | String a s' => if is_whitespace a then trimStart s' else s
  end.

Fixpoint trimEnd (s : string) : string :=
  match s with
  | EmptyString => EmptyString
  | String a s' =>
      match trimEnd s' with
      | EmptyString => if is_whitespace a then EmptyString else String a EmptyString
      | r => String a r
      end
  end.

Definition trim (s : string) : string := trimEnd (trimStart s).

(** [String(n)] for an integer [n], as a template literal prints it. *)
Definition show_int (n : Z) : string := NilZero.string_of_int (Z.to_int n).

(** [Math.max(x, ...xs)] on a non-empty argument list. *)
Definition Math_max (x : Z) (xs : list Z) : Z := foldl Z.max x xs.

(** [Number.MAX_SAFE_INTEGER], 2^53 - 1. *)
Definition MAX_SAFE_INTEGER : Z := 9007199254740991.

(** The double nearest to the integer [z], ties to the even significand.
    Every integer up to 2^53 in magnitude is a double; a larger one is
    rounded to 53 significant bits.  (No use below reaches the magnitude
    2^1024, where the result would be an infinity.) *)
Definition to_double (z : Z) : Z :=
  let a := Z.abs z in
  if a <=? MAX_SAFE_INTEGER + 1 then z
  else
    let e := Z.log2 a - 52 in
    let q := a / 2 ^ e in
    let r := a mod 2 ^ e in
    let half := 2 ^ (e - 1) in
    let q' := if r <? half then q
              else if half <? r then q + 1
              else if Z.even q then q else q + 1 in
    Z.sgn z * (q' * 2 ^ e).

(** [x + y] on two Numbers that hold integers. *)
Definition plus (x y : Z) : Z := to_double (x + y).


End JS.

Export JS.

(** ** src/models/Discussion.js *)

Module Discussion.

Record Post : Type := mkPost {
  post_id : Z;
  user_id : Z;
  content : string;
  created_at : Z;
  edited_at : option Z;
  is_edited : bool
}.

Record t : Type := mkDiscussion {
  course_id : Z;
  title : string;
  created_by : Z;
  d_created_at : Z;
  updated_at : Z;
  is_pinned : bool;
  is_locked : bool;
  tags : list string;
  posts : list Post;
  post_count : Z
}.

Definition set_posts (d : t) (ps : list Post) (count : Z) (now : Z) : t :=
  {| course_id := course_id d; title := title d; created_by := created_by d;
     d_created_at := d_created_at d; updated_at := now;
     is_pinned := is_pinned d; is_locked := is_locked d; tags := tags d;
     posts := ps; post_count := count |}.

Definition post_ids (d : t) : list Z := post_id <$> posts d.

(** [this.posts.length > 0 ? Math.max(...this.posts.map(p => p.post_id)) + 1 : 1] *)
Definition newPostId (d : t) : Z :=
  match post_ids d with
  | [] => 1
  | x :: xs => plus (Math_max x xs) 1
  end.

(** The sub-document [posts.push({post_id, user_id, content, created_at})]
    stores: the schema trims [content] and defaults [is_edited] to false. *)
Definition new_post (pid userId : Z) (text : string) (now : Z) : Post :=
  {| post_id := pid; user_id := userId; content := trim text;
     created_at := now; edited_at := None; is_edited := false |}.

(** [addPost(userId, content)]; [now1] and [now2] are the two [new Date()]. *)
Definition addPost (userId : Z) (text : string) (now1 now2 : Z) (d : t)
  : Outcome * t :=
  let pid := newPostId d in
  let ps := posts d ++ [new_post pid userId text now1] in
  (CallsSave, set_posts d ps (Z.of_nat (length ps)) now2).

Definition edit_post (p : Post) (text : string) (now : Z) : Post :=
  {| post_id := post_id p; user_id := user_id p; content := trim text;
     created_at := created_at p; edited_at := Some now; is_edited := true |}.

(** [editPost(postId, newContent)]: [find] gives the first post with that
    id, and the assignments go through the reference into the array. *)
Definition editPost (postId : Z) (newContent : string) (now1 now2 : Z) (d : t)
  : Outcome * t :=
  match list_find (λ p, post_id p = postId) (posts d) with
  | None => (Threw (Error "Post not found"), d)
  | Some (i, p) =>
      (CallsSave,
       set_posts d (<[i := edit_post p newContent now1]> (posts d))
                 (post_count d) now2)
  end.

(** A thread as [new Discussion({...})] makes it, before any post. *)
Definition empty (course creator : Z) (ttl : string) (now : Z) : t :=
  {| course_id := course; title := trim ttl; created_by := creator;
     d_created_at := now; updated_at := now; is_pinned := false;
     is_locked := false; tags := []; posts := []; post_count := 0 |}.

End Discussion.

(** ** src/models/Assignment.js *)

Module Assignment.

Inductive Status : Type := submitted | graded | late | resubmit.

Record Submission : Type := mkSubmission {
  student_id : Z;
  submitted_at : Z;
  submission_type : string;
  file_path : option string;
  submission_link : option string;
  submission_text : option string;
  remarks : option string;
  grade : option Z;
  graded_at : option Z;
  graded_by : option Z;
  feedback : option string;
  status : Status
}.

Record Attachment : Type := mkAttachment {
  filename : string;
  a_file_path : string;
  uploaded_at : Z
}.

Record t : Type := mkAssignment {
  course_id : Z;
  assignment_title : string;
  description : string;
  instructions : option string;
  max_marks : Z;
  due_date : Z;
  created_at : Z;
  created_by : Z;
  updated_at : Z;
  is_active : bool;
  allow_late_submission : bool;
  attachments : list Attachment;
  submissions : list Submission;
  submission_count : Z
}.

Definition set_submissions (a : t) (ss : list Submission) (count : Z) (now : Z) : t :=
  {| course_id := course_id a; assignment_title := assignment_title a;
     description := description a; instructions := instructions a;
     max_marks := max_marks a; due_date := due_date a;
     created_at := created_at a; created_by := created_by a;
     updated_at := now; is_active := is_active a;
     allow_late_submission := allow_late_submission a;
     attachments := attachments a;
     submissions := ss; submission_count := count |}.

Definition student_ids (a : t) : list Z := student_id <$> submissions a.

(** The [submissionData] argument of [addSubmission]: a property that is
    absent reads as [undefined], here [None]. *)
Record SubmissionData : Type := mkSubmissionData {
  sd_submission_type : option string;
  sd_file_path : option string;
  sd_submission_link : option string;
  sd_submission_text : option string;
  sd_remarks : option string
}.

(** [submissionData.submission_type || 'file']: [undefined] and the empty
    string are falsy. *)
Definition type_or_file (o : option string) : string :=
  match o with
  | None | Some EmptyString => "file"
  | Some s => s
  end.

(** The object literal [addSubmission] builds; the schema trims the text
    fields, and the grading fields are not part of the literal. *)
Definition build_submission (studentId now : Z) (sd : SubmissionData) (isLate : bool)
  : Submission :=
  {| student_id := studentId;
     submitted_at := now;
     submission_type := type_or_file (sd_submission_type sd);
     file_path := trim <$> sd_file_path sd;
     submission_link := trim <$> sd_submission_link sd;
     submission_text := trim <$> sd_submission_text sd;
     remarks := trim <$> sd_remarks sd;
     grade := None; graded_at := None; graded_by := None; feedback := None;
     status := if isLate then late else submitted |}.

Definition late_message : string :=
  "Late submissions are not allowed for this assignment".

(** [addSubmission(studentId, submissionData)]; [now] is [new Date()]. *)
Definition addSubmission (studentId : Z) (sd : SubmissionData) (now : Z) (a : t)
  : Outcome * t :=
  let existingIndex := list_find (λ s, student_id s = studentId) (submissions a) in
  let isLate := now >? due_date a in
  if negb (allow_late_submission a) && isLate then
    (Threw (Error late_message), a)
  else
    let submission := build_submission studentId now sd isLate in
    match existingIndex with
    | Some (i, _) =>
        (CallsSave,
         set_submissions a (<[i := submission]> (submissions a))
                         (submission_count a) now)
    | None =>
        let ss := submissions a ++ [submission] in
        (CallsSave, set_submissions a ss (Z.of_nat (length ss)) now)
    end.

(** The [gradeData] argument of [gradeSubmission]. *)
Record GradeData : Type := mkGradeData {
  gd_grade : option Z;
  gd_feedback : option string;
  gd_graded_by : option Z
}.

(** [gradeData.grade > this.max_marks]: with [grade] undefined the
    comparison is on NaN and is false. *)
Definition exceeds (g : option Z) (maxm : Z) : bool :=
  match g with
  | Some n => n >? maxm
  | None => false
  end.

Definition grade_message (maxm : Z) : string :=
  ("Grade cannot exceed maximum marks (" ++ show_int maxm ++ ")")%string.

Definition not_found_message : string := "Submission not found for this student".

Definition graded_submission (s : Submission) (gd : GradeData) (now : Z) : Submission :=
  {| student_id := student_id s; submitted_at := submitted_at s;
     submission_type := submission_type s; file_path := file_path s;
     submission_link := submission_link s; submission_text := submission_text s;
     remarks := remarks s;
     grade := gd_grade gd;
     graded_at := Some now;
     graded_by := gd_graded_by gd;
     feedback := trim <$> gd_feedback gd;
     status := graded |}.

(** [gradeSubmission(studentId, gradeData)]; [now1] feeds [graded_at] and
    [now2] feeds [updated_at]. *)
Definition gradeSubmission (studentId : Z) (gd : GradeData) (now1 now2 : Z) (a : t)
  : Outcome * t :=
  match list_find (λ s, student_id s = studentId) (submissions a) with
  | None => (Threw (Error not_found_message), a)
  | Some (i, s) =>
      if exceeds (gd_grade gd) (max_marks a) then
        (Threw (Error (grade_message (max_marks a))), a)
      else
        (CallsSave,
         set_submissions a (<[i := graded_submission s gd now1]> (submissions a))
                         (submission_count a) now2)
  end.

(** [getSubmissionByStudent(studentId)] *)
Definition getSubmissionByStudent (studentId : Z) (a : t) : option Submission :=
  snd <$> list_find (λ s, student_id s = studentId) (submissions a).

(** One call of [addSubmission] in a run of calls on the same document:
    a call that throws leaves the document to the next call as it is. *)
Record Submit : Type := mkSubmit {
  by_student : Z;
  payload : SubmissionData;
  at_time : Z
}.

Definition run_submits (ops : list Submit) (a : t) : t :=
  foldl (λ acc op, snd (addSubmission (by_student op) (payload op) (at_time op) acc))
        a ops.

End Assignment.

(** ** The document store behind [this.save()]

    [save] is the driver's: the file under study only calls it.  What the
    driver answers is an input of the model: [pending] lists the answers it
    will give to the next calls ([None]: the write is accepted, [Some e]: the
    returned promise rejects with [e], as Mongoose does with a VersionError
    when another writer changed the document); past the end of the list every
    write is accepted.  [save_calls] counts the calls. *)

Module Store.

Record t (D : Type) : Type := mkStore {
  stored : D;
  pending : list (option Exn);
  save_calls : nat
}.
Arguments mkStore {D}.
Arguments stored {D}.
Arguments pending {D}.
Arguments save_calls {D}.

Definition save {D : Type} (d : D) (st : t D) : (Exn + D) * t D :=
  match pending st with
  | Some e :: rest => (inl e, mkStore (stored st) rest (S (save_calls st)))
  | None :: rest => (inr d, mkStore d rest (S (save_calls st)))
  | [] => (inr d, mkStore d [] (S (save_calls st)))
  end.

(** A method call on the document [d] loaded from the store: a throw
    rejects without touching the store, [return this.save()] hands the
    mutated document to the driver, once. *)
Definition call {D : Type} (method : D → Outcome * D) (d : D) (st : t D)
  : (Exn + D) * t D :=
  match method d with
  | (Threw e, _) => (inl e, st)
  | (CallsSave, d') => save d' st
  end.

Definition VersionError : Exn :=
  StoreError "VersionError: No matching document found".

End Store.

(** ** The response envelope *)

(** [res.status(code).json({success, message, data, error})]; a handler that
    calls [res.json] alone answers with status 200. *)
Record Response (D : Type) : Type := mkResponse {
  status : Z;
  success : bool;
  message : option string;
  data : option D;
  error : option string
}.
Arguments mkResponse {D}.
Arguments status {D}.
Arguments success {D}.
Arguments message {D}.
Arguments data {D}.
Arguments error {D}.

Definition ok_response {D : Type} (code : Z) (msg : option string) (d : D) : Response D :=
  mkResponse code true msg (Some d) None.

Definition fail_response {D : Type} (code : Z) (msg : string) (err : option string)
  : Response D :=
  mkResponse code false (Some msg) None err.

(** [!x] on a string read from the request body: [undefined] and [""] are
    falsy. *)
Definition falsy (o : option string) : bool :=
  match o with
  | None | Some EmptyString => true
  | Some _ => false
  end.

(** ** database/mysql/schema.sql and the summary queries

    Tables are lists of rows; a nullable column is an [option].  A route
    parameter that names a row is taken as the integer it denotes.  The
    exact-value arithmetic of [/], [*] and [AVG] is carried out on
    rationals; [ROUND(x, 2)] rounds half away from zero, as the server does
    for exact-value numbers.  The order of the result rows is the order the
    joins produce them in: [ORDER BY] is the server's collation and is not
    modelled. *)

Module Relational.

Inductive Role : Type := student | instructor | admin.
Inductive EnrollStatus : Type := active | dropped | completed.

#[global] Instance Role_eq_dec : EqDecision Role.
Proof. solve_decision. Defined.
#[global] Instance EnrollStatus_eq_dec : EqDecision EnrollStatus.
Proof. solve_decision. Defined.

Definition show_status (s : option EnrollStatus) : string :=
  match s with
  | Some active => "active"
  | Some dropped => "dropped"
  | Some completed => "completed"
  | None => "null"
  end.

Record User : Type := mkUser {
  user_id : Z;
  name : string;
  email : string;
  role : Role
}.

Record Course : Type := mkCourse {
  course_id : Z;
  course_code : string;
  course_name : string;
  instructor_id : Z
}.

Record Enrollment : Type := mkEnrollment {
  enrollment_id : Z;
  e_student_id : Z;
  e_course_id : Z;
  enrolled_at : option Z;
  e_status : option EnrollStatus
}.

Record Quiz : Type := mkQuiz {
  quiz_id : Z;
  q_course_id : Z;
  max_marks : Z
}.

Record QuizSubmission : Type := mkQuizSubmission {
  submission_id : Z;
  qs_quiz_id : Z;
  qs_student_id : Z;
  marks_obtained : Z
}.

Record Db : Type := mkDb {
  users : list User;
  courses : list Course;
  enrollments : list Enrollment;
  quizzes : list Quiz;
  quiz_submissions : list QuizSubmission;
  next_enrollment_id : Z
}.

(** *** Relational operators *)

(** The right-hand side of a [LEFT JOIN] for one left row: the matching
    rows, or a single all-NULL row when there is none. *)
Definition left_rows {B : Type} (matching : list B) : list (option B) :=
  match matching with
  | [] => [None]
  | _ => Some <$> matching
  end.

(** [GROUP BY]: one group per distinct key, holding the rows with it. *)
Definition group_by {A K : Type} `{EqDecision K} (key : A → K) (rows : list A)
  : list (K * list A) :=
  (λ k, (k, List.filter (λ r, bool_decide (key r = k)) rows))
    <$> remove_dups (key <$> rows).

(** [COUNT(DISTINCT col)]: NULLs are not counted. *)
Definition count_distinct {A : Type} (col : A → option Z) (rows : list A) : Z :=
  Z.of_nat (length (remove_dups (omap col rows))).

Definition Qsum (l : list Q) : Q := foldr Qplus (0 # 1)%Q l.

(** [AVG(expr)]: the mean of the non-NULL values, NULL when there is none. *)
Definition AVG {A : Type} (expr : A → option Q) (rows : list A) : option Q :=
  match omap expr rows with
  | [] => None
  | vals => Some (Qsum vals / inject_Z (Z.of_nat (length vals)))%Q
  end.

Definition round_half_away (x : Q) : Z :=
  if Qle_bool (0 # 1) x then Qfloor (x + (1 # 2))%Q
  else - Qfloor ((- x) + (1 # 2))%Q.

(** [ROUND(x, 2)]; NULL stays NULL. *)
Definition ROUND2 (x : option Q) : option Q :=
  (λ v, Qmake (round_half_away (v * (100 # 1))%Q) 100) <$> x.

(** [(qs.marks_obtained / q.max_marks) * 100]: NULL when either row is the
    NULL row of a left join, and when the division is by zero. *)
Definition percentage (qs : option QuizSubmission) (q : option Quiz) : option Q :=
  match qs, q with
  | Some s, Some z =>
      if max_marks z =? 0 then None
      else Some ((inject_Z (marks_obtained s) / inject_Z (max_marks z)) * (100 # 1))%Q
  | _, _ => None
  end.

(** *** View student_course_summary (queries.sql) *)

Record SummaryJoin : Type := mkSummaryJoin {
  sj_u : User;
  sj_e : Enrollment;
  sj_c : Course;
  sj_i : User;
  sj_q : option Quiz;
  sj_qs : option QuizSubmission
}.

(** FROM users u INNER JOIN enrollments e ... LEFT JOIN quiz_submissions qs *)
Definition summary_from (db : Db) : list SummaryJoin :=
  u ← users db;
  e ← List.filter (λ e, user_id u =? e_student_id e) (enrollments db);
  c ← List.filter (λ c, e_course_id e =? course_id c) (courses db);
  i ← List.filter (λ i, instructor_id c =? user_id i) (users db);
  q ← left_rows (List.filter (λ q, course_id c =? q_course_id q) (quizzes db));
  qs ← left_rows
         match q with
         | None => []
         | Some z =>
             List.filter
               (λ s, (quiz_id z =? qs_quiz_id s) && (qs_student_id s =? user_id u))
               (quiz_submissions db)
         end;
  [mkSummaryJoin u e c i q qs].

Definition SummaryKey : Type :=
  Z * string * string * Z * string * string * string * option Z * option EnrollStatus.

Definition summary_key (r : SummaryJoin) : SummaryKey :=
  (user_id (sj_u r), name (sj_u r), email (sj_u r),
   course_id (sj_c r), course_code (sj_c r), course_name (sj_c r),
   name (sj_i r), enrolled_at (sj_e r), e_status (sj_e r)).

Record SummaryRow : Type := mkSummaryRow {
  sr_student_id : Z;
  sr_student_name : string;
  sr_student_email : string;
  sr_course_id : Z;
  sr_course_code : string;
  sr_course_name : string;
  sr_instructor_name : string;
  sr_enrolled_at : option Z;
  sr_enrollment_status : option EnrollStatus;
  total_quizzes : Z;
  quizzes_submitted : Z;
  avg_percentage : option Q
}.

Definition summary_select (g : SummaryKey * list SummaryJoin) : SummaryRow :=
  let '(uid, uname, uemail, cid, ccode, cname, iname, at_, st, rows) := g in
  {| sr_student_id := uid; sr_student_name := uname; sr_student_email := uemail;
     sr_course_id := cid; sr_course_code := ccode; sr_course_name := cname;
     sr_instructor_name := iname; sr_enrolled_at := at_;
     sr_enrollment_status := st;
     total_quizzes := count_distinct (λ r, quiz_id <$> sj_q r) rows;
     quizzes_submitted := count_distinct (λ r, submission_id <$> sj_qs r) rows;
     avg_percentage := ROUND2 (AVG (λ r, percentage (sj_qs r) (sj_q r)) rows) |}.

Definition student_course_summary (db : Db) : list SummaryRow :=
  summary_select
    <$> group_by summary_key
          (List.filter (λ r, bool_decide (role (sj_u r) = student)) (summary_from db)).

(** The per-student summary of one course: the view's rows for it. *)
Definition courseStudentSummary (courseId : Z) (db : Db) : list SummaryRow :=
  List.filter (λ r, sr_course_id r =? courseId) (student_course_summary db).

(** *** The query of getCourseStudents (courseController.js) *)

Record StudentsJoin : Type := mkStudentsJoin {
  st_e : Enrollment;
  st_u : User;
  st_qs : option QuizSubmission;
  st_q : option Quiz
}.

Definition students_from (db : Db) : list StudentsJoin :=
  e ← enrollments db;
  u ← List.filter (λ u, e_student_id e =? user_id u) (users db);
  qs ← left_rows (List.filter (λ s, user_id u =? qs_student_id s) (quiz_submissions db));
  q ← left_rows
        match qs with
        | None => []
        | Some s =>
            List.filter
              (λ z, (qs_quiz_id s =? quiz_id z) && (q_course_id z =? e_course_id e))
              (quizzes db)
        end;
  [mkStudentsJoin e u qs q].

Definition StudentsKey : Type :=
  Z * string * string * option Z * option EnrollStatus.

Definition students_key (r : StudentsJoin) : StudentsKey :=
  (user_id (st_u r), name (st_u r), email (st_u r),
   enrolled_at (st_e r), e_status (st_e r)).

Record StudentRow : Type := mkStudentRow {
  row_user_id : Z;
  row_name : string;
  row_email : string;
  row_enrolled_at : option Z;
  row_status : option EnrollStatus;
  row_quizzes_submitted : Z;
  row_avg_percentage : option Q
}.

Definition students_select (g : StudentsKey * list StudentsJoin) : StudentRow :=
  let '(uid, uname, uemail, at_, st, rows) := g in
  {| row_user_id := uid; row_name := uname; row_email := uemail;
     row_enrolled_at := at_; row_status := st;
     row_quizzes_submitted := count_distinct (λ r, submission_id <$> st_qs r) rows;
     row_avg_percentage := ROUND2 (AVG (λ r, percentage (st_qs r) (st_q r)) rows) |}.

(** WHERE e.course_id = ? AND e.status = 'active' *)
Definition students_where (courseId : Z) (r : StudentsJoin) : bool :=
  (e_course_id (st_e r) =? courseId)
  && bool_decide (e_status (st_e r) = Some active).

Definition course_students (courseId : Z) (db : Db) : list StudentRow :=
  students_select
    <$> group_by students_key (List.filter (students_where courseId) (students_from db)).

(** *** The statements of enrollInCourse *)

(** SELECT course_id, course_name FROM courses WHERE course_id = ? *)
Definition select_course (courseId : Z) (db : Db) : list Course :=
  List.filter (λ c, course_id c =? courseId) (courses db).

(** SELECT enrollment_id, status FROM enrollments
    WHERE student_id = ? AND course_id = ? *)
Definition select_enrollment (studentId courseId : Z) (db : Db) : list Enrollment :=
  List.filter (λ e, (e_student_id e =? studentId) && (e_course_id e =? courseId))
              (enrollments db).

(** INSERT INTO enrollments (student_id, course_id, status) VALUES (?, ?, 'active'):
    the foreign keys and the unique key of the table are checked, the row
    takes the next AUTO_INCREMENT id and CURRENT_TIMESTAMP. *)
Definition insert_enrollment (studentId courseId now : Z) (db : Db) : Exn + (Z * Db) :=
  if negb (existsb (λ u, user_id u =? studentId) (users db))
     || negb (existsb (λ c, course_id c =? courseId) (courses db)) then
    inl (StoreError "Cannot add or update a child row: a foreign key constraint fails")
  else if existsb (λ e, (e_student_id e =? studentId) && (e_course_id e =? courseId))
                  (enrollments db) then
    inl (StoreError "Duplicate entry for key 'unique_enrollment'")
  else
    let id := next_enrollment_id db in
    inr (id,
         {| users := users db; courses := courses db;
            enrollments :=
              enrollments db ++ [mkEnrollment id studentId courseId (Some now) (Some active)];
            quizzes := quizzes db; quiz_submissions := quiz_submissions db;
            next_enrollment_id := id + 1 |}).

End Relational.

(** ** src/models/ActivityLog.js *)

Module ActivityLog.

Definition actions : list string :=
  ["LOGIN"; "LOGOUT"; "REGISTER"; "VIEW_COURSE"; "ENROLL_COURSE"; "DROP_COURSE";
   "CREATE_COURSE"; "UPDATE_COURSE"; "DELETE_COURSE"; "VIEW_QUIZ"; "SUBMIT_QUIZ";
   "CREATE_QUIZ"; "GRADE_QUIZ"; "VIEW_ASSIGNMENT"; "SUBMIT_ASSIGNMENT";
   "CREATE_ASSIGNMENT"; "GRADE_ASSIGNMENT"; "CREATE_DISCUSSION"; "POST_COMMENT";
   "EDIT_COMMENT"; "DELETE_COMMENT"; "VIEW_DASHBOARD"; "UPDATE_PROFILE";
   "CHANGE_PASSWORD"].

Definition resource_types : list string :=
  ["course"; "quiz"; "assignment"; "discussion"; "user"; "enrollment"].

Definition device_types : list string := ["desktop"; "mobile"; "tablet"; "unknown"].

(** A [Mixed] path: a MySQL id or the text of another id. *)
Inductive Mixed : Type := MNum (n : Z) | MStr (s : string).

Record Metadata : Type := mkMetadata {
  ip_address : option string;
  user_agent : option string;
  browser : option string;
  os : option string;
  device_type : option string;
  additional_data : option string
}.

(** The object [{}]. *)
Definition no_metadata : Metadata := mkMetadata None None None None None None.

(** The [logData] argument of the static [logActivity]. *)
Record LogData : Type := mkLogData {
  ld_user_id : Z;
  ld_action : string;
  ld_success : option bool;
  ld_course_id : option Z;
  ld_resource_type : option string;
  ld_resource_id : option Mixed;
  ld_error_message : option string;
  ld_metadata : option Metadata
}.

Record t : Type := mkLog {
  user_id : Z;
  action : string;
  timestamp : Z;
  course_id : option Z;
  resource_type : option string;
  resource_id : option Mixed;
  metadata : Metadata;
  success : bool;
  error_message : option string
}.

Definition with_default_device (m : Metadata) : Metadata :=
  mkMetadata (trim <$> ip_address m) (trim <$> user_agent m) (trim <$> browser m)
             (trim <$> os m)
             (Some (default "unknown" (device_type m)))
             (additional_data m).

(** [new this({...})] in [logActivity]: [metadata || {}], and
    [success !== undefined ? success : true]. *)
Definition build (ld : LogData) (now : Z) : t :=
  {| user_id := ld_user_id ld;
     action := ld_action ld;
     timestamp := now;
     course_id := ld_course_id ld;
     resource_type := ld_resource_type ld;
     resource_id := ld_resource_id ld;
     metadata := with_default_device (default no_metadata (ld_metadata ld));
     success := default true (ld_success ld);
     error_message := trim <$> ld_error_message ld |}.

Definition mem (s : string) (l : list string) : bool := bool_decide (s ∈ l).

(** The enum validators of the schema, run by [save] before the write. *)
Definition valid (l : t) : bool :=
  mem (action l) actions
  && match resource_type l with None => true | Some r => mem r resource_types end
  && match device_type (metadata l) with None => true | Some d => mem d device_types end.

Definition validation_error : Exn := Error "ActivityLog validation failed".

(** The static [logActivity(logData)]: build the document, [await log.save()]. *)
Definition logActivity (ld : LogData) (now : Z) (st : Store.t (list t))
  : (Exn + t) * Store.t (list t) :=
  let log := build ld now in
  if negb (valid log) then (inl validation_error, st)
  else
    match Store.save (Store.stored st ++ [log]) st with
    | (inl e, st') => (inl e, st')
    | (inr _, st') => (inr log, st')
    end.

End ActivityLog.

(** ** The process the handlers run in *)

Record World : Type := mkWorld {
  db : Relational.Db;
  discussions : list Discussion.t;
  assignments : list Assignment.t;
  activity_logs : Store.t (list ActivityLog.t);
  console : list string
}.

(** A handler step: it reads and changes the world, and returns or throws. *)
Definition M (A : Type) : Type := World → (Exn + A) * World.

Definition ret {A : Type} (a : A) : M A := λ w, (inr a, w).

Definition throw {A : Type} (e : Exn) : M A := λ w, (inl e, w).

Definition bind {A B : Type} (m : M A) (k : A → M B) : M B :=
  λ w, match m w with
       | (inl e, w') => (inl e, w')
       | (inr a, w') => k a w'
       end.

(** [try { m } catch (error) { h error }] *)
Definition try_catch {A : Type} (m : M A) (h : Exn → M A) : M A :=
  λ w, match m w with
       | (inl e, w') => h e w'
       | (inr a, w') => (inr a, w')
       end.

Notation "x ←ᴹ m ;; k" := (bind m (λ x, k))
  (at level 100, m at next level, right associativity, only parsing).

(** [console.error(label, text)] *)
Definition console_add (label text : string) (w : World) : World :=
  mkWorld (db w) (discussions w) (assignments w) (activity_logs w)
          (console w ++ [(label ++ " " ++ text)%string]).

Definition console_error (label text : string) : M unit :=
  λ w, (inr tt, console_add label text w).

(** A handler: [try { m } catch (error) { console.error(label, error);
    res.status(500).json({success: false, message, error: error.message}) }],
    where [m] ends in the response it sends. *)
Definition handler {D : Type} (m : M (Response D)) (label msg : string)
  : World → Response D * World :=
  λ w, match m w with
       | (inr r, w') => (r, w')
       | (inl error, w') =>
           (fail_response 500 msg (Some (message_of error)),
            console_add label (message_of error) w')
       end.

Definition get_db : M Relational.Db := λ w, (inr (db w), w).

Definition put_db (d : Relational.Db) : M unit :=
  λ w, (inr tt, mkWorld d (discussions w) (assignments w) (activity_logs w) (console w)).

(** [ActivityLog.logActivity(logData)] run against the log collection. *)
Definition log_to_store (ld : ActivityLog.LogData) (now : Z) : M ActivityLog.t :=
  λ w, let '(r, st) := ActivityLog.logActivity ld now (activity_logs w) in
       (r, mkWorld (db w) (discussions w) (assignments w) st (console w)).

(** ** src/middleware/activityLogger.js *)

Module ActivityLogger.

Record ReqUser : Type := mkReqUser {
  user_id : Z;
  user_name : string;
  user_role : Relational.Role
}.

Record Body : Type := mkBody {
  body_course_id : option Z
}.

Record Request : Type := mkRequest {
  user : option ReqUser;
  params_courseId : option Z;
  params_id : option string;
  body : option Body;
  header_user_agent : option string;
  ip : option string
}.

(** [s.includes(needle)] *)
Definition includes (needle s : string) : bool :=
  match String.index 0 needle s with
  | Some _ => true
  | None => false
  end.

Definition to_lower (a : ascii) : ascii :=
  let n := Ascii.N_of_ascii a in
  if ((65 <=? n) && (n <=? 90))%N then Ascii.ascii_of_N (n + 32) else a.

Fixpoint lower (s : string) : string :=
  match s with
  | EmptyString => EmptyString
  | String a s' => String (to_lower a) (lower s')
  end.

(** [extractMetadata(req)] *)
Definition extractMetadata (req : Request) : ActivityLog.Metadata :=
  let userAgent := default "" (header_user_agent req) in
  let deviceType :=
    if includes "mobile" (lower userAgent) then "mobile"
    else if includes "tablet" (lower userAgent) || includes "ipad" (lower userAgent)
         then "tablet"
    else "desktop" in
  let browser :=
    if includes "Chrome" userAgent then "Chrome"
    else if includes "Firefox" userAgent then "Firefox"
    else if includes "Safari" userAgent then "Safari"
    else if includes "Edge" userAgent then "Edge"
    else "Unknown" in
  let os :=
    if includes "Windows" userAgent then "Windows"
    else if includes "Mac" userAgent then "macOS"
    else if includes "Linux" userAgent then "Linux"
    else if includes "Android" userAgent then "Android"
    else if includes "iOS" userAgent then "iOS"
    else "Unknown" in
  ActivityLog.mkMetadata (ip req) (Some userAgent) (Some browser) (Some os)
                         (Some deviceType) None.

(** [options.additionalData]: absent, a value, or a function of the
    request and the response body, which may throw. *)
Inductive AdditionalData (D : Type) : Type :=
| NoAdditional
| Constant (v : string)
| Computed (f : Request → D → Exn + string).
Arguments NoAdditional {D}.
Arguments Constant {D}.
Arguments Computed {D}.

Record Options (D : Type) : Type := mkOptions {
  resourceType : option string;
  additionalData : AdditionalData D
}.
Arguments mkOptions {D}.
Arguments resourceType {D}.
Arguments additionalData {D}.

(** The course id the wrapper reads: [req.params.courseId] when it is
    there, else [req.body.course_id], and reading it from a request
    without a body is a TypeError. *)
Definition read_course_id (req : Request) : Exn + option Z :=
  match params_courseId req with
  | Some c => inr (Some c)
  | None =>
      match body req with
      | None => inl (TypeError "Cannot read properties of undefined (reading 'course_id')")
      | Some b =>
          match body_course_id b with
          | Some c => inr (if c =? 0 then None else Some c)
          | None => inr None
          end
      end
  end.

Definition read_additional {D : Type} (o : Options D) (req : Request) (d : D)
  : Exn + option string :=
  match additionalData o with
  | NoAdditional => inr None
  | Constant v => inr (if falsy (Some v) then None else Some v)
  | Computed f => match f req d with inl e => inl e | inr v => inr (Some v) end
  end.

(** [if (x) { logData.field = x }] on a string: an empty one is not set. *)
Definition truthy_string (o : option string) : option string :=
  if falsy o then None else o.

(** The [logData] the wrapper builds for an authenticated user. *)
Definition build_logData {D : Type} (act : string) (o : Options D) (req : Request)
           (u : ReqUser) (statusCode : Z) (d : D) : M ActivityLog.LogData :=
  match read_course_id req with
  | inl e => throw e
  | inr cid =>
      match read_additional o req d with
      | inl e => throw e
      | inr extra =>
          let m := extractMetadata req in
          ret (ActivityLog.mkLogData
                 (user_id u) act (Some (statusCode <? 400)) cid
                 (truthy_string (resourceType o))
                 (ActivityLog.MStr <$> truthy_string (params_id req)) None
                 (Some (ActivityLog.mkMetadata
                          (ActivityLog.ip_address m) (ActivityLog.user_agent m)
                          (ActivityLog.browser m) (ActivityLog.os m)
                          (ActivityLog.device_type m) extra)))
      end
  end.

(** The [res.json] that [logActivity(action, options)] installs.  The body
    of [try] logs when [req.user && req.user.user_id]; the promise of
    [ActivityLog.logActivity] has its own [.catch]; [originalJson(data)]
    follows the [try] and its result is the body that is sent. *)
Definition logActivity {D : Type} (act : string) (o : Options D) (req : Request)
           (statusCode now : Z) (d : D) : M D :=
  _ ←ᴹ try_catch
         (match user req with
          | Some u =>
              if user_id u =? 0 then ret tt
              else
                logData ←ᴹ build_logData act o req u statusCode d ;;
                try_catch
                  (_ ←ᴹ log_to_store logData now ;; ret tt)
                  (λ err, console_error "Activity logging error:" (message_of err))
          | None => ret tt
          end)
         (λ error, console_error "Activity logger error:" (message_of error)) ;;
  ret d.

(** The [options] argument of [logManualActivity]. *)
Record ManualOptions : Type := mkManualOptions {
  mo_success : option bool;
  mo_course_id : option Z;
  mo_resource_type : option string;
  mo_resource_id : option ActivityLog.Mixed;
  mo_error_message : option string;
  mo_metadata : option ActivityLog.Metadata
}.

(** [logManualActivity(userId, action, options)] *)
Definition logManualActivity (userId : Z) (act : string) (o : ManualOptions) (now : Z)
  : M unit :=
  try_catch
    (let logData :=
       ActivityLog.mkLogData
         userId act
         (Some (default true (mo_success o)))
         (mo_course_id o) (mo_resource_type o) (mo_resource_id o)
         (mo_error_message o)
         (Some (default ActivityLog.no_metadata (mo_metadata o))) in
     _ ←ᴹ log_to_store logData now ;; ret tt)
    (λ error, console_error "Manual activity logging error:" (message_of error)).

End ActivityLogger.

(** ** src/controllers/courseController.js *)

Module CourseController.

Import Relational.

Record EnrollData : Type := mkEnrollData {
  enrollment_id : Z;
  ed_course_id : Z;
  ed_course_name : string
}.

(** [enrollInCourse(req, res)] for [req.user.user_id = studentId] and
    [req.params.id = courseId]; [now] is the clock of both stores. *)
Definition enrollInCourse (studentId courseId now : Z) : World → Response EnrollData * World :=
  handler
      (d ←ᴹ get_db ;;
       match select_course courseId d with
       | [] => ret (fail_response 404 "Course not found" None)
       | course :: _ =>
           match select_enrollment studentId courseId d with
           | existing :: _ =>
               ret (fail_response 409
                      ("Already " ++ show_status (e_status existing) ++ " in this course")%string
                      None)
           | [] =>
               match insert_enrollment studentId courseId now d with
               | inl e => throw e
               | inr (insertId, d') =>
                   _ ←ᴹ put_db d' ;;
                   _ ←ᴹ ActivityLogger.logManualActivity studentId "ENROLL_COURSE"
                          (ActivityLogger.mkManualOptions
                             None (Some courseId) (Some "enrollment")
                             (Some (ActivityLog.MNum insertId)) None None)
                          now ;;
                   ret (ok_response 201
                          (Some ("Successfully enrolled in " ++ course_name course)%string)
                          (mkEnrollData insertId courseId (course_name course)))
               end
           end
       end)
      "Enroll error:" "Failed to enroll in course".

(** [getCourseStudents(req, res)] for [req.params.id = courseId]. *)
Definition getCourseStudents (user : ActivityLogger.ReqUser) (courseId : Z) (d : Db)
  : Response (list StudentRow) :=
  match List.filter (λ c, course_id c =? courseId) (courses d) with
  | [] => fail_response 404 "Course not found" None
  | course :: _ =>
      if bool_decide (ActivityLogger.user_role user = instructor)
         && negb (instructor_id course =? ActivityLogger.user_id user)
      then fail_response 403 "Access denied" None
      else ok_response 200 None (course_students courseId d)
  end.

End CourseController.

(** ** src/controllers/discussionController.js and assignmentController.js

    Both handlers call a static of their model.  The statics a model has
    are those its file declares ([findByCourse] for Discussion;
    [findByCourse], [findByIdWithSubmissions] and [findUpcoming] for
    Assignment) and those of Mongoose; reading any other name from the model
    gives [undefined], here [None], and calling it is a TypeError. *)

Module DocumentControllers.

Record DiscussionInput : Type := mkDiscussionInput {
  di_course_id : Z;
  di_author_id : Z;
  di_author_name : string;
  di_title : string;
  di_content : string;
  di_tags : list string
}.

Record AssignmentInput : Type := mkAssignmentInput {
  ai_course_id : Z;
  ai_student_id : Z;
  ai_student_name : string;
  ai_title : string;
  ai_description : option string;
  ai_submission_type : string;
  ai_submission_content : string
}.

(** [Discussion.createDiscussion] as src/models/Discussion.js leaves it. *)
Definition Discussion_createDiscussion : option (DiscussionInput → M Discussion.t) := None.

(** [Assignment.submitAssignment] as the Assignment model leaves it. *)
Definition Assignment_submitAssignment : option (AssignmentInput → M Assignment.t) := None.

Definition call_static {I A : Type} (name : string) (static : option (I → M A)) (i : I)
  : M A :=
  match static with
  | Some f => f i
  | None => throw (TypeError (name ++ " is not a function")%string)
  end.

Record CreateDiscussionBody : Type := mkCreateDiscussionBody {
  b_title : option string;
  b_content : option string;
  b_tags : option (list string)
}.

(** [createDiscussion(req, res)] for [req.params.courseId = courseId]; the
    static is an argument so that the handler can be read on its own. *)
Definition createDiscussion_with (static : option (DiscussionInput → M Discussion.t))
           (user : ActivityLogger.ReqUser) (courseId : Z) (b : CreateDiscussionBody)
  : World → Response Discussion.t * World :=
  handler
      (if falsy (b_title b) || falsy (b_content b) then
         ret (fail_response 400 "Title and content are required" None)
       else
         discussion ←ᴹ call_static "Discussion.createDiscussion" static
                         (mkDiscussionInput courseId
                            (ActivityLogger.user_id user) (ActivityLogger.user_name user)
                            (default "" (b_title b)) (default "" (b_content b))
                            (default [] (b_tags b))) ;;
         ret (ok_response 201 (Some "Discussion created successfully") discussion))
      "Create discussion error:" "Failed to create discussion".

Definition createDiscussion := createDiscussion_with Discussion_createDiscussion.

Record SubmitAssignmentBody : Type := mkSubmitAssignmentBody {
  b_a_title : option string;
  b_description : option string;
  b_submission_type : option string;
  b_submission_content : option string
}.

(** [submitAssignment(req, res)] for [req.params.courseId = courseId]. *)
Definition submitAssignment_with (static : option (AssignmentInput → M Assignment.t))
           (user : ActivityLogger.ReqUser) (courseId : Z) (b : SubmitAssignmentBody)
  : World → Response Assignment.t * World :=
  handler
      (if falsy (b_a_title b) || falsy (b_submission_type b)
          || falsy (b_submission_content b) then
         ret (fail_response 400 "Title, submission type, and content are required" None)
       else
         assignment ←ᴹ call_static "Assignment.submitAssignment" static
                         (mkAssignmentInput courseId
                            (ActivityLogger.user_id user) (ActivityLogger.user_name user)
                            (default "" (b_a_title b)) (b_description b)
                            (default "" (b_submission_type b))
                            (default "" (b_submission_content b))) ;;
         ret (ok_response 201 (Some "Assignment submitted successfully") assignment))
      "Submit assignment error:" "Failed to submit assignment".

Definition submitAssignment := submitAssignment_with Assignment_submitAssignment.

(** Whether a course row with this id is in the relational store. *)
Definition course_exists (courseId : Z) (w : World) : bool :=
  existsb (λ c, Relational.course_id c =? courseId) (Relational.courses (db w)).

End DocumentControllers.

(** ** src/controllers/activityController.js: getPlatformStats

    The handler binds [mysqlPool] to [require('../config/mysql')], the
    exports object of that module, and calls [mysqlPool.query] on it; the
    models answer the other awaits.  What the two stores would answer is
    the input of the model, in the order the handler asks. *)

Module ActivityController.

Record Answers : Type := mkAnswers {
  userStats : Exn + list (string * Z);
  courseStats : Exn + list Z;
  enrollmentStats : Exn + list Z;
  quizStats : Exn + list Z;
  submissionStats : Exn + list Z;
  totalActivities : Exn + Z;
  totalDiscussions : Exn + Z;
  totalAssignments : Exn + Z;
  activityTrend : Exn + list (string * Z)
}.

Record MysqlStats : Type := mkMysqlStats {
  ms_users : list (string * Z);
  ms_courses : Z;
  ms_enrollments : Z;
  ms_quizzes : Z;
  ms_quiz_submissions : Z;
  ms_database : string
}.

Record MongoStats : Type := mkMongoStats {
  mg_activity_logs : Z;
  mg_discussions : Z;
  mg_assignments : Z;
  mg_activity_trend : list (string * Z);
  mg_database : string
}.

Record PlatformStats : Type := mkPlatformStats {
  mysql_stats : MysqlStats;
  mongodb_stats : MongoStats
}.

Definition and_then {A B : Type} (r : Exn + A) (k : A → Exn + B) : Exn + B :=
  match r with
  | inl e => inl e
  | inr a => k a
  end.

Notation "x ←ᴱ r ;; k" := (and_then r (λ x, k))
  (at level 100, r at next level, right associativity, only parsing).

(** [rows[0].column] *)
Definition first_row (column : string) (rows : list Z) : Exn + Z :=
  match rows with
  | [] => inl (TypeError ("Cannot read properties of undefined (reading '"
                          ++ column ++ "')")%string)
  | n :: _ => inr n
  end.

(** [module.exports] of src/config/mysql.js. *)
Definition mysql_exports : list string :=
  ["pool"; "testConnection"; "executeQuery"; "executeTransaction"; "closeConnection"].

(** [await mysqlPool.query(sql)] on an object with the properties
    [exports]: a name that is not among them reads as [undefined], and
    calling it is a TypeError; otherwise the relational store answers. *)
Definition mysqlPool_query {A : Type} (exports : list string) (answer : Exn + A)
  : Exn + A :=
  if bool_decide ("query" ∈ exports) then answer
  else inl (TypeError "mysqlPool.query is not a function").

(** The body of the [try] block, for a [mysqlPool] with the properties
    [exports]. *)
Definition collect_with (exports : list string) (a : Answers) : Exn + PlatformStats :=
  users ←ᴱ mysqlPool_query exports (userStats a) ;;
  courses ←ᴱ mysqlPool_query exports (courseStats a) ;;
  enrollments ←ᴱ mysqlPool_query exports (enrollmentStats a) ;;
  quizzes ←ᴱ mysqlPool_query exports (quizStats a) ;;
  submissions ←ᴱ mysqlPool_query exports (submissionStats a) ;;
  activities ←ᴱ totalActivities a ;;
  discussions ←ᴱ totalDiscussions a ;;
  assignments ←ᴱ totalAssignments a ;;
  trend ←ᴱ activityTrend a ;;
  total_courses ←ᴱ first_row "total_courses" courses ;;
  total_enrollments ←ᴱ first_row "total_enrollments" enrollments ;;
  total_quizzes ←ᴱ first_row "total_quizzes" quizzes ;;
  total_submissions ←ᴱ first_row "total_submissions" submissions ;;
  inr (mkPlatformStats
         (mkMysqlStats users total_courses total_enrollments total_quizzes
                       total_submissions "MySQL")
         (mkMongoStats activities discussions assignments trend "MongoDB")).

(** [getPlatformStats(req, res)]; the properties of [mysqlPool] are an
    argument so that the handler can be read on its own. *)
Definition getPlatformStats_with (exports : list string) (a : Answers)
  : Response PlatformStats :=
  match collect_with exports a with
  | inr stats => ok_response 200 (Some "Platform statistics retrieved successfully") stats
  | inl error =>
      fail_response 500 "Failed to retrieve platform statistics" (Some (message_of error))
  end.

Definition getPlatformStats : Answers → Response PlatformStats :=
  getPlatformStats_with mysql_exports.

Definition resolved {A : Type} (r : Exn + A) : bool :=
  match r with
  | inr _ => true
  | inl _ => false
  end.

(** The two halves of the report, by the store that answers. *)
Definition relational_ok (a : Answers) : bool :=
  resolved (userStats a) && resolved (courseStats a) && resolved (enrollmentStats a)
  && resolved (quizStats a) && resolved (submissionStats a).

Definition document_ok (a : Answers) : bool :=
  resolved (totalActivities a) && resolved (totalDiscussions a)
  && resolved (totalAssignments a) && resolved (activityTrend a).

End ActivityController.

(** ** Vocabulary of the specification *)




(** The error kinds of the specification, as the messages the models throw. *)
Definition PostNotFound : Exn := Error "Post not found".
Definition SubmissionNotFound : Exn := Error Assignment.not_found_message.
Definition LateSubmissionRejected : Exn := Error Assignment.late_message.
Definition GradeOutOfRange (max_marks : Z) : Exn :=
  Error (Assignment.grade_message max_marks).

(** At most one embedded submission per student. *)
Definition one_submission_per_student (a : Assignment.t) : Prop :=
  NoDup (Assignment.student_ids a).

(** The derived counter agrees with the embedded list. *)
Definition submission_count_matches (a : Assignment.t) : Prop :=
  Assignment.submission_count a = Z.of_nat (length (Assignment.submissions a)).

(** The assignment of the specification's scenario: 100 marks, due at 1000,
    late submissions refused, nothing submitted yet. *)
Definition scenario_assignment : Assignment.t :=
  {| Assignment.course_id := 3; Assignment.assignment_title := "Normalization";
     Assignment.description := "Normalize the schema"; Assignment.instructions := None;
     Assignment.max_marks := 100; Assignment.due_date := 1000;
     Assignment.created_at := 0; Assignment.created_by := 2;
     Assignment.updated_at := 0; Assignment.is_active := true;
     Assignment.allow_late_submission := false; Assignment.attachments := [];
     Assignment.submissions := []; Assignment.submission_count := 0 |}.

Definition text_submission (text : string) : Assignment.SubmissionData :=
  Assignment.mkSubmissionData (Some "text") None None (Some text) None.

(** The retry of the specification, in its weakest form: an operation that
    retries a conflicting write (with any bound of two attempts or more)
    succeeds when the store refuses the first [save] with a version conflict
    and accepts the next one. *)
Definition survives_one_conflict {D : Type}
    (op : D → Store.t D → (Exn + D) * Store.t D) : Prop :=
  ∀ (d : D) (st : Store.t D) (rest : list (option Exn)),
    Store.pending st = Some Store.VersionError :: None :: rest →
    ∃ d', fst (op d st) = inr d'.

(** The sample rows of schema.sql (names and codes only where a query
    reads them; timestamps as small integers). *)
Definition sample_db : Relational.Db :=
  {| Relational.users :=
       [Relational.mkUser 1 "John Admin" "admin@university.edu" Relational.admin;
        Relational.mkUser 2 "Dr. Divya Mishra" "divya.mishra@ddn.upes.ac.in" Relational.instructor;
        Relational.mkUser 3 "Dr. Neelu Jyoti Ahuja" "neelu.ahuja@ddn.upes.ac.in" Relational.instructor;
        Relational.mkUser 4 "Alice Smith" "alice.smith@student.edu" Relational.student;
        Relational.mkUser 5 "Bob Williams" "bob.williams@student.edu" Relational.student;
        Relational.mkUser 6 "Carol Davis" "carol.davis@student.edu" Relational.student;
        Relational.mkUser 7 "David Brown" "david.brown@student.edu" Relational.student];
     Relational.courses :=
       [Relational.mkCourse 1 "CS101" "Introduction to Computer Science" 2;
        Relational.mkCourse 2 "CS201" "Data Structures and Algorithms" 2;
        Relational.mkCourse 3 "CS301" "Database Management Systems" 3;
        Relational.mkCourse 4 "CS401" "Web Development" 3];
     Relational.enrollments :=
       [Relational.mkEnrollment 1 4 1 (Some 0) (Some Relational.active);
        Relational.mkEnrollment 2 4 3 (Some 0) (Some Relational.active);
        Relational.mkEnrollment 3 5 1 (Some 0) (Some Relational.active);
        Relational.mkEnrollment 4 5 2 (Some 0) (Some Relational.active);
        Relational.mkEnrollment 5 5 3 (Some 0) (Some Relational.active);
        Relational.mkEnrollment 6 6 2 (Some 0) (Some Relational.active);
        Relational.mkEnrollment 7 6 4 (Some 0) (Some Relational.active);
        Relational.mkEnrollment 8 7 1 (Some 0) (Some Relational.active);
        Relational.mkEnrollment 9 7 3 (Some 0) (Some Relational.active)];
     Relational.quizzes :=
       [Relational.mkQuiz 1 1 50; Relational.mkQuiz 2 1 50;
        Relational.mkQuiz 3 3 100; Relational.mkQuiz 4 3 100;
        Relational.mkQuiz 5 2 75];
     Relational.quiz_submissions :=
       [Relational.mkQuizSubmission 1 1 4 45; Relational.mkQuizSubmission 2 1 5 38;
        Relational.mkQuizSubmission 3 1 7 42; Relational.mkQuizSubmission 4 3 4 85;
        Relational.mkQuizSubmission 5 3 5 92; Relational.mkQuizSubmission 6 3 7 78;
        Relational.mkQuizSubmission 7 5 5 68; Relational.mkQuizSubmission 8 5 6 71];
     Relational.next_enrollment_id := 10 |}.

(** The sample rows with the enrollments replaced. *)
Definition with_enrollments (es : list Relational.Enrollment) (d : Relational.Db)
  : Relational.Db :=
  {| Relational.users := Relational.users d; Relational.courses := Relational.courses d;
     Relational.enrollments := es; Relational.quizzes := Relational.quizzes d;
     Relational.quiz_submissions := Relational.quiz_submissions d;
     Relational.next_enrollment_id := Relational.next_enrollment_id d |}.

(** A process with the given relational rows, no documents, a log
    collection that answers [answers], and an empty console. *)
Definition world_of (d : Relational.Db) (answers : list (option Exn)) : World :=
  mkWorld d [] [] (Store.mkStore [] answers 0) [].

Definition with_log_store (st : Store.t (list ActivityLog.t)) (w : World) : World :=
  mkWorld (db w) (discussions w) (assignments w) st (console w).

Definition alice : ActivityLogger.ReqUser :=
  ActivityLogger.mkReqUser 4 "Alice Smith" Relational.student.

(** Every enrollment row names a course row (FOREIGN KEY (course_id)). *)
Definition enrollment_course_fk (d : Relational.Db) : Prop :=
  ∀ e, e ∈ Relational.enrollments d →
       ∃ c, c ∈ Relational.courses d ∧ Relational.course_id c = Relational.e_course_id e.

(** The partial report of the specification, in its weakest form: when the
    relational store would answer every query (with a row for every count)
    and the document store fails, the report is still a success. *)
Definition reports_surviving_half : Prop :=
  ∀ a : ActivityController.Answers,
    ActivityController.relational_ok a = true →
    (∀ rows, rows ∈ [ActivityController.courseStats a; ActivityController.enrollmentStats a;
                     ActivityController.quizStats a; ActivityController.submissionStats a] →
             rows ≠ inr []) →
    success (ActivityController.getPlatformStats a) = true.

(** Answers of a relational store that is up and of a document store that
    is down. *)
Definition document_store_down : ActivityController.Answers :=
  let down {A} : Exn + A := inl (StoreError "connect ECONNREFUSED 127.0.0.1:27017") in
  ActivityController.mkAnswers
    (inr [("admin", 1); ("instructor", 2); ("student", 4)])
    (inr [4]) (inr [9]) (inr [5]) (inr [8])
    down down down down.

Definition relational_store_down : ActivityController.Answers :=
  let down {A} : Exn + A := inl (StoreError "connect ECONNREFUSED 127.0.0.1:3306") in
  ActivityController.mkAnswers
    down down down down down
    (inr 12) (inr 3) (inr 2) (inr [("2025-12-14", 12)]).

(** Answers of two stores that are up. *)
Definition both_stores_up : ActivityController.Answers :=
  ActivityController.mkAnswers
    (inr [("admin", 1); ("instructor", 2); ("student", 4)])
    (inr [4]) (inr [9]) (inr [5]) (inr [8])
    (inr 12) (inr 3) (inr 2) (inr [("2025-12-14", 12)]).

(** The student has no submission for a quiz of the course. *)
Definition no_submission_in_course (d : Relational.Db) (studentId courseId : Z) : Prop :=
  ∀ q s, q ∈ Relational.quizzes d → s ∈ Relational.quiz_submissions d →
         Relational.q_course_id q = courseId →
         Relational.qs_quiz_id s = Relational.quiz_id q →
         Relational.qs_student_id s ≠ studentId.

(** The course has no quiz. *)
Definition no_quiz_in_course (d : Relational.Db) (courseId : Z) : Prop :=
  ∀ q, q ∈ Relational.quizzes d → Relational.q_course_id q ≠ courseId.

(** [x] has two decimal places and is at most half a hundredth away from [m]. *)
Definition rounded_to_2_places (m x : Q) : Prop :=
  ∃ n : Z, x = Qmake n 100 ∧ (Qabs (x - m) <= 1 # 200)%Q.

(** A request of Alice for /courses/1/enroll, with and without a parsed body. *)
Definition enroll_request (b : option ActivityLogger.Body) : ActivityLogger.Request :=
  ActivityLogger.mkRequest (Some alice) None (Some "1") b
    (Some "Mozilla/5.0 (iPad; CPU OS 13_2 like Mac OS X) Safari/604.1") (Some "::1").

(** ** Runs of calls on one document *)

(** One call of a method of a thread. *)
Inductive PostOp : Type :=
| AddPost (userId : Z) (text : string) (now1 now2 : Z)
| EditPost (postId : Z) (newContent : string) (now1 now2 : Z).

Definition apply_post_op (op : PostOp) (d : Discussion.t) : Outcome * Discussion.t :=
  match op with
  | AddPost userId text now1 now2 => Discussion.addPost userId text now1 now2 d
  | EditPost postId newContent now1 now2 => Discussion.editPost postId newContent now1 now2 d
  end.

(** A run of calls on the same thread; a call that throws leaves the thread
    to the next call as it is. *)
Definition run_post_ops (ops : list PostOp) (d : Discussion.t) : Discussion.t :=
  foldl (λ acc op, snd (apply_post_op op acc)) d ops.

Definition is_add (op : PostOp) : bool :=
  match op with
  | AddPost _ _ _ _ => true
  | EditPost _ _ _ _ => false
  end.

(** The number of [addPost] calls of a run. *)
Definition count_adds (ops : list PostOp) : nat := length (List.filter is_add ops).

(** One call of a method of an assignment. *)
Inductive AssignmentOp : Type :=
| SubmitOp (studentId : Z) (sd : Assignment.SubmissionData) (now : Z)
| GradeOp (studentId : Z) (gd : Assignment.GradeData) (now1 now2 : Z).

Definition apply_assignment_op (op : AssignmentOp) (a : Assignment.t)
  : Outcome * Assignment.t :=
  match op with
  | SubmitOp studentId sd now => Assignment.addSubmission studentId sd now a
  | GradeOp studentId gd now1 now2 => Assignment.gradeSubmission studentId gd now1 now2 a
  end.

(** A run of calls on the same assignment; a call that throws leaves the
    assignment to the next call as it is. *)
Definition run_assignment_ops (ops : list AssignmentOp) (a : Assignment.t) : Assignment.t :=
  foldl (λ acc op, snd (apply_assignment_op op acc)) a ops.

(** An embedded submission that carries a grade has status [graded]. *)
Definition grade_implies_graded (a : Assignment.t) : Prop :=
  ∀ s, s ∈ Assignment.submissions a →
       is_Some (Assignment.grade s) → Assignment.status s = Assignment.graded.

(** ** src/models/Assignment.js: getStatistics

    The counts are integers.  The two averages are computed in floating
    point; they are kept as the expressions the method evaluates. *)

Module AssignmentStatistics.

Inductive Num : Type :=
| Int (n : Z)
| Div (a b : Num)
| Mul (a b : Num)
| Round (a : Num).

Record t : Type := mkStatistics {
  total_submissions : Z;
  graded_submissions : Z;
  late_submissions : Z;
  pending_grading : Z;
  average_grade : Num;
  average_percentage : Num
}.

Definition status_is (st : Assignment.Status) (s : Assignment.Submission) : bool :=
  match st, Assignment.status s with
  | Assignment.submitted, Assignment.submitted
  | Assignment.graded, Assignment.graded
  | Assignment.late, Assignment.late
  | Assignment.resubmit, Assignment.resubmit => true
  | _, _ => false
  end.

(** [this.submissions.filter(s => s.status === st).length] *)
Definition count_status (st : Assignment.Status) (a : Assignment.t) : Z :=
  Z.of_nat (length (List.filter (status_is st) (Assignment.submissions a))).

(** [.filter(s => s.grade !== undefined).reduce((sum, s) => sum + s.grade, 0)] *)
Definition totalGrades (a : Assignment.t) : Z :=
  foldl (λ sum g, sum + g) 0 (omap Assignment.grade (Assignment.submissions a)).

(** [getStatistics()] *)
Definition getStatistics (a : Assignment.t) : t :=
  let totalSubmissions := Z.of_nat (length (Assignment.submissions a)) in
  let gradedSubmissions := count_status Assignment.graded a in
  let lateSubmissions := count_status Assignment.late a in
  let avgGrade :=
    if gradedSubmissions >? 0 then Div (Int (totalGrades a)) (Int gradedSubmissions)
    else Int 0 in
  {| total_submissions := totalSubmissions;
     graded_submissions := gradedSubmissions;
     late_submissions := lateSubmissions;
     pending_grading := totalSubmissions - gradedSubmissions;
     average_grade := Div (Round (Mul avgGrade (Int 100))) (Int 100);
     average_percentage :=
       if Assignment.max_marks a >? 0 then
         Div (Round (Mul (Div avgGrade (Int (Assignment.max_marks a))) (Int 10000)))
             (Int 100)
       else Int 0 |}.

End AssignmentStatistics.

(** ** Integrity of the enrollments table *)

(** UNIQUE KEY unique_enrollment (student_id, course_id) *)
Definition enrollment_unique (d : Relational.Db) : Prop :=
  NoDup ((λ e, (Relational.e_student_id e, Relational.e_course_id e))
           <$> Relational.enrollments d).

(** FOREIGN KEY (student_id) REFERENCES users(user_id) *)
Definition enrollment_student_fk (d : Relational.Db) : Prop :=
  ∀ e, e ∈ Relational.enrollments d →
       ∃ u, u ∈ Relational.users d ∧ Relational.user_id u = Relational.e_student_id e.

(** The AUTO_INCREMENT counter is above every id of the table, and the ids
    are distinct (PRIMARY KEY). *)
Definition enrollment_ids_fresh (d : Relational.Db) : Prop :=
  NoDup (Relational.enrollment_id <$> Relational.enrollments d)
  ∧ ∀ e, e ∈ Relational.enrollments d →
         Relational.enrollment_id e < Relational.next_enrollment_id d.

(** One request to enroll: the student, the course and the clock. *)
Record EnrollRequest : Type := mkEnrollRequest {
  er_student : Z;
  er_course : Z;
  er_now : Z
}.

(** A run of enroll requests handled one after the other. *)
Definition run_enrolls (reqs : list EnrollRequest) (w : World) : World :=
  foldl (λ acc r,
           snd (CourseController.enrollInCourse (er_student r) (er_course r) (er_now r) acc))
        w reqs.

(** UNIQUE KEY unique_submission (quiz_id, student_id) *)
Definition submission_unique (d : Relational.Db) : Prop :=
  NoDup ((λ s, (Relational.qs_quiz_id s, Relational.qs_student_id s))
           <$> Relational.quiz_submissions d).

(** The number of distinct values of a column. *)
Definition distinct_count (l : list Z) : Z := Z.of_nat (length (remove_dups l)).

(** ** Read queries of the models

    [find(query)] keeps the documents whose fields equal those of the
    query; [sort], [skip] and [limit] are applied in this order whatever the
    order of the calls.  [skip] and [limit] are natural numbers, and
    [limit(0)] sets no limit.  The order the server gives to documents that
    compare equal under the sort is not specified; here they keep the order
    a stable merge gives them. *)

Module Query.

Definition limit {A : Type} (n : nat) (l : list A) : list A :=
  match n with
  | O => l
  | _ => take n l
  end.

Definition page {A : Type} (R : relation A) `{∀ x y, Decision (R x y)}
    (sk lim : nat) (matching : list A) : list A :=
  limit lim (drop sk (merge_sort R matching)).

End Query.

(** *** src/models/Discussion.js: findByCourse *)

Module DiscussionStatics.

(** [options.pinned]: absent (the default [false] applies), [null], or a
    boolean. *)
Inductive Pinned : Type :=
| PinnedAbsent
| PinnedNull
| PinnedIs (b : bool).

Record Options : Type := mkOptions {
  o_limit : option nat;
  o_skip : option nat;
  o_pinned : Pinned
}.

(** [findByCourse(courseId)] called without options. *)
Definition no_options : Options := mkOptions None None PinnedAbsent.

(** [const { limit = 20, skip = 0, pinned = false } = options], then
    [if (pinned !== null) query.is_pinned = pinned]. *)
Definition pinned_filter (p : Pinned) : option bool :=
  match p with
  | PinnedAbsent => Some false
  | PinnedNull => None
  | PinnedIs b => Some b
  end.

Definition matches (courseId : Z) (o : Options) (d : Discussion.t) : bool :=
  (Discussion.course_id d =? courseId)
  && match pinned_filter (o_pinned o) with
     | Some b => bool_decide (Discussion.is_pinned d = b)
     | None => true
     end.

(** [sort({ is_pinned: -1, updated_at: -1 })]: pinned threads first, then
    the most recently updated first. *)
Definition before (x y : Discussion.t) : Prop :=
  match Discussion.is_pinned x, Discussion.is_pinned y with
  | true, false => True
  | false, true => False
  | _, _ => Discussion.updated_at y ≤ Discussion.updated_at x
  end.

#[global] Instance before_dec (x y : Discussion.t) : Decision (before x y).
Proof.
  unfold before.
  destruct (Discussion.is_pinned x), (Discussion.is_pinned y); apply _.
Defined.

Definition findByCourse (courseId : Z) (o : Options) (collection : list Discussion.t)
  : list Discussion.t :=
  Query.page before (default 0%nat (o_skip o)) (default 20%nat (o_limit o))
             (List.filter (matches courseId o) collection).

End DiscussionStatics.

(** *** src/models/ActivityLog.js: getUserActivity, getCourseActivity,
    getRecentActivity, getStatistics *)

Module ActivityLogStatics.

Record Options : Type := mkOptions {
  o_limit : option nat;
  o_skip : option nat;
  o_action : option string;
  o_startDate : option Z;
  o_endDate : option Z
}.

Definition no_options : Options := mkOptions None None None None None.

(** [if (action) query.action = action] *)
Definition action_matches (a : option string) (l : ActivityLog.t) : bool :=
  if falsy a then true else bool_decide (Some (ActivityLog.action l) = a).

(** [if (startDate || endDate) { query.timestamp = {}; $gte ...; $lte ... }]:
    a bound is [Some t] when the caller passed a truthy date, [t] being the
    time value of [new Date(...)] of it, and [None] otherwise. *)
Definition in_range (startDate endDate : option Z) (l : ActivityLog.t) : bool :=
  match startDate with Some s => s <=? ActivityLog.timestamp l | None => true end
  && match endDate with Some e => ActivityLog.timestamp l <=? e | None => true end.

(** [sort({ timestamp: -1 })] *)
Definition newest_first (x y : ActivityLog.t) : Prop :=
  ActivityLog.timestamp y ≤ ActivityLog.timestamp x.

#[global] Instance newest_first_dec (x y : ActivityLog.t) : Decision (newest_first x y).
Proof. unfold newest_first. apply _. Defined.

(** [getUserActivity(userId, options)] *)
Definition getUserActivity (userId : Z) (o : Options) (collection : list ActivityLog.t)
  : list ActivityLog.t :=
  Query.page newest_first (default 0%nat (o_skip o)) (default 50%nat (o_limit o))
    (List.filter
       (λ l, (ActivityLog.user_id l =? userId)
             && action_matches (o_action o) l
             && in_range (o_startDate o) (o_endDate o) l)
       collection).

(** [getCourseActivity(courseId, options)] *)
Definition getCourseActivity (courseId : Z) (o : Options) (collection : list ActivityLog.t)
  : list ActivityLog.t :=
  Query.page newest_first (default 0%nat (o_skip o)) (default 100%nat (o_limit o))
    (List.filter
       (λ l, bool_decide (ActivityLog.course_id l = Some courseId)
             && action_matches (o_action o) l
             && in_range (o_startDate o) (o_endDate o) l)
       collection).

(** [getRecentActivity(options)]: only [limit] and [action] are read. *)
Definition getRecentActivity (o : Options) (collection : list ActivityLog.t)
  : list ActivityLog.t :=
  Query.page newest_first 0 (default 100%nat (o_limit o))
    (List.filter (action_matches (o_action o)) collection).

(** The [options] of [getStatistics]. *)
Record StatOptions : Type := mkStatOptions {
  so_userId : option Z;
  so_courseId : option Z;
  so_startDate : option Z;
  so_endDate : option Z
}.

(** [if (id) matchStage.field = id]: an absent id and the id 0 set no
    filter. *)
Definition id_filter (id : option Z) : option Z :=
  match id with
  | Some 0 | None => None
  | Some n => Some n
  end.

Definition stat_matches (o : StatOptions) (l : ActivityLog.t) : bool :=
  match id_filter (so_userId o) with
  | Some u => ActivityLog.user_id l =? u
  | None => true
  end
  && match id_filter (so_courseId o) with
     | Some c => bool_decide (ActivityLog.course_id l = Some c)
     | None => true
     end
  && in_range (so_startDate o) (so_endDate o) l.

(** [{ $sort: { count: -1 } }] on the rows [{ _id, count }]. *)
Definition most_frequent_first (x y : string * Z) : Prop := snd y ≤ snd x.

#[global] Instance most_frequent_first_dec (x y : string * Z)
  : Decision (most_frequent_first x y).
Proof. unfold most_frequent_first. apply _. Defined.

(** [getStatistics(options)]: [$match], [$group] by action with
    [count: { $sum: 1 }], [$sort] by count. *)
Definition getStatistics (o : StatOptions) (collection : list ActivityLog.t)
  : list (string * Z) :=
  merge_sort most_frequent_first
    ((λ g : string * list ActivityLog.t, (fst g, Z.of_nat (length (snd g))))
       <$> Relational.group_by ActivityLog.action
             (List.filter (stat_matches o) collection)).

End ActivityLogStatics.

(** The sum of [f] over a list. *)
Definition sumZ {A : Type} (f : A → Z) (l : list A) : Z :=
  foldr (λ x acc, f x + acc) 0 l.

(** ** The keys of the relational tables and the percentages of a student *)

(** PRIMARY KEY (user_id) of users, PRIMARY KEY (course_id) of courses and
    UNIQUE KEY unique_enrollment of enrollments. *)
Definition table_keys (d : Relational.Db) : Prop :=
  NoDup (Relational.user_id <$> Relational.users d)
  ∧ NoDup (Relational.course_id <$> Relational.courses d)
  ∧ enrollment_unique d.

(** The mean of a list of values; NULL for no value. *)
Definition mean (vals : list Q) : option Q :=
  match vals with
  | [] => None
  | _ => Some (Relational.Qsum vals / inject_Z (Z.of_nat (length vals)))%Q
  end.

(** The percentages of all the submissions of the student for the quizzes
    of the course, quiz by quiz; a quiz with [max_marks] 0 gives none. *)
Definition percentages_of (d : Relational.Db) (studentId courseId : Z) : list Q :=
  q ← List.filter (λ q, courseId =? Relational.q_course_id q) (Relational.quizzes d);
  s ← List.filter (λ s, (Relational.quiz_id q =? Relational.qs_quiz_id s)
                        && (Relational.qs_student_id s =? studentId))
                  (Relational.quiz_submissions d);
  option_list (Relational.percentage (Some s) (Some q)).

(** * Properties *)

(** ** Discussion threads *)

Lemma Math_max_upper (xs : list Z) (x y : Z) :
  y ∈ x :: xs → y ≤ Math_max x xs.
Proof.
  unfold Math_max. revert x y.
  induction xs as [|z xs IH]; intros x y Hy; simpl.
  - apply list_elem_of_singleton in Hy. lia.
  - apply elem_of_cons in Hy as [->|Hy].
    + etransitivity; [|apply IH; left]. lia.
    + apply elem_of_cons in Hy as [->|Hy].
      * etransitivity; [|apply IH; left]. lia.
      * apply IH. by right.
Qed.

Lemma Math_max_attained (xs : list Z) (x : Z) :
  Math_max x xs ∈ x :: xs.
Proof.
  unfold Math_max. revert x.
  induction xs as [|z xs IH]; intros x; simpl.
  - left.
  - pose proof (IH (Z.max x z)) as [Heq|Hin]%elem_of_cons.
    + rewrite Heq. destruct (Z.max_spec x z) as [[_ ->]|[_ ->]].
      * right; left.
      * left.
    + right; by right.
Qed.

Lemma plus_exact (x y : Z) :
  Z.abs (x + y) ≤ MAX_SAFE_INTEGER + 1 → plus x y = x + y.
Proof.
  intros Hsafe. unfold plus, to_double. cbn zeta.
  destruct (Z.leb_spec (Z.abs (x + y)) (MAX_SAFE_INTEGER + 1)); [done|lia].
Qed.








(** The scenario of the specification: on a thread without posts,
    [appendPost(uid=4, "hello")] gives post 1 and a count of 1, then
    [appendPost(uid=2, "world")] gives post 2 and a count of 2. *)
Example addPost_scenario :
  let d0 := Discussion.empty 1 4 "Welcome" 0 in
  let d1 := snd (Discussion.addPost 4 "hello" 10 10 d0) in
  let d2 := snd (Discussion.addPost 2 "world" 20 20 d1) in
  Discussion.post_ids d1 = [1] ∧ Discussion.post_count d1 = 1
  ∧ Discussion.post_ids d2 = [1; 2] ∧ Discussion.post_count d2 = 2
  ∧ Discussion.editPost 99 "x" 30 30 d2 = (Threw PostNotFound, d2).
Proof. by vm_compute. Qed.

(** ** Assignments *)

Lemma find_student_Some (l : list Assignment.Submission) (studentId : Z) i s :
  list_find (λ s, Assignment.student_id s = studentId) l = Some (i, s) →
  l !! i = Some s ∧ Assignment.student_id s = studentId.
Proof. intros (? & ? & _)%list_find_Some. done. Qed.

Lemma find_student_None (l : list Assignment.Submission) (studentId : Z) :
  list_find (λ s, Assignment.student_id s = studentId) l = None →
  studentId ∉ (Assignment.student_id <$> l).
Proof.
  intros Hnone%list_find_None Hin.
  apply list_elem_of_fmap in Hin as (s & -> & Hs).
  rewrite Forall_forall in Hnone. by apply (Hnone s).
Qed.

Lemma find_student_is_Some (l : list Assignment.Submission) (studentId : Z) :
  studentId ∈ (Assignment.student_id <$> l) →
  ∃ i s, list_find (λ s, Assignment.student_id s = studentId) l = Some (i, s).
Proof.
  intros Hin.
  destruct (list_find _ l) as [[i s]|] eqn:Hfind; [by eauto|].
  by apply find_student_None in Hfind.
Qed.

Lemma replace_keeps_ids (l : list Assignment.Submission) i s s' :
  l !! i = Some s →
  Assignment.student_id s' = Assignment.student_id s →
  Assignment.student_id <$> <[i := s']> l = Assignment.student_id <$> l.
Proof.
  intros Hi Hid. rewrite list_fmap_insert. apply list_insert_id.
  rewrite list_lookup_fmap, Hi. cbn. by rewrite Hid.
Qed.

(** One call of [addSubmission] keeps both invariants, whether it throws
    or not. *)
Lemma addSubmission_keeps_invariants (a : Assignment.t) studentId sd now :
  one_submission_per_student a → submission_count_matches a →
  one_submission_per_student (snd (Assignment.addSubmission studentId sd now a))
  ∧ submission_count_matches (snd (Assignment.addSubmission studentId sd now a)).
Proof.
  unfold one_submission_per_student, submission_count_matches, Assignment.student_ids.
  intros Hnd Hcount. unfold Assignment.addSubmission.
  destruct (negb _ && _); [done|].
  destruct (list_find _ _) as [[i s]|] eqn:Hfind; cbn.
  - apply find_student_Some in Hfind as [Hi Hid].
    rewrite (replace_keeps_ids _ i s) by done.
    by rewrite length_insert.
  - apply find_student_None in Hfind. split; [|done].
    rewrite fmap_app. apply NoDup_app. split; [done|]. split.
    + intros y Hy ->%list_elem_of_singleton. done.
    + apply NoDup_singleton.
Qed.

Lemma run_submits_keeps_invariants (ops : list Assignment.Submit) (a : Assignment.t) :
  one_submission_per_student a → submission_count_matches a →
  one_submission_per_student (Assignment.run_submits ops a)
  ∧ submission_count_matches (Assignment.run_submits ops a).
Proof.
  unfold Assignment.run_submits. revert a.
  induction ops as [|op ops IH]; intros a Hnd Hcount; [done|].
  cbn [foldl]. apply IH; by apply addSubmission_keeps_invariants.
Qed.

(** C2. Starting from an assignment with at most one submission per student
    and a matching counter (a new assignment is one), any run of
    [addSubmission] calls leaves at most one submission per student and
    [submission_count] equal to the length of [submissions].  A call for a
    student who already has a submission, made before the due date or on an
    assignment that allows late submissions, reaches [save] with the new
    submission at the index of the old one: every other entry, the student
    ids, the length of the list and [submission_count] are as before, so
    nothing is appended.  A call for a student without a submission, under
    the same condition, appends the new submission and adds one to
    [submission_count]. *)
Theorem resubmission_replaces_in_place (a : Assignment.t) (ops : list Assignment.Submit) :
  one_submission_per_student a →
  submission_count_matches a →
  (one_submission_per_student (Assignment.run_submits ops a)
   ∧ submission_count_matches (Assignment.run_submits ops a))
  ∧ (∀ (studentId : Z) (sd : Assignment.SubmissionData) (now : Z)
       (i : nat) (s : Assignment.Submission),
       Assignment.submissions a !! i = Some s →
       Assignment.student_id s = studentId →
       now ≤ Assignment.due_date a ∨ Assignment.allow_late_submission a = true →
       let new := Assignment.build_submission studentId now sd
                    (now >? Assignment.due_date a) in
       let a' := snd (Assignment.addSubmission studentId sd now a) in
       fst (Assignment.addSubmission studentId sd now a) = CallsSave
       ∧ Assignment.submissions a' = <[i := new]> (Assignment.submissions a)
       ∧ Assignment.submissions a' !! i = Some new
       ∧ (∀ j, j ≠ i → Assignment.submissions a' !! j = Assignment.submissions a !! j)
       ∧ Assignment.student_ids a' = Assignment.student_ids a
       ∧ length (Assignment.submissions a') = length (Assignment.submissions a)
       ∧ Assignment.submission_count a' = Assignment.submission_count a)
  ∧ (∀ (studentId : Z) (sd : Assignment.SubmissionData) (now : Z),
       studentId ∉ Assignment.student_ids a →
       now ≤ Assignment.due_date a ∨ Assignment.allow_late_submission a = true →
       let new := Assignment.build_submission studentId now sd
                    (now >? Assignment.due_date a) in
       let a' := snd (Assignment.addSubmission studentId sd now a) in
       fst (Assignment.addSubmission studentId sd now a) = CallsSave
       ∧ Assignment.submissions a' = Assignment.submissions a ++ [new]
       ∧ Assignment.submission_count a' = Assignment.submission_count a + 1).
Proof.
  intros Hnd Hcount. split; [by apply run_submits_keeps_invariants|].
  assert (∀ now, now ≤ Assignment.due_date a ∨ Assignment.allow_late_submission a = true →
                 negb (Assignment.allow_late_submission a)
                 && (now >? Assignment.due_date a) = false) as Hontime.
  { intros now [Hearly|Hallow].
    - replace (now >? Assignment.due_date a) with false by lia. apply andb_false_r.
    - by rewrite Hallow. }
  split.
  - intros studentId sd now i s Hi Hid Haccepted. cbn zeta.
    unfold Assignment.addSubmission. rewrite (Hontime now Haccepted).
    destruct (list_find _ _) as [[j sj]|] eqn:Hfind; cbn.
    + apply find_student_Some in Hfind as [Hj Hjid].
      assert (i = j) as <-.
      { eapply NoDup_lookup; [exact Hnd| |];
          unfold Assignment.student_ids; rewrite list_lookup_fmap.
        - rewrite Hi. cbn. by rewrite Hid.
        - rewrite Hj. cbn. by rewrite Hjid. }
      split; [done|]. split; [done|]. split.
      { apply list_lookup_insert_eq. by eapply lookup_lt_Some. }
      split.
      { intros k Hk. by apply list_lookup_insert_ne. }
      split.
      { unfold Assignment.student_ids. cbn. by apply (replace_keeps_ids _ i s). }
      by rewrite length_insert.
    + apply find_student_None in Hfind. exfalso. apply Hfind.
      apply list_elem_of_fmap. exists s. split; [done|].
      by eapply list_elem_of_lookup_2.
  - intros studentId sd now Hnew Haccepted. cbn zeta.
    unfold Assignment.addSubmission. rewrite (Hontime now Haccepted).
    destruct (list_find _ _) as [[j sj]|] eqn:Hfind; cbn.
    + apply find_student_Some in Hfind as [Hj Hjid]. exfalso. apply Hnew.
      apply list_elem_of_fmap. exists sj. split; [done|].
      by eapply list_elem_of_lookup_2.
    + split; [done|]. split; [done|].
      rewrite length_app. cbn. unfold submission_count_matches in Hcount. lia.
Qed.

Lemma resubmission_replaces_in_place_witness :
  let a1 := snd (Assignment.addSubmission 4 (text_submission "draft") 100 scenario_assignment) in
  let a2 := snd (Assignment.addSubmission 4 (text_submission "final") 200 a1) in
  (one_submission_per_student
     (Assignment.run_submits
        [Assignment.mkSubmit 4 (text_submission "final") 200;
         Assignment.mkSubmit 5 (text_submission "late") 2000] a1)
   ∧ submission_count_matches
       (Assignment.run_submits
          [Assignment.mkSubmit 4 (text_submission "final") 200;
           Assignment.mkSubmit 5 (text_submission "late") 2000] a1))
  ∧ fst (Assignment.addSubmission 4 (text_submission "final") 200 a1) = CallsSave
  ∧ Assignment.submissions a2
    = [Assignment.build_submission 4 200 (text_submission "final") false]
  ∧ Assignment.submission_text <$> Assignment.submissions a1 = [Some "draft"]
  ∧ Assignment.submission_count a2 = Assignment.submission_count a1
  ∧ Assignment.submissions a1
    = [Assignment.build_submission 4 100 (text_submission "draft") false]
  ∧ Assignment.submission_count a1 = 1.
Proof.
  cbn zeta.
  pose (a1 := snd (Assignment.addSubmission 4 (text_submission "draft") 100
                     scenario_assignment)).
  assert (one_submission_per_student a1) as Hnd.
  { vm_compute. apply NoDup_singleton. }
  assert (submission_count_matches a1) as Hcount by reflexivity.
  destruct (resubmission_replaces_in_place a1
              [Assignment.mkSubmit 4 (text_submission "final") 200;
               Assignment.mkSubmit 5 (text_submission "late") 2000] Hnd Hcount)
    as (Hrun & Hreplace & _).
  split; [exact Hrun|].
  destruct (Hreplace 4 (text_submission "final") 200 0%nat
              (Assignment.build_submission 4 100 (text_submission "draft") false)
              eq_refl eq_refl) as (Hsave & Hsubs & _ & _ & _ & _ & Hc).
  { left. vm_compute. discriminate. }
  split; [exact Hsave|]. split; [exact Hsubs|]. split; [reflexivity|].
  split; [exact Hc|].
  assert (one_submission_per_student scenario_assignment) as Hnd0.
  { vm_compute. constructor. }
  destruct (resubmission_replaces_in_place scenario_assignment [] Hnd0 eq_refl)
    as (_ & _ & Hfirst).
  destruct (Hfirst 4 (text_submission "draft") 100) as (_ & Hsubs1 & Hc1).
  { vm_compute. intros Hin. by apply elem_of_nil in Hin. }
  { left. vm_compute. discriminate. }
  split; [exact Hsubs1 | exact Hc1].
Defined.

(** The scenario of the specification: student 4 submits before the due
    date, submits again, then student 5 submits after the due date. *)
Example submission_scenario :
  let r1 := Assignment.addSubmission 4 (text_submission "draft") 100 scenario_assignment in
  let r2 := Assignment.addSubmission 4 (text_submission "final") 200 (snd r1) in
  let r3 := Assignment.addSubmission 5 (text_submission "late") 2000 (snd r2) in
  fst r1 = CallsSave
  ∧ Assignment.status <$> Assignment.submissions (snd r1) = [Assignment.submitted]
  ∧ Assignment.submission_count (snd r1) = 1
  ∧ fst r2 = CallsSave
  ∧ Assignment.submission_text <$> Assignment.submissions (snd r2) = [Some "final"]
  ∧ Assignment.submission_count (snd r2) = 1
  ∧ r3 = (Threw LateSubmissionRejected, snd r2)
  ∧ Assignment.submission_count (snd r3) = 1.
Proof. by vm_compute. Qed.

Lemma find_student_in_insert (l : list Assignment.Submission) (studentId : Z) i s s' :
  list_find (λ s, Assignment.student_id s = studentId) l = Some (i, s) →
  Assignment.student_id s' = studentId →
  list_find (λ s, Assignment.student_id s = studentId) (<[i := s']> l) = Some (i, s').
Proof.
  intros (Hi & Hid & Hbefore)%list_find_Some Hid'.
  apply list_find_Some. split; [|split; [done|]].
  - apply list_lookup_insert_eq. by eapply lookup_lt_Some.
  - intros j y Hj Hlt. rewrite list_lookup_insert_ne in Hj by lia.
    by eapply Hbefore.
Qed.

Lemma find_student_in_snoc (l : list Assignment.Submission) (studentId : Z) s' :
  list_find (λ s, Assignment.student_id s = studentId) l = None →
  Assignment.student_id s' = studentId →
  list_find (λ s, Assignment.student_id s = studentId) (l ++ [s'])
    = Some (length l, s').
Proof.
  intros Hnone Hid'. rewrite list_find_app_r by done.
  cbn. rewrite decide_True by done. done.
Qed.

(** C3. A submission after [due_date] on an assignment that does not allow
    late submissions throws "Late submissions are not allowed for this
    assignment" and leaves the assignment as it was; in every other case the
    call reaches [save], and the submission then stored for the student has
    status [late] when the time is after [due_date] and [submitted]
    otherwise. *)
Theorem addSubmission_late_policy
  (a : Assignment.t) (studentId : Z) (sd : Assignment.SubmissionData) (now : Z) :
  (now > Assignment.due_date a →
   Assignment.allow_late_submission a = false →
   Assignment.addSubmission studentId sd now a = (Threw LateSubmissionRejected, a))
  ∧ (now > Assignment.due_date a →
     Assignment.allow_late_submission a = true →
     fst (Assignment.addSubmission studentId sd now a) = CallsSave
     ∧ Assignment.status
         <$> Assignment.getSubmissionByStudent studentId
               (snd (Assignment.addSubmission studentId sd now a))
         = Some Assignment.late)
  ∧ (now ≤ Assignment.due_date a →
     fst (Assignment.addSubmission studentId sd now a) = CallsSave
     ∧ Assignment.status
         <$> Assignment.getSubmissionByStudent studentId
               (snd (Assignment.addSubmission studentId sd now a))
         = Some Assignment.submitted).
Proof.
  assert (∀ isLate,
            negb (Assignment.allow_late_submission a) && isLate = false →
            (now >? Assignment.due_date a) = isLate →
            fst (Assignment.addSubmission studentId sd now a) = CallsSave
            ∧ Assignment.status
                <$> Assignment.getSubmissionByStudent studentId
                      (snd (Assignment.addSubmission studentId sd now a))
                = Some (if isLate then Assignment.late else Assignment.submitted))
    as Hstored.
  { intros isLate Hgate HisLate.
    unfold Assignment.addSubmission, Assignment.getSubmissionByStudent.
    rewrite HisLate, Hgate.
    destruct (list_find _ _) as [[i s]|] eqn:Hfind; cbn [fst snd];
      (split; [done|]); cbn [Assignment.submissions Assignment.set_submissions].
    - erewrite find_student_in_insert; [done|exact Hfind|done].
    - erewrite find_student_in_snoc; [done|exact Hfind|done]. }
  split; [|split].
  - intros Hlate Hallow. unfold Assignment.addSubmission.
    rewrite Hallow. replace (now >? Assignment.due_date a) with true by lia. done.
  - intros Hlate Hallow. apply (Hstored true); [by rewrite Hallow | lia].
  - intros Hearly. apply (Hstored false); [by rewrite andb_false_r | lia].
Qed.

Lemma addSubmission_late_policy_witness :
  Assignment.addSubmission 5 (text_submission "late") 2000 scenario_assignment
    = (Threw LateSubmissionRejected, scenario_assignment)
  ∧ Assignment.status
      <$> Assignment.getSubmissionByStudent 4
            (snd (Assignment.addSubmission 4 (text_submission "draft") 100
                    scenario_assignment))
      = Some Assignment.submitted.
Proof.
  destruct (addSubmission_late_policy scenario_assignment 5 (text_submission "late") 2000)
    as (Hreject & _ & _).
  destruct (addSubmission_late_policy scenario_assignment 4 (text_submission "draft") 100)
    as (_ & _ & Haccept).
  split.
  - apply Hreject; [reflexivity | reflexivity].
  - apply Haccept. discriminate.
Defined.

(** C4. [gradeSubmission] throws "Submission not found for this student"
    when no submission of the student is embedded; when one is and the grade
    is greater than [max_marks], it throws "Grade cannot exceed maximum marks
    (max)" and leaves the assignment, and so the submission, as it was;
    otherwise it reaches [save] with the student's submission, at its index,
    carrying the grade, the feedback, the grader, the grading time and
    status [graded], and every other field as before. *)
Theorem gradeSubmission_checks_then_grades
  (a : Assignment.t) (studentId : Z) (gd : Assignment.GradeData) (now1 now2 : Z) :
  (studentId ∉ Assignment.student_ids a →
   Assignment.gradeSubmission studentId gd now1 now2 a = (Threw SubmissionNotFound, a))
  ∧ (studentId ∈ Assignment.student_ids a →
     (∀ g : Z, Assignment.gd_grade gd = Some g → g > Assignment.max_marks a →
        Assignment.gradeSubmission studentId gd now1 now2 a
          = (Threw (GradeOutOfRange (Assignment.max_marks a)), a))
     ∧ ((∀ g : Z, Assignment.gd_grade gd = Some g → g ≤ Assignment.max_marks a) →
        ∃ (i : nat) (s s' : Assignment.Submission),
          Assignment.getSubmissionByStudent studentId a = Some s
          ∧ Assignment.submissions a !! i = Some s
          ∧ Assignment.gradeSubmission studentId gd now1 now2 a
            = (CallsSave,
               Assignment.set_submissions a (<[i := s']> (Assignment.submissions a))
                                           (Assignment.submission_count a) now2)
          ∧ Assignment.getSubmissionByStudent studentId
              (snd (Assignment.gradeSubmission studentId gd now1 now2 a)) = Some s'
          ∧ Assignment.grade s' = Assignment.gd_grade gd
          ∧ Assignment.feedback s' = trim <$> Assignment.gd_feedback gd
          ∧ Assignment.graded_by s' = Assignment.gd_graded_by gd
          ∧ Assignment.graded_at s' = Some now1
          ∧ Assignment.status s' = Assignment.graded
          ∧ Assignment.student_id s' = Assignment.student_id s
          ∧ Assignment.submitted_at s' = Assignment.submitted_at s
          ∧ Assignment.submission_text s' = Assignment.submission_text s)).
Proof.
  split.
  - intros Habs. unfold Assignment.gradeSubmission.
    destruct (list_find _ _) as [[i s]|] eqn:Hfind; [|done].
    apply find_student_Some in Hfind as [Hi Hid]. exfalso. apply Habs.
    apply list_elem_of_fmap. exists s. split; [done|].
    by eapply list_elem_of_lookup_2.
  - intros (i & s & Hfind)%find_student_is_Some. split.
    + intros g Hg Hgt. unfold Assignment.gradeSubmission, Assignment.exceeds.
      rewrite Hfind, Hg. replace (g >? Assignment.max_marks a) with true by lia. done.
    + intros Hle.
      assert (Assignment.exceeds (Assignment.gd_grade gd) (Assignment.max_marks a) = false)
        as Hok.
      { unfold Assignment.exceeds. destruct (Assignment.gd_grade gd) as [g|]; [|done].
        specialize (Hle g eq_refl). lia. }
      exists i, s, (Assignment.graded_submission s gd now1).
      unfold Assignment.gradeSubmission, Assignment.getSubmissionByStudent.
      rewrite Hfind, Hok. cbn [fst snd Assignment.submissions Assignment.set_submissions].
      pose proof (find_student_Some _ _ _ _ Hfind) as [Hi Hid].
      erewrite find_student_in_insert; [|exact Hfind|exact Hid].
      repeat split; done.
Qed.

Lemma gradeSubmission_checks_then_grades_witness :
  let a1 := snd (Assignment.addSubmission 4 (text_submission "draft") 100 scenario_assignment) in
  Assignment.gradeSubmission 5 (Assignment.mkGradeData (Some 85) None (Some 2)) 300 300 a1
    = (Threw SubmissionNotFound, a1)
  ∧ Assignment.gradeSubmission 4 (Assignment.mkGradeData (Some 101) None (Some 2)) 300 300 a1
    = (Threw (GradeOutOfRange 100), a1)
  ∧ ∃ s', Assignment.getSubmissionByStudent 4
            (snd (Assignment.gradeSubmission 4
                    (Assignment.mkGradeData (Some 85) (Some "good") (Some 2)) 300 300 a1))
          = Some s'
          ∧ Assignment.grade s' = Some 85 ∧ Assignment.status s' = Assignment.graded.
Proof.
  cbn zeta.
  pose (a1 := snd (Assignment.addSubmission 4 (text_submission "draft") 100
                     scenario_assignment)).
  assert (4 ∈ Assignment.student_ids a1) as Hin by (vm_compute; left).
  assert (5 ∉ Assignment.student_ids a1) as Hout.
  { vm_compute. intros H5%list_elem_of_singleton. discriminate H5. }
  split; [|split].
  - apply (gradeSubmission_checks_then_grades a1 5); exact Hout.
  - destruct (gradeSubmission_checks_then_grades a1 4
                (Assignment.mkGradeData (Some 101) None (Some 2)) 300 300) as [_ Hgrade].
    destruct (Hgrade Hin) as [Hreject _].
    apply (Hreject 101); [reflexivity | reflexivity].
  - destruct (gradeSubmission_checks_then_grades a1 4
                (Assignment.mkGradeData (Some 85) (Some "good") (Some 2)) 300 300)
      as [_ Hgrade].
    destruct (Hgrade Hin) as [_ Haccept].
    destruct Haccept as (i & s & s' & _ & _ & _ & Hget & Hg & _ & _ & _ & Hst & _).
    { intros g [= <-]. discriminate. }
    exists s'. split; [exact Hget|]. split; [exact Hg | exact Hst].
Defined.

(** The scenario of the specification: grading with 101 against 100 marks
    is refused, grading with 85 succeeds and the status becomes [graded]. *)
Example grading_scenario :
  let a1 := snd (Assignment.addSubmission 4 (text_submission "draft") 100 scenario_assignment) in
  let bad := Assignment.gradeSubmission 4 (Assignment.mkGradeData (Some 101) None (Some 2)) 300 300 a1 in
  let good := Assignment.gradeSubmission 4 (Assignment.mkGradeData (Some 85) None (Some 2)) 300 300 a1 in
  bad = (Threw (Error "Grade cannot exceed maximum marks (100)"), a1)
  ∧ fst good = CallsSave
  ∧ (λ s, (Assignment.grade s, Assignment.status s)) <$> Assignment.submissions (snd good)
    = [(Some 85, Assignment.graded)].
Proof. by vm_compute. Qed.

(** ** Saving a mutated document *)

Lemma call_saves_once {D : Type} (method : D → Outcome * D) (d : D) (st : Store.t D) :
  fst (method d) = CallsSave →
  Store.save_calls (snd (Store.call method d st)) = S (Store.save_calls st)
  ∧ ∀ e rest, Store.pending st = Some e :: rest →
      Store.call method d st
        = (inl e, Store.mkStore (Store.stored st) rest (S (Store.save_calls st))).
Proof.
  unfold Store.call, Store.save. destruct (method d) as [[e|] d']; [done|].
  intros _. split.
  - by destruct (Store.pending st) as [|[e|] rest].
  - by intros e rest ->.
Qed.

Lemma call_throw_skips_save {D : Type} (method : D → Outcome * D) (d : D)
    (st : Store.t D) (e : Exn) :
  fst (method d) = Threw e → Store.call method d st = (inl e, st).
Proof.
  unfold Store.call. destruct (method d) as [[e'|] d']; cbn; [|done].
  by intros [= ->].
Qed.

(** C6, as the code has it. [addPost] and [addSubmission] hand the mutated
    document to [save] once, and not at all when the method throws; there is
    no retry: when the store refuses that [save], the refusal is what the
    caller gets, the answers the store had for later attempts are left
    unused, and the stored document is the one that was there. *)
Theorem mutation_saves_once_without_retry
  (d : Discussion.t) (std : Store.t Discussion.t)
  (a : Assignment.t) (sta : Store.t Assignment.t)
  (userId : Z) (text : string) (sd : Assignment.SubmissionData) (now1 now2 : Z) :
  (Store.save_calls (snd (Store.call (Discussion.addPost userId text now1 now2) d std))
     = S (Store.save_calls std)
   ∧ ∀ e rest, Store.pending std = Some e :: rest →
       Store.call (Discussion.addPost userId text now1 now2) d std
         = (inl e, Store.mkStore (Store.stored std) rest (S (Store.save_calls std))))
  ∧ (∀ e, fst (Assignment.addSubmission userId sd now1 a) = Threw e →
       Store.call (Assignment.addSubmission userId sd now1) a sta = (inl e, sta))
  ∧ (fst (Assignment.addSubmission userId sd now1 a) = CallsSave →
       Store.save_calls (snd (Store.call (Assignment.addSubmission userId sd now1) a sta))
         = S (Store.save_calls sta)
       ∧ ∀ e rest, Store.pending sta = Some e :: rest →
           Store.call (Assignment.addSubmission userId sd now1) a sta
             = (inl e, Store.mkStore (Store.stored sta) rest (S (Store.save_calls sta)))).
Proof.
  split; [|split].
  - by apply call_saves_once.
  - intros e. apply call_throw_skips_save.
  - apply call_saves_once.
Qed.

Lemma mutation_saves_once_without_retry_witness :
  let d := Discussion.empty 1 4 "Welcome" 0 in
  Store.call (Discussion.addPost 4 "hello" 10 10) d
             (Store.mkStore d [Some Store.VersionError; None] 0)
    = (inl Store.VersionError, Store.mkStore d [None] 1)
  ∧ Store.call (Assignment.addSubmission 5 (text_submission "late") 2000)
               scenario_assignment (Store.mkStore scenario_assignment [] 0)
    = (inl LateSubmissionRejected, Store.mkStore scenario_assignment [] 0).
Proof.
  cbn zeta.
  destruct (mutation_saves_once_without_retry
              (Discussion.empty 1 4 "Welcome" 0)
              (Store.mkStore (Discussion.empty 1 4 "Welcome" 0)
                             [Some Store.VersionError; None] 0)
              scenario_assignment (Store.mkStore scenario_assignment [] 0)
              4 "hello" (text_submission "late") 10 10) as ((_ & Hpost) & _ & _).
  destruct (mutation_saves_once_without_retry
              (Discussion.empty 1 4 "Welcome" 0)
              (Store.mkStore (Discussion.empty 1 4 "Welcome" 0) [] 0)
              scenario_assignment (Store.mkStore scenario_assignment [] 0)
              5 "hello" (text_submission "late") 2000 10) as (_ & Hthrow & _).
  split.
  - apply (Hpost Store.VersionError [None]). reflexivity.
  - apply (Hthrow LateSubmissionRejected). reflexivity.
Defined.

(** C6, as the specification states it, fails: with a store that refuses
    the first [save] with a version conflict and would accept the second,
    [addPost] ends in that conflict. *)
Lemma addPost_does_not_retry :
  ¬ survives_one_conflict (Store.call (Discussion.addPost 4 "hello" 10 10)).
Proof.
  intros Hretry.
  destruct (Hretry (Discussion.empty 1 4 "Welcome" 0)
                   (Store.mkStore (Discussion.empty 1 4 "Welcome" 0)
                                  [Some Store.VersionError; None] 0)
                   [] eq_refl) as [d' Hd'].
  vm_compute in Hd'. discriminate Hd'.
Qed.

(** ** Creating documents that name a course *)

Lemma handler_status {D : Type} (m : M (Response D)) (label msg : string) (w : World) :
  status (fst (handler m label msg w)) = 500
  ∨ ∃ r w', m w = (inr r, w') ∧ fst (handler m label msg w) = r.
Proof.
  unfold handler. destruct (m w) as [[e|r] w']; [by left|].
  right. by exists r, w'.
Qed.

(** C1, on the code. Neither handler looks the course up: whatever static
    the model provides, the answer is never 404; and with the models as
    they are, a well-formed request for course 999, which the relational
    store does not have, is answered with 500 "Failed to create discussion"
    (resp. "Failed to submit assignment"), and with 400 when a required
    field is missing; no document is stored in either case. *)
Theorem create_handlers_skip_course_check :
  (∀ static user courseId b w,
      status (fst (DocumentControllers.createDiscussion_with static user courseId b w)) ≠ 404)
  ∧ (∀ static user courseId b w,
      status (fst (DocumentControllers.submitAssignment_with static user courseId b w)) ≠ 404)
  ∧ DocumentControllers.course_exists 999 (world_of sample_db []) = false
  ∧ DocumentControllers.createDiscussion alice 999
      (DocumentControllers.mkCreateDiscussionBody (Some "Help") (Some "How do I join?") None)
      (world_of sample_db [])
    = (fail_response 500 "Failed to create discussion"
         (Some "Discussion.createDiscussion is not a function"),
       console_add "Create discussion error:"
                   "Discussion.createDiscussion is not a function"
                   (world_of sample_db []))
  ∧ DocumentControllers.submitAssignment alice 999
      (DocumentControllers.mkSubmitAssignmentBody
         (Some "Homework 1") None (Some "text") (Some "My answer"))
      (world_of sample_db [])
    = (fail_response 500 "Failed to submit assignment"
         (Some "Assignment.submitAssignment is not a function"),
       console_add "Submit assignment error:"
                   "Assignment.submitAssignment is not a function"
                   (world_of sample_db []))
  ∧ DocumentControllers.createDiscussion alice 999
      (DocumentControllers.mkCreateDiscussionBody None (Some "How do I join?") None)
      (world_of sample_db [])
    = (fail_response 400 "Title and content are required" None, world_of sample_db []).
Proof.
  split; [|split; [|by vm_compute]].
  - intros static user courseId b w.
    unfold DocumentControllers.createDiscussion_with.
    match goal with |- context [handler ?m ?l ?s w] =>
      destruct (handler_status m l s w) as [->|(r & w' & Hm & ->)]; [done|] end.
    destruct (falsy _ || falsy _).
    + injection Hm as <- _. done.
    + unfold bind in Hm.
      destruct (DocumentControllers.call_static _ _ _ w) as [[e|doc] w1]; [done|].
      injection Hm as <- _. done.
  - intros static user courseId b w.
    unfold DocumentControllers.submitAssignment_with.
    match goal with |- context [handler ?m ?l ?s w] =>
      destruct (handler_status m l s w) as [->|(r & w' & Hm & ->)]; [done|] end.
    destruct (falsy _ || falsy _ || falsy _).
    + injection Hm as <- _. done.
    + unfold bind in Hm.
      destruct (DocumentControllers.call_static _ _ _ w) as [[e|doc] w1]; [done|].
      injection Hm as <- _. done.
Qed.

(** ** Platform statistics *)

(** C8, on the code. [mysqlPool] is the exports object of config/mysql,
    which has no [query]: the first statement of the [try] block throws a
    TypeError, so every request is answered 500 "Failed to retrieve platform
    statistics" without data, whatever the two stores would answer; with the
    relational store up and the document store down, the relational counts
    are not returned, and the partial report of the specification does not
    exist.  Whatever object [mysqlPool] is, all the awaits share one [try]
    block: a failure of either store gives 500 without data, and a report
    that carries data was built from answers of both stores. *)
Theorem platform_report_never_partial :
  (∀ a : ActivityController.Answers,
      ActivityController.getPlatformStats a
      = fail_response 500 "Failed to retrieve platform statistics"
          (Some "mysqlPool.query is not a function"))
  ∧ ActivityController.relational_ok document_store_down = true
  ∧ ActivityController.getPlatformStats document_store_down
    = fail_response 500 "Failed to retrieve platform statistics"
        (Some "mysqlPool.query is not a function")
  ∧ ¬ reports_surviving_half
  ∧ (∀ (exports : list string) (a : ActivityController.Answers),
       (ActivityController.relational_ok a = false
        ∨ ActivityController.document_ok a = false →
        status (ActivityController.getPlatformStats_with exports a) = 500
        ∧ success (ActivityController.getPlatformStats_with exports a) = false
        ∧ data (ActivityController.getPlatformStats_with exports a) = None)
       ∧ (∀ stats,
            data (ActivityController.getPlatformStats_with exports a) = Some stats →
            status (ActivityController.getPlatformStats_with exports a) = 200
            ∧ ActivityController.relational_ok a = true
            ∧ ActivityController.document_ok a = true)).
Proof.
  split; [done|]. split; [done|]. split; [done|]. split.
  - intros Hpartial.
    specialize (Hpartial document_store_down eq_refl).
    assert (success (ActivityController.getPlatformStats document_store_down) = true)
      as Hok.
    { apply Hpartial. intros rows Hrows.
      repeat (apply elem_of_cons in Hrows as [->|Hrows]; [discriminate|]).
      by apply elem_of_nil in Hrows. }
    vm_compute in Hok. discriminate Hok.
  - intros exports a.
    unfold ActivityController.getPlatformStats_with, ActivityController.collect_with,
      ActivityController.mysqlPool_query.
    destruct (bool_decide ("query" ∈ exports)).
    2:{ cbn. split; [done|]. intros ? [=]. }
    unfold ActivityController.relational_ok, ActivityController.document_ok,
      ActivityController.and_then.
    destruct a as [[?|u] [?|c] [?|e] [?|q] [?|s] [?|ta] [?|td] [?|tas] [?|tr]]; cbn;
      try (split; [intros _; done | intros ? [=]]).
    destruct (ActivityController.first_row _ c); cbn;
      [split; [intros [[=]|[=]] | intros ? [=]]|].
    destruct (ActivityController.first_row _ e); cbn;
      [split; [intros [[=]|[=]] | intros ? [=]]|].
    destruct (ActivityController.first_row _ q); cbn;
      [split; [intros [[=]|[=]] | intros ? [=]]|].
    destruct (ActivityController.first_row _ s); cbn;
      [split; [intros [[=]|[=]] | intros ? [=]]|].
    split; [intros [[=]|[=]] | done].
Qed.

(** The same with the stores exchanged, and with both stores up. *)
Example platform_report_other_requests :
  ActivityController.getPlatformStats relational_store_down
  = fail_response 500 "Failed to retrieve platform statistics"
      (Some "mysqlPool.query is not a function")
  ∧ ActivityController.getPlatformStats both_stores_up
    = fail_response 500 "Failed to retrieve platform statistics"
        (Some "mysqlPool.query is not a function")
  ∧ status (ActivityController.getPlatformStats_with ["query"] both_stores_up) = 200
  ∧ ActivityController.getPlatformStats_with ["query"] document_store_down
    = fail_response 500 "Failed to retrieve platform statistics"
        (Some "connect ECONNREFUSED 127.0.0.1:27017").
Proof. by vm_compute. Qed.

(** ** Activity logging *)

Lemma logManualActivity_returns (userId : Z) (act : string)
    (o : ActivityLogger.ManualOptions) (now : Z) (w : World) :
  fst (ActivityLogger.logManualActivity userId act o now w) = inr tt.
Proof.
  unfold ActivityLogger.logManualActivity, try_catch.
  match goal with |- context [bind ?m ?k w] => destruct (bind m k w) as [[e|[]] w1] end; done.
Qed.

Lemma logManualActivity_keeps_db (userId : Z) (act : string)
    (o : ActivityLogger.ManualOptions) (now : Z) (w : World) :
  db (snd (ActivityLogger.logManualActivity userId act o now w)) = db w.
Proof.
  unfold ActivityLogger.logManualActivity, try_catch, bind, log_to_store.
  destruct (ActivityLog.logActivity _ _ _) as [[e|l] st]; done.
Qed.

(** [enrollInCourse] by cases on what the relational store holds. *)
Lemma enrollInCourse_cases (studentId courseId now : Z) (w : World) :
  CourseController.enrollInCourse studentId courseId now w
  = match Relational.select_course courseId (db w) with
    | [] => (fail_response 404 "Course not found" None, w)
    | course :: _ =>
        match Relational.select_enrollment studentId courseId (db w) with
        | existing :: _ =>
            (fail_response 409
               ("Already " ++ Relational.show_status (Relational.e_status existing)
                ++ " in this course")%string None, w)
        | [] =>
            match Relational.insert_enrollment studentId courseId now (db w) with
            | inl e =>
                (fail_response 500 "Failed to enroll in course" (Some (message_of e)),
                 console_add "Enroll error:" (message_of e) w)
            | inr (insertId, d') =>
                (ok_response 201
                   (Some ("Successfully enrolled in " ++ Relational.course_name course)%string)
                   (CourseController.mkEnrollData insertId courseId
                      (Relational.course_name course)),
                 snd (ActivityLogger.logManualActivity studentId "ENROLL_COURSE"
                        (ActivityLogger.mkManualOptions
                           None (Some courseId) (Some "enrollment")
                           (Some (ActivityLog.MNum insertId)) None None)
                        now
                        (mkWorld d' (discussions w) (assignments w)
                                 (activity_logs w) (console w))))
            end
        end
    end.
Proof.
  unfold CourseController.enrollInCourse, handler.
  unfold bind at 1. unfold get_db.
  destruct (Relational.select_course _ _) as [|course ?]; [done|].
  destruct (Relational.select_enrollment _ _ _) as [|existing ?]; [|done].
  destruct (Relational.insert_enrollment _ _ _ _) as [e|[insertId d']]; [done|].
  unfold bind at 1. unfold put_db. unfold bind.
  match goal with |- context [ActivityLogger.logManualActivity ?u ?a ?o ?n ?w0] =>
    pose proof (logManualActivity_returns u a o n w0) as Hret;
    destruct (ActivityLogger.logManualActivity u a o n w0) as [[?|[]] w1] end;
    [done|done].
Qed.

(** C9. The [res.json] installed by the [logActivity] middleware sends the
    body it was given, whatever the request, the options and the log
    collection do; [logManualActivity] returns normally whatever the log
    collection does; and the answer and the relational effect of
    [enrollInCourse], which logs through it, are the same for every state
    of the log collection. *)
Theorem log_failure_never_reaches_caller :
  (∀ (D : Type) (act : string) (o : ActivityLogger.Options D)
     (req : ActivityLogger.Request) (statusCode now : Z) (d : D) (w : World),
      fst (ActivityLogger.logActivity act o req statusCode now d w) = inr d)
  ∧ (∀ (userId : Z) (act : string) (o : ActivityLogger.ManualOptions) (now : Z) (w : World),
      fst (ActivityLogger.logManualActivity userId act o now w) = inr tt)
  ∧ (∀ (studentId courseId now : Z) (w : World) (st : Store.t (list ActivityLog.t)),
      fst (CourseController.enrollInCourse studentId courseId now (with_log_store st w))
        = fst (CourseController.enrollInCourse studentId courseId now w)
      ∧ db (snd (CourseController.enrollInCourse studentId courseId now (with_log_store st w)))
        = db (snd (CourseController.enrollInCourse studentId courseId now w))).
Proof.
  split; [|split].
  - intros D act o req statusCode now d w.
    unfold ActivityLogger.logActivity, bind at 1.
    match goal with |- context [try_catch ?m ?h w] =>
      assert (∃ w1, try_catch m h w = (inr tt, w1)) as [w1 ->]; [|done] end.
    unfold try_catch at 1.
    match goal with |- context [match ?m w with _ => _ end] =>
      destruct (m w) as [[e|[]] w1]; cbn; eauto end.
  - apply logManualActivity_returns.
  - intros studentId courseId now w st.
    rewrite !enrollInCourse_cases. cbn [db with_log_store].
    destruct (Relational.select_course _ _) as [|course ?]; [done|].
    destruct (Relational.select_enrollment _ _ _) as [|existing ?]; [|done].
    destruct (Relational.insert_enrollment _ _ _ _) as [e|[insertId d']]; [done|].
    cbn [fst snd]. by rewrite !logManualActivity_keeps_db.
Qed.

(** A student enrols while the log collection is down: the answer is the
    201 of a working log, and the failure is on the console only. *)
Example enroll_with_log_down :
  let down := [Some (StoreError "connect ECONNREFUSED 127.0.0.1:27017")] in
  let r := CourseController.enrollInCourse 4 2 50 (world_of sample_db down) in
  fst r = fst (CourseController.enrollInCourse 4 2 50 (world_of sample_db []))
  ∧ status (fst r) = 201
  ∧ Store.stored (activity_logs (snd r)) = []
  ∧ console (snd r)
    = ["Manual activity logging error: connect ECONNREFUSED 127.0.0.1:27017"].
Proof. by vm_compute. Qed.

(** The wrapped [res.json] on three requests: the log is written; the log
    collection is down; building the log entry throws because the request
    has no body.  The body handed to [originalJson] is the same each time. *)
Example wrapped_json_scenarios :
  let o := ActivityLogger.mkOptions (Some "enrollment") ActivityLogger.NoAdditional in
  let down := [Some (StoreError "connect ECONNREFUSED 127.0.0.1:27017")] in
  let written := ActivityLogger.logActivity "ENROLL_COURSE" o
                   (enroll_request (Some (ActivityLogger.mkBody (Some 1)))) 201 50
                   "sent" (world_of sample_db []) in
  let refused := ActivityLogger.logActivity "ENROLL_COURSE" o
                   (enroll_request (Some (ActivityLogger.mkBody (Some 1)))) 201 50
                   "sent" (world_of sample_db down) in
  let thrown := ActivityLogger.logActivity "ENROLL_COURSE" o
                  (enroll_request None) 201 50
                  "sent" (world_of sample_db []) in
  (fst written = inr "sent"
   ∧ length (Store.stored (activity_logs (snd written))) = 1%nat
   ∧ console (snd written) = [])
  ∧ (fst refused = inr "sent"
     ∧ Store.stored (activity_logs (snd refused)) = []
     ∧ console (snd refused)
       = ["Activity logging error: connect ECONNREFUSED 127.0.0.1:27017"])
  ∧ (fst thrown = inr "sent"
     ∧ Store.stored (activity_logs (snd thrown)) = []
     ∧ console (snd thrown)
       = ["Activity logger error: Cannot read properties of undefined (reading 'course_id')"]).
Proof. by vm_compute. Qed.

(** ** Enrollment *)

Lemma filter_nonempty {A : Type} (f : A → bool) (l : list A) (x : A) :
  x ∈ l → f x = true → List.filter f l ≠ [].
Proof.
  intros Hin%list_elem_of_In Hf Hnil.
  assert (In x (List.filter f l)) as Hx by (apply filter_In; done).
  rewrite Hnil in Hx. done.
Qed.

(** C10. When the enrollments table already has a row for the student and
    the course, whatever its status, and the foreign key of the table holds,
    [enrollInCourse] answers 409 without data, and leaves the process,
    relational rows included, as it was. *)
Theorem enroll_conflicts_on_any_existing_row
  (studentId courseId now : Z) (w : World) (e : Relational.Enrollment) :
  enrollment_course_fk (db w) →
  e ∈ Relational.enrollments (db w) →
  Relational.e_student_id e = studentId →
  Relational.e_course_id e = courseId →
  status (fst (CourseController.enrollInCourse studentId courseId now w)) = 409
  ∧ success (fst (CourseController.enrollInCourse studentId courseId now w)) = false
  ∧ data (fst (CourseController.enrollInCourse studentId courseId now w)) = None
  ∧ snd (CourseController.enrollInCourse studentId courseId now w) = w.
Proof.
  intros Hfk He Hs Hc.
  destruct (Hfk e He) as (c & Hcin & Hcid).
  rewrite enrollInCourse_cases.
  destruct (Relational.select_course courseId (db w)) as [|course ?] eqn:Hcourse.
  { exfalso. refine (filter_nonempty _ _ c Hcin _ Hcourse). cbn. lia. }
  destruct (Relational.select_enrollment studentId courseId (db w))
    as [|existing ?] eqn:Hex.
  { exfalso. refine (filter_nonempty _ _ e He _ Hex). cbn. lia. }
  done.
Qed.

Lemma enroll_conflicts_on_any_existing_row_witness :
  let w := world_of
             (with_enrollments
                [Relational.mkEnrollment 1 4 1 (Some 0) (Some Relational.dropped)]
                sample_db) [] in
  status (fst (CourseController.enrollInCourse 4 1 50 w)) = 409
  ∧ success (fst (CourseController.enrollInCourse 4 1 50 w)) = false
  ∧ data (fst (CourseController.enrollInCourse 4 1 50 w)) = None
  ∧ snd (CourseController.enrollInCourse 4 1 50 w) = w.
Proof.
  cbn zeta.
  apply (enroll_conflicts_on_any_existing_row 4 1 50 _
           (Relational.mkEnrollment 1 4 1 (Some 0) (Some Relational.dropped))).
  - intros e [->|[]%elem_of_nil]%elem_of_cons.
    exists (Relational.mkCourse 1 "CS101" "Introduction to Computer Science" 2).
    split; [left | reflexivity].
  - left.
  - reflexivity.
  - reflexivity.
Defined.

(** A dropped and a completed enrollment both block a new one, and the
    message names the status of the row that is there. *)
Example reenroll_after_drop :
  let dropped := with_enrollments
                   [Relational.mkEnrollment 1 4 1 (Some 0) (Some Relational.dropped)]
                   sample_db in
  let completed := with_enrollments
                     [Relational.mkEnrollment 1 4 1 (Some 0) (Some Relational.completed)]
                     sample_db in
  fst (CourseController.enrollInCourse 4 1 50 (world_of dropped []))
    = fail_response 409 "Already dropped in this course" None
  ∧ fst (CourseController.enrollInCourse 4 1 50 (world_of completed []))
    = fail_response 409 "Already completed in this course" None.
Proof. by vm_compute. Qed.

(** ** The per-student course summary *)

Lemma left_rows_Some {B : Type} (matching : list B) (b : B) :
  Some b ∈ Relational.left_rows matching → b ∈ matching.
Proof.
  unfold Relational.left_rows. destruct matching as [|x l].
  - intros [=]%list_elem_of_singleton.
  - intros (y & [= ->] & Hy)%list_elem_of_fmap. done.
Qed.

Lemma elem_of_filter_bool {A : Type} (f : A → bool) (l : list A) (x : A) :
  x ∈ List.filter f l ↔ x ∈ l ∧ f x = true.
Proof. rewrite !list_elem_of_In. apply filter_In. Qed.

Lemma group_by_rows {A K : Type} `{EqDecision K} (key : A → K) (l : list A)
    (k : K) (rows : list A) :
  (k, rows) ∈ Relational.group_by key l →
  ∀ r, r ∈ rows → r ∈ l ∧ key r = k.
Proof.
  unfold Relational.group_by.
  intros (k' & [= -> ->] & _)%list_elem_of_fmap r
         [Hr Hk%bool_decide_eq_true]%elem_of_filter_bool.
  done.
Qed.

Lemma omap_all_None {A B : Type} (f : A → option B) (l : list A) :
  (∀ x, x ∈ l → f x = None) → omap f l = [].
Proof.
  induction l as [|x l IH]; intros Hall; [done|].
  cbn. rewrite (Hall x) by left. apply IH. intros y Hy. apply Hall. by right.
Qed.

Lemma AVG_all_NULL {A : Type} (expr : A → option Q) (rows : list A) :
  (∀ x, x ∈ rows → expr x = None) → Relational.AVG expr rows = None.
Proof. intros Hall. unfold Relational.AVG. by rewrite omap_all_None. Qed.

Lemma count_distinct_all_NULL {A : Type} (col : A → option Z) (rows : list A) :
  (∀ x, x ∈ rows → col x = None) → Relational.count_distinct col rows = 0.
Proof. intros Hall. unfold Relational.count_distinct. by rewrite omap_all_None. Qed.

Lemma round_half_away_near (x : Q) :
  (Qabs (inject_Z (Relational.round_half_away x) - x) <= 1 # 2)%Q.
Proof.
  unfold Relational.round_half_away.
  destruct (Qle_bool (0 # 1) x).
  - pose proof (Qfloor_le (x + (1 # 2))) as Hlo.
    pose proof (Qlt_floor (x + (1 # 2))) as Hhi.
    rewrite inject_Z_plus in Hhi. change (inject_Z 1) with (1 # 1)%Q in Hhi.
    apply Qabs_Qle_condition.
    generalize dependent (inject_Z (Qfloor (x + (1 # 2)))). intros f Hlo Hhi.
    split; lra.
  - pose proof (Qfloor_le (- x + (1 # 2))) as Hlo.
    pose proof (Qlt_floor (- x + (1 # 2))) as Hhi.
    rewrite inject_Z_plus in Hhi. change (inject_Z 1) with (1 # 1)%Q in Hhi.
    rewrite inject_Z_opp.
    apply Qabs_Qle_condition.
    generalize dependent (inject_Z (Qfloor (- x + (1 # 2)))). intros f Hlo Hhi.
    split; lra.
Qed.

(** What the joins of the view put next to each other. *)
Lemma summary_from_rows (d : Relational.Db) (j : Relational.SummaryJoin) :
  j ∈ Relational.summary_from d →
  (∀ q, Relational.sj_q j = Some q →
        q ∈ Relational.quizzes d
        ∧ Relational.q_course_id q = Relational.course_id (Relational.sj_c j))
  ∧ (∀ s, Relational.sj_qs j = Some s →
        ∃ q, Relational.sj_q j = Some q
             ∧ s ∈ Relational.quiz_submissions d
             ∧ Relational.qs_quiz_id s = Relational.quiz_id q
             ∧ Relational.qs_student_id s = Relational.user_id (Relational.sj_u j)).
Proof.
  unfold Relational.summary_from.
  intros (u & Hj & _)%list_elem_of_bind.
  apply list_elem_of_bind in Hj as (e & Hj & _).
  apply list_elem_of_bind in Hj as (c & Hj & _).
  apply list_elem_of_bind in Hj as (i & Hj & _).
  apply list_elem_of_bind in Hj as (q & Hj & Hq).
  apply list_elem_of_bind in Hj as (qs & Hj & Hqs).
  apply list_elem_of_singleton in Hj as ->. cbn. split.
  - intros q' ->. apply left_rows_Some, elem_of_filter_bool in Hq as [Hq Hc].
    split; [done|]. lia.
  - intros s ->. destruct q as [z|].
    + apply left_rows_Some, elem_of_filter_bool in Hqs as [Hs Hon].
      exists z. split; [done|]. split; [done|]. lia.
    + apply left_rows_Some in Hqs. by apply elem_of_nil in Hqs.
Qed.

(** What the joins of the getCourseStudents query put next to each other. *)
Lemma students_from_rows (d : Relational.Db) (j : Relational.StudentsJoin) :
  j ∈ Relational.students_from d →
  ∀ z, Relational.st_q j = Some z →
       ∃ s, Relational.st_qs j = Some s
            ∧ z ∈ Relational.quizzes d
            ∧ s ∈ Relational.quiz_submissions d
            ∧ Relational.qs_quiz_id s = Relational.quiz_id z
            ∧ Relational.q_course_id z = Relational.e_course_id (Relational.st_e j)
            ∧ Relational.qs_student_id s = Relational.user_id (Relational.st_u j).
Proof.
  unfold Relational.students_from.
  intros (e & Hj & _)%list_elem_of_bind.
  apply list_elem_of_bind in Hj as (u & Hj & _).
  apply list_elem_of_bind in Hj as (qs & Hj & Hqs).
  apply list_elem_of_bind in Hj as (q & Hj & Hq).
  apply list_elem_of_singleton in Hj as ->. cbn.
  intros z ->. destruct qs as [s|].
  - apply left_rows_Some, elem_of_filter_bool in Hq as [Hz Hon].
    apply left_rows_Some, elem_of_filter_bool in Hqs as [Hs Hu].
    exists s. repeat split; try done; lia.
  - apply left_rows_Some in Hq. by apply elem_of_nil in Hq.
Qed.

Lemma percentage_NULL_left (q : option Relational.Quiz) :
  Relational.percentage None q = None.
Proof. done. Qed.

Lemma percentage_NULL_right (qs : option Relational.QuizSubmission) :
  Relational.percentage qs None = None.
Proof. by destruct qs. Qed.

Lemma ROUND2_rounds (avg : option Q) (x : Q) :
  Relational.ROUND2 avg = Some x →
  ∃ m, avg = Some m ∧ rounded_to_2_places m x.
Proof.
  destruct avg as [m|]; [|done]. intros [= <-]. exists m. split; [done|].
  exists (Relational.round_half_away (m * (100 # 1))). split; [done|].
  pose proof (round_half_away_near (m * (100 # 1))) as Hnear.
  apply Qabs_Qle_condition in Hnear as [Hlo Hhi].
  apply Qabs_Qle_condition.
  assert (Relational.round_half_away (m * (100 # 1)) # 100
          == inject_Z (Relational.round_half_away (m * (100 # 1))) / (100 # 1))%Q as ->.
  { rewrite Qmake_Qdiv. reflexivity. }
  generalize dependent (inject_Z (Relational.round_half_away (m * (100 # 1)))).
  intros f Hlo Hhi. split.
  - apply (Qmult_le_r _ _ (100 # 1)); [reflexivity|]. field_simplify. lra.
  - apply (Qmult_le_r _ _ (100 # 1)); [reflexivity|]. field_simplify. lra.
Qed.

Lemma AVG_mean {A : Type} (expr : A → option Q) (rows : list A) (m : Q) :
  Relational.AVG expr rows = Some m →
  omap expr rows ≠ []
  ∧ m = (Relational.Qsum (omap expr rows)
         / inject_Z (Z.of_nat (length (omap expr rows))))%Q.
Proof.
  unfold Relational.AVG. destruct (omap expr rows) as [|v vals]; [done|].
  by intros [= <-].
Qed.

(** A row of the view and the joined rows it aggregates. *)
Lemma summary_row_group (d : Relational.Db) (courseId : Z) (r : Relational.SummaryRow) :
  r ∈ Relational.courseStudentSummary courseId d →
  ∃ rows : list Relational.SummaryJoin,
    (∀ j, j ∈ rows →
          j ∈ Relational.summary_from d
          ∧ Relational.user_id (Relational.sj_u j) = Relational.sr_student_id r
          ∧ Relational.course_id (Relational.sj_c j) = courseId)
    ∧ Relational.total_quizzes r
      = Relational.count_distinct (λ j, Relational.quiz_id <$> Relational.sj_q j) rows
    ∧ Relational.avg_percentage r
      = Relational.ROUND2
          (Relational.AVG
             (λ j, Relational.percentage (Relational.sj_qs j) (Relational.sj_q j)) rows).
Proof.
  unfold Relational.courseStudentSummary, Relational.student_course_summary.
  intros [Hr Hc]%elem_of_filter_bool.
  apply list_elem_of_fmap in Hr as ([k rows] & -> & Hg).
  destruct k as [[[[[[[[uid uname] uemail] cid] ccode] cname] iname] at_] st].
  cbn in Hc. exists rows. split; [|done].
  intros j Hj. destruct (group_by_rows _ _ _ _ Hg j Hj) as [Hin Hkey].
  apply elem_of_filter_bool in Hin as [Hin _].
  injection Hkey as Hu _ _ Hcid _ _ _ _ _. cbn. split; [done|]. split; [done|]. lia.
Qed.

(** A row of getCourseStudents and the joined rows it aggregates. *)
Lemma student_row_group (d : Relational.Db) (courseId : Z) (r : Relational.StudentRow) :
  r ∈ Relational.course_students courseId d →
  ∃ rows : list Relational.StudentsJoin,
    (∀ j, j ∈ rows →
          j ∈ Relational.students_from d
          ∧ Relational.user_id (Relational.st_u j) = Relational.row_user_id r
          ∧ Relational.e_course_id (Relational.st_e j) = courseId)
    ∧ Relational.row_avg_percentage r
      = Relational.ROUND2
          (Relational.AVG
             (λ j, Relational.percentage (Relational.st_qs j) (Relational.st_q j)) rows).
Proof.
  unfold Relational.course_students.
  intros ([k rows] & -> & Hg)%list_elem_of_fmap.
  destruct k as [[[[uid uname] uemail] at_] st].
  exists rows. split; [|done].
  intros j Hj. destruct (group_by_rows _ _ _ _ Hg j Hj) as [Hin Hkey].
  apply elem_of_filter_bool in Hin as [Hin Hwhere].
  injection Hkey as Hu _ _ _ _. cbn. split; [done|]. split; [done|].
  unfold Relational.students_where in Hwhere.
  apply andb_true_iff in Hwhere as [Hc _]. lia.
Qed.

Lemma getCourseStudents_rows (user : ActivityLogger.ReqUser) (courseId : Z)
    (d : Relational.Db) (rows : list Relational.StudentRow) :
  data (CourseController.getCourseStudents user courseId d) = Some rows →
  rows = Relational.course_students courseId d.
Proof.
  unfold CourseController.getCourseStudents.
  destruct (List.filter _ _) as [|course ?]; [done|].
  destruct (_ && _); [done|]. by intros [= <-].
Qed.

(** A row of the view has a NULL average when the student has no
    submission for a quiz of the course, and counts no quiz when the course
    has none. *)
Lemma summary_row_nulls (d : Relational.Db) (courseId : Z) (r : Relational.SummaryRow) :
  r ∈ Relational.courseStudentSummary courseId d →
  (no_submission_in_course d (Relational.sr_student_id r) courseId →
   Relational.avg_percentage r = None)
  ∧ (no_quiz_in_course d courseId →
     Relational.total_quizzes r = 0 ∧ Relational.avg_percentage r = None).
Proof.
  intros (rows & Hrows & Htotal & Havg)%summary_row_group.
  rewrite Htotal, Havg. clear Htotal Havg. split.
  - intros Hnone. rewrite AVG_all_NULL; [done|].
    intros j Hj. destruct (Hrows j Hj) as (Hfrom & Hu & Hc).
    destruct (summary_from_rows d j Hfrom) as [Hq Hqs].
    destruct (Relational.sj_qs j) as [s|] eqn:Hs; [|done].
    destruct (Hqs s eq_refl) as (q & Hjq & Hsin & Hquiz & Hstudent).
    destruct (Hq q Hjq) as [Hqin Hcourse].
    exfalso. apply (Hnone q s); congruence.
  - intros Hnone.
    assert (∀ j, j ∈ rows → Relational.sj_q j = None) as Hnoquiz.
    { intros j Hj. destruct (Hrows j Hj) as (Hfrom & Hu & Hc).
      destruct (summary_from_rows d j Hfrom) as [Hq _].
      destruct (Relational.sj_q j) as [q|] eqn:Hjq; [|done].
      destruct (Hq q eq_refl) as [Hqin Hcourse].
      exfalso. apply (Hnone q Hqin). congruence. }
    split.
    + apply count_distinct_all_NULL. intros j Hj. by rewrite Hnoquiz.
    + rewrite AVG_all_NULL; [done|]. intros j Hj.
      rewrite Hnoquiz by done. apply percentage_NULL_right.
Qed.

(** The same for a row of getCourseStudents. *)
Lemma students_row_nulls (d : Relational.Db) (courseId : Z) (r : Relational.StudentRow) :
  r ∈ Relational.course_students courseId d →
  (no_submission_in_course d (Relational.row_user_id r) courseId →
   Relational.row_avg_percentage r = None)
  ∧ (no_quiz_in_course d courseId → Relational.row_avg_percentage r = None).
Proof.
  intros (joined & Hrows & Havg)%student_row_group.
  rewrite Havg. clear Havg.
  assert (∀ j z, j ∈ joined → Relational.st_q j = Some z →
            ∃ s, Relational.st_qs j = Some s
                 ∧ z ∈ Relational.quizzes d ∧ s ∈ Relational.quiz_submissions d
                 ∧ Relational.q_course_id z = courseId
                 ∧ Relational.qs_quiz_id s = Relational.quiz_id z
                 ∧ Relational.qs_student_id s = Relational.row_user_id r) as Hjoin.
  { intros j z Hj Hz. destruct (Hrows j Hj) as (Hfrom & Hu & Hc).
    destruct (students_from_rows d j Hfrom z Hz)
      as (s & Hs & Hzin & Hsin & Hquiz & Hcourse & Hstudent).
    exists s. repeat split; try done; congruence. }
  split.
  - intros Hnone. rewrite AVG_all_NULL; [done|]. intros j Hj.
    destruct (Relational.st_q j) as [z|] eqn:Hz; [|apply percentage_NULL_right].
    destruct (Hjoin j z Hj Hz) as (s & _ & Hzin & Hsin & Hcourse & Hquiz & Hstudent).
    exfalso. by apply (Hnone z s).
  - intros Hnone. rewrite AVG_all_NULL; [done|]. intros j Hj.
    destruct (Relational.st_q j) as [z|] eqn:Hz; [|apply percentage_NULL_right].
    destruct (Hjoin j z Hj Hz) as (s & _ & Hzin & _ & Hcourse & _).
    exfalso. by apply (Hnone z).
Qed.

(** The view on the sample rows of schema.sql: student, course, quizzes of
    the course, quizzes submitted, average percentage. *)
Example summary_of_sample_rows :
  (λ r, (Relational.sr_student_id r, Relational.sr_course_id r,
         Relational.total_quizzes r, Relational.quizzes_submitted r,
         Relational.avg_percentage r))
    <$> Relational.student_course_summary sample_db
  = [(4, 1, 2, 1, Some (9000 # 100)%Q); (4, 3, 2, 1, Some (8500 # 100)%Q);
     (5, 1, 2, 1, Some (7600 # 100)%Q); (5, 2, 1, 1, Some (9067 # 100)%Q);
     (5, 3, 2, 1, Some (9200 # 100)%Q); (6, 2, 1, 1, Some (9467 # 100)%Q);
     (6, 4, 0, 0, None); (7, 1, 2, 1, Some (8400 # 100)%Q);
     (7, 3, 2, 1, Some (7800 # 100)%Q)].
Proof. by vm_compute. Qed.

(** getCourseStudents on the sample rows: Carol, enrolled in a course
    without quizzes, has a NULL average. *)
Example course_students_of_sample_rows :
  (λ r, (Relational.row_user_id r, Relational.row_avg_percentage r))
    <$> Relational.course_students 4 sample_db
  = [(6, None)].
Proof. by vm_compute. Qed.

(** * Further properties of the models *)

(** ** Editing posts and runs of calls on a thread *)

Lemma editPost_keeps_ids (d : Discussion.t) (postId : Z) (text : string) (now1 now2 : Z) :
  Discussion.post_ids (snd (Discussion.editPost postId text now1 now2 d))
    = Discussion.post_ids d
  ∧ Discussion.post_count (snd (Discussion.editPost postId text now1 now2 d))
    = Discussion.post_count d.
Proof.
  unfold Discussion.editPost.
  destruct (list_find _ _) as [[i p]|] eqn:Hfind; [|done].
  apply list_find_Some in Hfind as (Hi & Hp & _).
  cbn. split; [|done]. unfold Discussion.post_ids. cbn.
  rewrite list_fmap_insert. apply list_insert_id.
  by rewrite list_lookup_fmap, Hi.
Qed.

(** X1. [editPost] of an id that a post of the thread has reaches [save]
    with the first post of that id rewritten in place: its content is the
    new (trimmed) content, it is marked edited at the first clock reading,
    and its id, author and creation time are kept; the other posts, the ids
    and [post_count] are unchanged and [updated_at] is the second clock
    reading. *)
Theorem editPost_rewrites_first_match
  (d : Discussion.t) (postId : Z) (newContent : string) (now1 now2 : Z) :
  postId ∈ Discussion.post_ids d →
  ∃ (i : nat) (p p' : Discussion.Post),
    Discussion.posts d !! i = Some p
    ∧ Discussion.post_id p = postId
    ∧ (∀ j q, Discussion.posts d !! j = Some q → (j < i)%nat → Discussion.post_id q ≠ postId)
    ∧ Discussion.editPost postId newContent now1 now2 d
      = (CallsSave,
         Discussion.set_posts d (<[i := p']> (Discussion.posts d))
                              (Discussion.post_count d) now2)
    ∧ Discussion.content p' = trim newContent
    ∧ Discussion.is_edited p' = true
    ∧ Discussion.edited_at p' = Some now1
    ∧ Discussion.post_id p' = postId
    ∧ Discussion.user_id p' = Discussion.user_id p
    ∧ Discussion.created_at p' = Discussion.created_at p
    ∧ Discussion.post_ids (snd (Discussion.editPost postId newContent now1 now2 d))
      = Discussion.post_ids d.
Proof.
  intros Hin. unfold Discussion.editPost.
  destruct (list_find _ _) as [[i p]|] eqn:Hfind.
  - pose proof Hfind as (Hi & Hp & Hfirst)%list_find_Some.
    exists i, p, (Discussion.edit_post p newContent now1).
    repeat split; try done.
    pose proof (editPost_keeps_ids d postId newContent now1 now2) as [Hids _].
    unfold Discussion.editPost in Hids. by rewrite Hfind in Hids.
  - apply list_find_None in Hfind. rewrite Forall_forall in Hfind.
    apply list_elem_of_fmap in Hin as (p & -> & Hp). by destruct (Hfind p Hp).
Qed.

Lemma editPost_rewrites_first_match_witness :
  let d2 := run_post_ops [AddPost 4 "hello" 10 10; AddPost 2 "world" 20 20]
                         (Discussion.empty 1 4 "Welcome" 0) in
  ∃ (i : nat) (p' : Discussion.Post),
    Discussion.posts (snd (Discussion.editPost 2 "  world!  " 30 31 d2)) !! i = Some p'
    ∧ Discussion.content p' = "world!"
    ∧ Discussion.is_edited p' = true.
Proof.
  cbn zeta.
  destruct (editPost_rewrites_first_match
              (run_post_ops [AddPost 4 "hello" 10 10; AddPost 2 "world" 20 20]
                            (Discussion.empty 1 4 "Welcome" 0))
              2 "  world!  " 30 31)
    as (i & p & p' & Hi & _ & _ & Hrun & Hcontent & Hedited & _).
  { vm_compute. right. left. }
  exists i, p'. rewrite Hrun. cbn [snd Discussion.posts Discussion.set_posts].
  split; [|split; [exact Hcontent | exact Hedited]].
  apply list_lookup_insert_eq. by eapply lookup_lt_Some.
Defined.

Lemma newPostId_after_sequence (d : Discussion.t) (n : nat) :
  Z.of_nat n ≤ MAX_SAFE_INTEGER →
  Discussion.post_ids d = seqZ 1 (Z.of_nat n) →
  Discussion.newPostId d = Z.of_nat n + 1.
Proof.
  intros Hsafe Hids. unfold Discussion.newPostId. rewrite Hids.
  destruct n as [|n]; [done|].
  destruct (seqZ 1 (Z.of_nat (S n))) as [|x xs] eqn:Hseq.
  { pose proof (length_seqZ 1 (Z.of_nat (S n))) as Hlen. rewrite Hseq in Hlen.
    cbn in Hlen. lia. }
  pose proof (Math_max_attained xs x) as Hmax. rewrite <- Hseq in Hmax.
  apply elem_of_seqZ in Hmax.
  assert (Z.of_nat (S n) ∈ x :: xs) as Hlast.
  { rewrite <- Hseq. apply elem_of_seqZ. lia. }
  apply Math_max_upper in Hlast.
  rewrite plus_exact by lia. lia.
Qed.

(** X2. On a thread that starts without posts, after any run of [addPost]
    and [editPost] calls the post ids are 1, 2, ..., n in this order, where
    n is the number of [addPost] calls, and [post_count] is n; this holds
    for every n up to 2^53, the last integer that [Math.max(...) + 1]
    reaches exactly. *)
Theorem thread_ids_are_sequential
  (ops : list PostOp) (course creator : Z) (ttl : string) (now : Z) :
  Z.of_nat (count_adds ops) ≤ MAX_SAFE_INTEGER + 1 →
  let d := run_post_ops ops (Discussion.empty course creator ttl now) in
  Discussion.post_ids d = seqZ 1 (Z.of_nat (count_adds ops))
  ∧ Discussion.post_count d = Z.of_nat (count_adds ops)
  ∧ length (Discussion.posts d) = count_adds ops.
Proof.
  intros Hbound. cbn zeta.
  assert (∀ ops d n,
            Z.of_nat (n + count_adds ops) ≤ MAX_SAFE_INTEGER + 1 →
            Discussion.post_ids d = seqZ 1 (Z.of_nat n) →
            Discussion.post_count d = Z.of_nat n →
            Discussion.post_ids (run_post_ops ops d)
              = seqZ 1 (Z.of_nat (n + count_adds ops))
            ∧ Discussion.post_count (run_post_ops ops d)
              = Z.of_nat (n + count_adds ops)) as Hrun.
  { clear. induction ops as [|op ops' IH]; intros d n Hsafe Hids Hcount.
    - unfold count_adds. cbn. by rewrite Nat.add_0_r.
    - unfold run_post_ops. cbn [foldl]. fold (run_post_ops ops').
      destruct op as [userId text now1 now2|postId text now1 now2].
      + replace (n + count_adds (AddPost userId text now1 now2 :: ops'))%nat
          with (S n + count_adds ops')%nat in * by (unfold count_adds; cbn; lia).
        apply IH; [done| |].
        * unfold Discussion.post_ids. cbn. rewrite fmap_app. cbn.
          fold (Discussion.post_ids d).
          rewrite (newPostId_after_sequence d n) by (done || lia).
          rewrite Hids, seqZ_S. do 2 f_equal. lia.
        * cbn. rewrite length_app. cbn.
          assert (length (Discussion.posts d) = n) as ->; [|lia].
          pose proof (f_equal length Hids) as Hlen.
          unfold Discussion.post_ids in Hlen.
          rewrite length_fmap, length_seqZ in Hlen. lia.
      + replace (n + count_adds (EditPost postId text now1 now2 :: ops'))%nat
          with (n + count_adds ops')%nat in * by (unfold count_adds; cbn; lia).
        cbn [apply_post_op].
        destruct (editPost_keeps_ids d postId text now1 now2) as [Hi Hc].
        apply IH; [done|congruence|congruence]. }
  destruct (Hrun ops (Discussion.empty course creator ttl now) 0%nat Hbound eq_refl eq_refl)
    as [Hids Hcount].
  split; [exact Hids|]. split; [exact Hcount|].
  pose proof (f_equal length Hids) as Hlen.
  unfold Discussion.post_ids in Hlen. rewrite length_fmap, length_seqZ in Hlen.
  cbn in Hlen. lia.
Qed.

Lemma thread_ids_are_sequential_witness :
  let d := run_post_ops
             [AddPost 4 "hello" 10 10; EditPost 1 "hi" 15 15; AddPost 2 "world" 20 20]
             (Discussion.empty 1 4 "Welcome" 0) in
  Discussion.post_ids d = [1; 2] ∧ Discussion.post_count d = 2.
Proof.
  destruct (thread_ids_are_sequential
              [AddPost 4 "hello" 10 10; EditPost 1 "hi" 15 15; AddPost 2 "world" 20 20]
              1 4 "Welcome" 0) as (Hids & Hcount & _).
  - vm_compute. discriminate.
  - split; [exact Hids | exact Hcount].
Defined.

(** ** Resubmission, grading and runs of calls on an assignment *)

Lemma list_find_insert_other {A : Type} (P : A → Prop) `{∀ x, Decision (P x)}
    (l : list A) (i : nat) (x y : A) :
  l !! i = Some x → ¬ P x → ¬ P y →
  list_find P (<[i := y]> l) = list_find P l.
Proof.
  revert i. induction l as [|z l IH]; intros i Hi Hx Hy; [done|].
  destruct i as [|i]; csimpl in *.
  - injection Hi as ->. by rewrite !decide_False.
  - case_decide; [done|]. by rewrite (IH i).
Qed.

Lemma list_find_snoc_other {A : Type} (P : A → Prop) `{∀ x, Decision (P x)}
    (l : list A) (y : A) :
  ¬ P y → list_find P (l ++ [y]) = list_find P l.
Proof.
  intros Hy. induction l as [|z l IH]; csimpl.
  - by rewrite decide_False.
  - case_decide; [done|]. by rewrite IH.
Qed.

(** X3. When [addSubmission] reaches [save], the submission then stored for
    the student carries no grade, grader, grading time or feedback and is
    not [graded], whatever was stored for the student before (a
    resubmission discards the grade); and what is stored for every other
    student is what it was. *)
Theorem addSubmission_discards_grade_keeps_others
  (a : Assignment.t) (studentId : Z) (sd : Assignment.SubmissionData) (now : Z) :
  fst (Assignment.addSubmission studentId sd now a) = CallsSave →
  (∃ s', Assignment.getSubmissionByStudent studentId
           (snd (Assignment.addSubmission studentId sd now a)) = Some s'
         ∧ Assignment.grade s' = None
         ∧ Assignment.graded_by s' = None
         ∧ Assignment.graded_at s' = None
         ∧ Assignment.feedback s' = None
         ∧ Assignment.status s' ≠ Assignment.graded
         ∧ Assignment.submitted_at s' = now)
  ∧ ∀ other, other ≠ studentId →
      Assignment.getSubmissionByStudent other
        (snd (Assignment.addSubmission studentId sd now a))
      = Assignment.getSubmissionByStudent other a.
Proof.
  unfold Assignment.addSubmission, Assignment.getSubmissionByStudent.
  destruct (negb _ && _); [done|]. intros _.
  destruct (list_find _ (Assignment.submissions a)) as [[i s]|] eqn:Hfind;
    cbn [fst snd Assignment.submissions Assignment.set_submissions].
  - split.
    + eexists. erewrite find_student_in_insert; [|exact Hfind|done].
      cbn. repeat split; try done. by destruct (now >? _).
    + intros other Hother. apply find_student_Some in Hfind as [Hi Hid].
      erewrite list_find_insert_other; [done|exact Hi|..]; cbn; congruence.
  - split.
    + eexists. erewrite find_student_in_snoc; [|exact Hfind|done].
      cbn. repeat split; try done. by destruct (now >? _).
    + intros other Hother. rewrite list_find_snoc_other; [done|]. cbn. congruence.
Qed.

Lemma addSubmission_discards_grade_keeps_others_witness :
  let a1 := run_assignment_ops
              [SubmitOp 4 (text_submission "draft") 100;
               SubmitOp 5 (text_submission "other") 150;
               GradeOp 4 (Assignment.mkGradeData (Some 85) (Some "good") (Some 2)) 300 300]
              scenario_assignment in
  Assignment.grade <$> Assignment.getSubmissionByStudent 4 a1 = Some (Some 85)
  ∧ (∃ s', Assignment.getSubmissionByStudent 4
             (snd (Assignment.addSubmission 4 (text_submission "final") 400 a1)) = Some s'
           ∧ Assignment.grade s' = None
           ∧ Assignment.status s' ≠ Assignment.graded)
  ∧ Assignment.getSubmissionByStudent 5
      (snd (Assignment.addSubmission 4 (text_submission "final") 400 a1))
    = Assignment.getSubmissionByStudent 5 a1.
Proof.
  cbn zeta. split; [reflexivity|].
  destruct (addSubmission_discards_grade_keeps_others
              (run_assignment_ops
                 [SubmitOp 4 (text_submission "draft") 100;
                  SubmitOp 5 (text_submission "other") 150;
                  GradeOp 4 (Assignment.mkGradeData (Some 85) (Some "good") (Some 2)) 300 300]
                 scenario_assignment)
              4 (text_submission "final") 400 eq_refl)
    as [(s' & Hget & Hgrade & _ & _ & _ & Hstatus & _) Hothers].
  split.
  - exists s'. split; [exact Hget|]. split; [exact Hgrade | exact Hstatus].
  - apply Hothers. discriminate.
Defined.

(** One call of [gradeSubmission] keeps the three invariants, whether it
    throws or not. *)
Lemma gradeSubmission_keeps_invariants (a : Assignment.t) studentId gd now1 now2 :
  one_submission_per_student a → submission_count_matches a → grade_implies_graded a →
  one_submission_per_student (snd (Assignment.gradeSubmission studentId gd now1 now2 a))
  ∧ submission_count_matches (snd (Assignment.gradeSubmission studentId gd now1 now2 a))
  ∧ grade_implies_graded (snd (Assignment.gradeSubmission studentId gd now1 now2 a)).
Proof.
  unfold one_submission_per_student, submission_count_matches, grade_implies_graded,
    Assignment.student_ids, Assignment.gradeSubmission.
  intros Hnd Hcount Hgraded.
  destruct (list_find _ _) as [[i s]|] eqn:Hfind; [|done].
  destruct (Assignment.exceeds _ _); [done|].
  apply find_student_Some in Hfind as [Hi Hid]. cbn.
  rewrite (replace_keeps_ids _ i s) by done.
  rewrite length_insert. split; [done|]. split; [done|].
  intros s' Hs' Hsome.
  apply list_elem_of_lookup in Hs' as [j Hj].
  destruct (decide (i = j)) as [<-|Hne].
  - rewrite list_lookup_insert_eq in Hj by (by eapply lookup_lt_Some).
    by injection Hj as <-.
  - rewrite list_lookup_insert_ne in Hj by done.
    apply Hgraded; [|done]. by eapply list_elem_of_lookup_2.
Qed.

Lemma addSubmission_keeps_grade_invariant (a : Assignment.t) studentId sd now :
  grade_implies_graded a →
  grade_implies_graded (snd (Assignment.addSubmission studentId sd now a)).
Proof.
  unfold grade_implies_graded, Assignment.addSubmission. intros Hgraded.
  destruct (negb _ && _); [done|].
  destruct (list_find _ _) as [[i s]|] eqn:Hfind; cbn; intros s' Hs' Hsome.
  - apply list_elem_of_lookup in Hs' as [j Hj].
    destruct (decide (i = j)) as [<-|Hne].
    + apply find_student_Some in Hfind as [Hi _].
      rewrite list_lookup_insert_eq in Hj by (by eapply lookup_lt_Some).
      injection Hj as <-. by destruct Hsome.
    + rewrite list_lookup_insert_ne in Hj by done.
      apply Hgraded; [|done]. by eapply list_elem_of_lookup_2.
  - apply elem_of_app in Hs' as [Hs'|Hs'%list_elem_of_singleton].
    + by apply Hgraded.
    + subst s'. by destruct Hsome.
Qed.

(** X4. Starting from an assignment with at most one submission per
    student, a matching counter and no grade on a submission that is not
    [graded] (a new assignment is one), any run of [addSubmission] and
    [gradeSubmission] calls, throwing or not, leaves an assignment with the
    same three properties. *)
Theorem assignment_run_keeps_invariants (ops : list AssignmentOp) (a : Assignment.t) :
  one_submission_per_student a →
  submission_count_matches a →
  grade_implies_graded a →
  one_submission_per_student (run_assignment_ops ops a)
  ∧ submission_count_matches (run_assignment_ops ops a)
  ∧ grade_implies_graded (run_assignment_ops ops a).
Proof.
  unfold run_assignment_ops. revert a.
  induction ops as [|op ops IH]; intros a Hnd Hcount Hgraded; [done|].
  cbn [foldl]. destruct op as [studentId sd now|studentId gd now1 now2]; cbn.
  - destruct (addSubmission_keeps_invariants a studentId sd now Hnd Hcount).
    apply IH; [done|done|]. by apply addSubmission_keeps_grade_invariant.
  - destruct (gradeSubmission_keeps_invariants a studentId gd now1 now2 Hnd Hcount Hgraded)
      as (? & ? & ?).
    by apply IH.
Qed.

Lemma assignment_run_keeps_invariants_witness :
  let a := run_assignment_ops
             [SubmitOp 4 (text_submission "draft") 100;
              GradeOp 4 (Assignment.mkGradeData (Some 85) None (Some 2)) 300 300;
              GradeOp 4 (Assignment.mkGradeData (Some 101) None (Some 2)) 310 310;
              SubmitOp 5 (text_submission "late") 2000;
              SubmitOp 4 (text_submission "final") 400]
             scenario_assignment in
  one_submission_per_student a ∧ submission_count_matches a ∧ grade_implies_graded a.
Proof.
  cbn zeta. apply assignment_run_keeps_invariants.
  - apply NoDup_nil_2.
  - reflexivity.
  - intros s Hs. by apply elem_of_nil in Hs.
Defined.

(** ** Statistics of an assignment *)

Lemma filter_length_le {A : Type} (f : A → bool) (l : list A) :
  (length (List.filter f l) ≤ length l)%nat.
Proof. induction l as [|x l IH]; cbn; [done|]. destruct (f x); cbn; lia. Qed.

Lemma filter_disjoint_length {A : Type} (f g : A → bool) (l : list A) :
  (∀ x, f x = true → g x = false) →
  (length (List.filter f l) + length (List.filter g l) ≤ length l)%nat.
Proof.
  intros Hdisj. induction l as [|x l IH]; cbn; [done|].
  destruct (f x) eqn:Hf; [rewrite (Hdisj x Hf)|destruct (g x)]; cbn; lia.
Qed.

Lemma filter_insert_length {A : Type} (f : A → bool) (l : list A) (i : nat) (x y : A) :
  l !! i = Some x →
  (length (List.filter f (<[i := y]> l)) + (if f x then 1 else 0)
   = length (List.filter f l) + (if f y then 1 else 0))%nat.
Proof.
  revert i. induction l as [|z l IH]; intros i Hi; [done|].
  destruct i as [|i]; simpl in *.
  - injection Hi as ->. destruct (f x), (f y); simpl; lia.
  - specialize (IH i Hi). destruct (f z); simpl; lia.
Qed.

(** X5. In the statistics of an assignment, [total_submissions] is the
    number of embedded submissions (and equals [submission_count] when the
    counter matches), [pending_grading] is the total minus the graded ones
    and is not negative, and the graded and the late submissions together
    are at most the total. *)
Theorem statistics_counts_are_consistent (a : Assignment.t) :
  let st := AssignmentStatistics.getStatistics a in
  AssignmentStatistics.total_submissions st
    = Z.of_nat (length (Assignment.submissions a))
  ∧ AssignmentStatistics.pending_grading st
    = AssignmentStatistics.total_submissions st
      - AssignmentStatistics.graded_submissions st
  ∧ 0 ≤ AssignmentStatistics.pending_grading st
  ∧ 0 ≤ AssignmentStatistics.graded_submissions st
  ∧ 0 ≤ AssignmentStatistics.late_submissions st
  ∧ AssignmentStatistics.graded_submissions st + AssignmentStatistics.late_submissions st
    ≤ AssignmentStatistics.total_submissions st
  ∧ (submission_count_matches a →
     AssignmentStatistics.total_submissions st = Assignment.submission_count a).
Proof.
  cbn. unfold AssignmentStatistics.count_status.
  pose proof (filter_length_le (AssignmentStatistics.status_is Assignment.graded)
                (Assignment.submissions a)).
  pose proof (filter_disjoint_length
                (AssignmentStatistics.status_is Assignment.graded)
                (AssignmentStatistics.status_is Assignment.late)
                (Assignment.submissions a)) as Hdisj.
  repeat split; try lia.
  - apply Nat2Z.inj_le in Hdisj; [lia|].
    intros s. unfold AssignmentStatistics.status_is.
    by destruct (Assignment.status s).
  - intros Hcount. by rewrite Hcount.
Qed.

Lemma statistics_counts_are_consistent_witness :
  let a := run_assignment_ops
             [SubmitOp 4 (text_submission "draft") 100;
              GradeOp 4 (Assignment.mkGradeData (Some 85) None (Some 2)) 300 300;
              SubmitOp 5 (text_submission "other") 400]
             scenario_assignment in
  submission_count_matches a
  ∧ AssignmentStatistics.total_submissions (AssignmentStatistics.getStatistics a)
    = Assignment.submission_count a.
Proof.
  cbn zeta.
  assert (submission_count_matches
            (run_assignment_ops
               [SubmitOp 4 (text_submission "draft") 100;
                GradeOp 4 (Assignment.mkGradeData (Some 85) None (Some 2)) 300 300;
                SubmitOp 5 (text_submission "other") 400]
               scenario_assignment)) as Hcount by reflexivity.
  split; [exact Hcount|].
  by apply statistics_counts_are_consistent.
Defined.

(** X6. When [gradeSubmission] reaches [save] for a student whose stored
    submission was not [graded], the statistics afterwards count one graded
    submission more and one pending less, with the same total; and when
    that submission had status [late], they count one late submission less:
    grading overwrites the [late] status. *)
Theorem grading_moves_statistics
  (a : Assignment.t) (studentId : Z) (gd : Assignment.GradeData) (now1 now2 : Z)
  (s : Assignment.Submission) :
  Assignment.getSubmissionByStudent studentId a = Some s →
  Assignment.status s ≠ Assignment.graded →
  fst (Assignment.gradeSubmission studentId gd now1 now2 a) = CallsSave →
  let before := AssignmentStatistics.getStatistics a in
  let after := AssignmentStatistics.getStatistics
                 (snd (Assignment.gradeSubmission studentId gd now1 now2 a)) in
  AssignmentStatistics.total_submissions after
    = AssignmentStatistics.total_submissions before
  ∧ AssignmentStatistics.graded_submissions after
    = AssignmentStatistics.graded_submissions before + 1
  ∧ AssignmentStatistics.pending_grading after
    = AssignmentStatistics.pending_grading before - 1
  ∧ AssignmentStatistics.late_submissions after
    = AssignmentStatistics.late_submissions before
      - (if AssignmentStatistics.status_is Assignment.late s then 1 else 0).
Proof.
  unfold Assignment.getSubmissionByStudent, Assignment.gradeSubmission.
  destruct (list_find _ (Assignment.submissions a)) as [[i s0]|] eqn:Hfind; [|done].
  intros [= ->] Hstatus. destruct (Assignment.exceeds _ _); [done|]. intros _.
  apply find_student_Some in Hfind as [Hi _].
  cbn. unfold AssignmentStatistics.count_status. cbn.
  rewrite length_insert.
  pose proof (filter_insert_length (AssignmentStatistics.status_is Assignment.graded)
                _ i s (Assignment.graded_submission s gd now1) Hi) as Hg.
  pose proof (filter_insert_length (AssignmentStatistics.status_is Assignment.late)
                _ i s (Assignment.graded_submission s gd now1) Hi) as Hl.
  assert (AssignmentStatistics.status_is Assignment.graded s = false) as Hnot.
  { unfold AssignmentStatistics.status_is. by destruct (Assignment.status s). }
  rewrite Hnot in Hg. cbn in Hg, Hl.
  destruct (Assignment.status s); repeat split; lia.
Qed.

Lemma grading_moves_statistics_witness :
  let a := run_assignment_ops
             [SubmitOp 4 (text_submission "draft") 100] scenario_assignment in
  AssignmentStatistics.graded_submissions
    (AssignmentStatistics.getStatistics
       (snd (Assignment.gradeSubmission 4
               (Assignment.mkGradeData (Some 85) None (Some 2)) 300 300 a)))
  = AssignmentStatistics.graded_submissions (AssignmentStatistics.getStatistics a) + 1.
Proof.
  cbn zeta.
  refine (proj1 (proj2 (grading_moves_statistics _ 4
                          (Assignment.mkGradeData (Some 85) None (Some 2)) 300 300
                          (Assignment.build_submission 4 100 (text_submission "draft") false)
                          _ _ _))).
  - reflexivity.
  - discriminate.
  - reflexivity.
Defined.

(** ** The activity log collection *)

Lemma save_stored {D : Type} (d : D) (st : Store.t D) :
  (fst (Store.save d st) = inr d ∧ Store.stored (snd (Store.save d st)) = d)
  ∨ (∃ e, fst (Store.save d st) = inl e
          ∧ Store.stored (snd (Store.save d st)) = Store.stored st).
Proof.
  unfold Store.save. destruct (Store.pending st) as [|[e|] rest]; cbn; eauto.
Qed.

Lemma logActivity_outcome (ld : ActivityLog.LogData) (now : Z)
    (st : Store.t (list ActivityLog.t)) :
  match ActivityLog.logActivity ld now st with
  | (inl _, st') => Store.stored st' = Store.stored st
  | (inr log, st') =>
      Store.stored st' = Store.stored st ++ [log]
      ∧ log = ActivityLog.build ld now
      ∧ ActivityLog.valid log = true
  end.
Proof.
  unfold ActivityLog.logActivity.
  destruct (ActivityLog.valid (ActivityLog.build ld now)) eqn:Hvalid; cbn; [|done].
  destruct (save_stored (Store.stored st ++ [ActivityLog.build ld now]) st)
    as [[Hr Hs]|(e & Hr & Hs)];
    destruct (Store.save _ st) as [[e'|l] st']; cbn in *; done.
Qed.

(** X7. The static [logActivity] only ever appends: when it resolves, the
    collection is the one before followed by the new entry, which is the
    entry built from the argument, stamped with the clock and with an action
    of the schema's enum; when it rejects, the collection is unchanged. *)
Theorem logActivity_appends_or_leaves
  (ld : ActivityLog.LogData) (now : Z) (st : Store.t (list ActivityLog.t)) :
  (∀ log, fst (ActivityLog.logActivity ld now st) = inr log →
     Store.stored (snd (ActivityLog.logActivity ld now st)) = Store.stored st ++ [log]
     ∧ log = ActivityLog.build ld now
     ∧ ActivityLog.timestamp log = now
     ∧ ActivityLog.user_id log = ActivityLog.ld_user_id ld
     ∧ ActivityLog.action log ∈ ActivityLog.actions)
  ∧ (∀ e, fst (ActivityLog.logActivity ld now st) = inl e →
       Store.stored (snd (ActivityLog.logActivity ld now st)) = Store.stored st).
Proof.
  pose proof (logActivity_outcome ld now st) as Hlog.
  destruct (ActivityLog.logActivity ld now st) as [[e|log] st']; cbn.
  - split; [done|]. by intros e0 _.
  - split; [|done]. intros log0 [= <-]. destruct Hlog as (Hs & -> & Hvalid).
    repeat split; try done.
    unfold ActivityLog.valid in Hvalid.
    apply andb_true_iff in Hvalid as [[Hact _]%andb_true_iff _].
    by apply bool_decide_eq_true in Hact.
Qed.

Lemma logActivity_appends_or_leaves_witness :
  let ld := ActivityLog.mkLogData 4 "LOGIN" None None None None None None in
  Store.stored (snd (ActivityLog.logActivity ld 50 (Store.mkStore [] [] 0)))
    = [ActivityLog.build ld 50]
  ∧ Store.stored
      (snd (ActivityLog.logActivity ld 50
              (Store.mkStore [] [Some Store.VersionError] 0))) = [].
Proof.
  cbn zeta.
  destruct (logActivity_appends_or_leaves
              (ActivityLog.mkLogData 4 "LOGIN" None None None None None None) 50
              (Store.mkStore [] [] 0)) as [Hok _].
  destruct (logActivity_appends_or_leaves
              (ActivityLog.mkLogData 4 "LOGIN" None None None None None None) 50
              (Store.mkStore [] [Some Store.VersionError] 0)) as [_ Hfail].
  split.
  - exact (proj1 (Hok _ eq_refl)).
  - exact (Hfail _ eq_refl).
Defined.

Lemma log_to_store_invalid (ld : ActivityLog.LogData) (now : Z) (w : World) :
  ActivityLog.valid (ActivityLog.build ld now) = false →
  log_to_store ld now w = (inl ActivityLog.validation_error, w).
Proof.
  intros Hinvalid. unfold log_to_store, ActivityLog.logActivity.
  rewrite Hinvalid. by destruct w.
Qed.

Lemma build_logData_fields {D : Type} (act : string) (o : ActivityLogger.Options D)
    (req : ActivityLogger.Request) (u : ActivityLogger.ReqUser) (statusCode : Z) (d : D)
    (w : World) :
  (∃ e, ActivityLogger.build_logData act o req u statusCode d w = (inl e, w))
  ∨ (∃ ld, ActivityLogger.build_logData act o req u statusCode d w = (inr ld, w)
           ∧ ActivityLog.ld_user_id ld = ActivityLogger.user_id u
           ∧ ActivityLog.ld_action ld = act
           ∧ ActivityLog.ld_success ld = Some (statusCode <? 400)
           ∧ ActivityLog.ld_resource_type ld
             = ActivityLogger.truthy_string (ActivityLogger.resourceType o)
           ∧ ∃ m, ActivityLog.ld_metadata ld = Some m
                  ∧ ActivityLog.device_type m
                    = ActivityLog.device_type (ActivityLogger.extractMetadata req)).
Proof.
  unfold ActivityLogger.build_logData.
  destruct (ActivityLogger.read_course_id req) as [e|cid]; [left; by exists e|].
  destruct (ActivityLogger.read_additional o req d) as [e|extra]; [left; by exists e|].
  right. eexists. split; [reflexivity|]. cbn. repeat split; eauto.
Qed.

(** X8. With an action outside the enum of the schema, or a resource type
    outside its enum, the [res.json] installed by the middleware never adds
    an entry to the log collection and never touches the relational rows,
    whoever the user is and whatever the store would answer; the body is
    still sent. *)
Theorem middleware_never_stores_invalid_entry
  {D : Type} (act : string) (o : ActivityLogger.Options D)
  (req : ActivityLogger.Request) (statusCode now : Z) (d : D) (w : World) :
  act ∉ ActivityLog.actions
  ∨ (∃ r, ActivityLogger.truthy_string (ActivityLogger.resourceType o) = Some r
          ∧ r ∉ ActivityLog.resource_types) →
  fst (ActivityLogger.logActivity act o req statusCode now d w) = inr d
  ∧ activity_logs (snd (ActivityLogger.logActivity act o req statusCode now d w))
    = activity_logs w
  ∧ db (snd (ActivityLogger.logActivity act o req statusCode now d w)) = db w.
Proof.
  intros Hinvalid.
  assert (∃ w', ActivityLogger.logActivity act o req statusCode now d w = (inr d, w')
                ∧ activity_logs w' = activity_logs w ∧ db w' = db w)
    as (w' & -> & Hlogs & Hdb); [|done].
  unfold ActivityLogger.logActivity, bind, try_catch.
  destruct (ActivityLogger.user req) as [u|]; [|by exists w].
  destruct (ActivityLogger.user_id u =? 0); [by exists w|].
  destruct (build_logData_fields act o req u statusCode d w)
    as [(e & ->)|(ld & -> & _ & Hact & _ & Hres & _)]; [by eexists|].
  rewrite log_to_store_invalid; [by eexists|].
  unfold ActivityLog.valid, ActivityLog.build, ActivityLog.mem. cbn.
  rewrite Hact, Hres.
  destruct Hinvalid as [Hbad|(r & -> & Hbad)].
  - by rewrite bool_decide_eq_false_2.
  - rewrite (bool_decide_eq_false_2 (r ∈ _)) by done.
    by rewrite andb_false_r.
Qed.

Lemma middleware_never_stores_invalid_entry_witness :
  let o := ActivityLogger.mkOptions (Some "quiz_submission") ActivityLogger.NoAdditional in
  let req := enroll_request (Some (ActivityLogger.mkBody None)) in
  ("submit_quiz" ∉ ActivityLog.actions)
  ∧ activity_logs (snd (ActivityLogger.logActivity "submit_quiz" o req 201 50 "sent"
                          (world_of sample_db [])))
    = activity_logs (world_of sample_db []).
Proof.
  cbn zeta.
  assert ("submit_quiz" ∉ ActivityLog.actions) as Hout.
  { apply (bool_decide_eq_false_1 ("submit_quiz" ∈ ActivityLog.actions)). reflexivity. }
  split; [exact Hout|].
  apply (middleware_never_stores_invalid_entry "submit_quiz"). by left.
Defined.

(** X9. For a request without an authenticated user ([req.user] absent, or
    with a [user_id] of 0) the [res.json] installed by the middleware sends
    the body and leaves the process as it was: nothing is logged and
    nothing is printed. *)
Theorem middleware_skips_anonymous_requests
  {D : Type} (act : string) (o : ActivityLogger.Options D)
  (req : ActivityLogger.Request) (statusCode now : Z) (d : D) (w : World) :
  (∀ u, ActivityLogger.user req = Some u → ActivityLogger.user_id u = 0) →
  ActivityLogger.logActivity act o req statusCode now d w = (inr d, w).
Proof.
  intros Hanon. unfold ActivityLogger.logActivity, bind, try_catch.
  destruct (ActivityLogger.user req) as [u|]; [|done].
  by rewrite (Hanon u eq_refl).
Qed.

Lemma middleware_skips_anonymous_requests_witness :
  let o := ActivityLogger.mkOptions (Some "course") ActivityLogger.NoAdditional in
  let req := ActivityLogger.mkRequest None (Some 1) None None None None in
  ActivityLogger.logActivity "VIEW_COURSE" o req 200 50 "sent" (world_of sample_db [])
  = (inr "sent", world_of sample_db []).
Proof.
  cbn zeta. apply middleware_skips_anonymous_requests. intros u Hu. discriminate Hu.
Defined.

(** X10. [logManualActivity] does exactly one of two things: it appends one
    entry to the log collection and prints nothing, or it leaves the
    collection as it was and prints one line; it never touches the
    relational rows or the documents. *)
Theorem logManualActivity_logs_or_prints
  (userId : Z) (act : string) (o : ActivityLogger.ManualOptions) (now : Z) (w : World) :
  let w' := snd (ActivityLogger.logManualActivity userId act o now w) in
  db w' = db w ∧ discussions w' = discussions w ∧ assignments w' = assignments w
  ∧ ((∃ log, Store.stored (activity_logs w') = Store.stored (activity_logs w) ++ [log]
             ∧ ActivityLog.user_id log = userId
             ∧ ActivityLog.action log = act
             ∧ ActivityLog.success log = default true (ActivityLogger.mo_success o)
             ∧ console w' = console w)
     ∨ (Store.stored (activity_logs w') = Store.stored (activity_logs w)
        ∧ ∃ line, console w' = console w ++ [line])).
Proof.
  cbn zeta. unfold ActivityLogger.logManualActivity, try_catch, bind, log_to_store.
  match goal with |- context [ActivityLog.logActivity ?ld now ?st] =>
    pose proof (logActivity_outcome ld now st) as Hlog;
    destruct (ActivityLog.logActivity ld now st) as [[e|log] st'] end; cbn in *.
  - repeat split; try done. right. split; [done|]. eauto.
  - repeat split; try done. left. exists log.
    destruct Hlog as (Hstored & -> & _). cbn.
    by destruct (ActivityLogger.mo_success o).
Qed.




(** ** Enrolling *)

Lemma filter_bool_nil {A : Type} (f : A → bool) (l : list A) :
  (∀ x, x ∈ l → f x = false) → List.filter f l = [].
Proof.
  induction l as [|x l IH]; intros Hall; [done|].
  cbn. rewrite (Hall x) by left. apply IH. intros y Hy. apply Hall. by right.
Qed.

Lemma existsb_elem_of {A : Type} (f : A → bool) (l : list A) :
  existsb f l = true ↔ ∃ x, x ∈ l ∧ f x = true.
Proof.
  rewrite existsb_exists. by setoid_rewrite list_elem_of_In.
Qed.

Lemma existsb_none {A : Type} (f : A → bool) (l : list A) :
  (∀ x, x ∈ l → f x = false) → existsb f l = false.
Proof.
  intros Hall. destruct (existsb f l) eqn:Hex; [|done].
  apply existsb_elem_of in Hex as (x & Hx & Hf). by rewrite (Hall x Hx) in Hf.
Qed.

(** X12. [enrollInCourse] for a course id that no course row has answers
    404 "Course not found" and leaves the process as it was, whatever the
    enrollments table holds. *)
Theorem enroll_missing_course_is_not_found
  (studentId courseId now : Z) (w : World) :
  (∀ c, c ∈ Relational.courses (db w) → Relational.course_id c ≠ courseId) →
  CourseController.enrollInCourse studentId courseId now w
  = (fail_response 404 "Course not found" None, w).
Proof.
  intros Habsent. rewrite enrollInCourse_cases.
  unfold Relational.select_course. rewrite filter_bool_nil; [done|].
  intros c Hc. specialize (Habsent c Hc). lia.
Qed.

Lemma enroll_missing_course_is_not_found_witness :
  CourseController.enrollInCourse 4 999 50 (world_of sample_db [])
  = (fail_response 404 "Course not found" None, world_of sample_db []).
Proof.
  apply enroll_missing_course_is_not_found.
  intros c Hc. cbn in Hc.
  repeat (apply elem_of_cons in Hc as [->|Hc]; [discriminate|]).
  by apply elem_of_nil in Hc.
Defined.

(** What a successful INSERT of [enrollInCourse] leaves in the table. *)
Lemma insert_enrollment_ok (studentId courseId now : Z) (d : Relational.Db) :
  (∃ u, u ∈ Relational.users d ∧ Relational.user_id u = studentId) →
  (∃ c, c ∈ Relational.courses d ∧ Relational.course_id c = courseId) →
  Relational.select_enrollment studentId courseId d = [] →
  ∃ d', Relational.insert_enrollment studentId courseId now d
        = inr (Relational.next_enrollment_id d, d')
        ∧ Relational.enrollments d'
          = Relational.enrollments d
            ++ [Relational.mkEnrollment (Relational.next_enrollment_id d)
                  studentId courseId (Some now) (Some Relational.active)]
        ∧ Relational.users d' = Relational.users d
        ∧ Relational.courses d' = Relational.courses d
        ∧ Relational.quizzes d' = Relational.quizzes d
        ∧ Relational.quiz_submissions d' = Relational.quiz_submissions d
        ∧ Relational.next_enrollment_id d' = Relational.next_enrollment_id d + 1.
Proof.
  intros (u & Hu & Huid) (c & Hc & Hcid) Hnone.
  unfold Relational.insert_enrollment.
  assert (existsb (λ u, Relational.user_id u =? studentId) (Relational.users d) = true)
    as ->.
  { apply existsb_elem_of. exists u. split; [done|]. lia. }
  assert (existsb (λ c, Relational.course_id c =? courseId) (Relational.courses d) = true)
    as ->.
  { apply existsb_elem_of. exists c. split; [done|]. lia. }
  assert (existsb (λ e, (Relational.e_student_id e =? studentId)
                        && (Relational.e_course_id e =? courseId))
                  (Relational.enrollments d) = false) as ->.
  { apply existsb_none. intros e He.
    destruct (_ && _) eqn:Hmatch; [|done].
    assert (e ∈ Relational.select_enrollment studentId courseId d) as Hin
      by (by apply elem_of_filter_bool).
    rewrite Hnone in Hin. by apply elem_of_nil in Hin. }
  cbn. eexists. split; [reflexivity|]. done.
Qed.

(** X13. When the course row and the student's user row exist and the
    enrollments table has no row for the pair, [enrollInCourse] answers 201
    with the AUTO_INCREMENT id and the course name, the table gains exactly
    one row, for the pair, with status [active], and the same request
    handled again is answered 409 "Already active in this course". *)
Theorem enroll_succeeds_once
  (studentId courseId now now' : Z) (w : World) :
  (∃ u, u ∈ Relational.users (db w) ∧ Relational.user_id u = studentId) →
  (∃ c, c ∈ Relational.courses (db w) ∧ Relational.course_id c = courseId) →
  Relational.select_enrollment studentId courseId (db w) = [] →
  let r := CourseController.enrollInCourse studentId courseId now w in
  status (fst r) = 201
  ∧ (∃ c, c ∈ Relational.courses (db w) ∧ Relational.course_id c = courseId
          ∧ data (fst r)
            = Some (CourseController.mkEnrollData
                      (Relational.next_enrollment_id (db w)) courseId
                      (Relational.course_name c)))
  ∧ Relational.enrollments (db (snd r))
    = Relational.enrollments (db w)
      ++ [Relational.mkEnrollment (Relational.next_enrollment_id (db w))
            studentId courseId (Some now) (Some Relational.active)]
  ∧ fst (CourseController.enrollInCourse studentId courseId now' (snd r))
    = fail_response 409 "Already active in this course" None.
Proof.
  intros Hu Hc Hnone. cbn zeta.
  destruct (insert_enrollment_ok studentId courseId now (db w) Hu Hc Hnone)
    as (d' & Hins & Henr & _ & Hcourses & _).
  rewrite !enrollInCourse_cases, Hnone, Hins.
  destruct (Relational.select_course courseId (db w)) as [|course rest] eqn:Hsel.
  { destruct Hc as (c & Hcin & Hcid). exfalso.
    refine (filter_nonempty _ _ c Hcin _ Hsel). cbn. lia. }
  assert (course ∈ Relational.select_course courseId (db w)) as Hcourse
    by (rewrite Hsel; left).
  apply elem_of_filter_bool in Hcourse as [Hcin Hcid].
  cbn [fst snd]. rewrite logManualActivity_keeps_db. cbn [db].
  split; [done|]. split; [exists course; split; [done|]; split; [lia|done]|].
  split; [done|].
  unfold Relational.select_course. rewrite Hcourses.
  fold (Relational.select_course courseId (db w)). rewrite Hsel.
  unfold Relational.select_enrollment. rewrite Henr, List.filter_app.
  fold (Relational.select_enrollment studentId courseId (db w)). rewrite Hnone.
  cbn. by rewrite !Z.eqb_refl.
Qed.

Lemma enroll_succeeds_once_witness :
  let r := CourseController.enrollInCourse 4 2 50 (world_of sample_db []) in
  status (fst r) = 201
  ∧ fst (CourseController.enrollInCourse 4 2 60 (snd r))
    = fail_response 409 "Already active in this course" None.
Proof.
  cbn zeta.
  destruct (enroll_succeeds_once 4 2 50 60 (world_of sample_db []))
    as (Hst & _ & _ & Hagain).
  - exists (Relational.mkUser 4 "Alice Smith" "alice.smith@student.edu" Relational.student).
    split; [|reflexivity]. do 3 right. left.
  - exists (Relational.mkCourse 2 "CS201" "Data Structures and Algorithms" 2).
    split; [|reflexivity]. right. left.
  - reflexivity.
  - split; [exact Hst | exact Hagain].
Defined.

Lemma insert_enrollment_inv (studentId courseId now id : Z) (d d' : Relational.Db) :
  Relational.insert_enrollment studentId courseId now d = inr (id, d') →
  Relational.enrollments d'
    = Relational.enrollments d
      ++ [Relational.mkEnrollment (Relational.next_enrollment_id d)
            studentId courseId (Some now) (Some Relational.active)]
  ∧ Relational.users d' = Relational.users d
  ∧ Relational.courses d' = Relational.courses d
  ∧ Relational.next_enrollment_id d' = Relational.next_enrollment_id d + 1
  ∧ (∃ u, u ∈ Relational.users d ∧ Relational.user_id u = studentId)
  ∧ (∃ c, c ∈ Relational.courses d ∧ Relational.course_id c = courseId)
  ∧ (∀ e, e ∈ Relational.enrollments d →
          (Relational.e_student_id e, Relational.e_course_id e) ≠ (studentId, courseId)).
Proof.
  unfold Relational.insert_enrollment.
  destruct (existsb _ (Relational.users d)) eqn:Hu; [|done].
  destruct (existsb _ (Relational.courses d)) eqn:Hc; [|done].
  destruct (existsb _ (Relational.enrollments d)) eqn:He; [done|].
  cbn. intros [= <- <-]. cbn. repeat split; try done.
  - apply existsb_elem_of in Hu as (u & Hu & Hid). exists u. split; [done|]. lia.
  - apply existsb_elem_of in Hc as (c & Hc & Hid). exists c. split; [done|]. lia.
  - intros e Hin [= Hs Hcid].
    assert (existsb (λ e, (Relational.e_student_id e =? studentId)
                          && (Relational.e_course_id e =? courseId))
                    (Relational.enrollments d) = true) as Hex.
    { apply existsb_elem_of. exists e. split; [done|]. rewrite Hs, Hcid.
      by rewrite !Z.eqb_refl. }
    by rewrite Hex in He.
Qed.

Lemma enrollInCourse_db (studentId courseId now : Z) (w : World) :
  db (snd (CourseController.enrollInCourse studentId courseId now w)) = db w
  ∨ ∃ id, Relational.insert_enrollment studentId courseId now (db w)
          = inr (id, db (snd (CourseController.enrollInCourse studentId courseId now w))).
Proof.
  rewrite enrollInCourse_cases.
  destruct (Relational.select_course _ _) as [|course ?]; [by left|].
  destruct (Relational.select_enrollment _ _ _) as [|existing ?]; [|by left].
  destruct (Relational.insert_enrollment _ _ _ _) as [e|[insertId d']] eqn:Hins;
    [by left|].
  right. exists insertId. cbn [snd]. by rewrite logManualActivity_keeps_db.
Qed.

(** X14. [enrollInCourse] keeps the integrity of the enrollments table:
    starting from rows with distinct (student, course) pairs, distinct ids
    below the AUTO_INCREMENT counter, and student and course references that
    exist, any run of enroll requests, accepted or refused, leaves rows with
    the same properties, and never removes or changes a row. *)
Theorem enroll_run_keeps_table_integrity (reqs : list EnrollRequest) (w : World) :
  enrollment_unique (db w) →
  enrollment_ids_fresh (db w) →
  enrollment_student_fk (db w) →
  enrollment_course_fk (db w) →
  enrollment_unique (db (run_enrolls reqs w))
  ∧ enrollment_ids_fresh (db (run_enrolls reqs w))
  ∧ enrollment_student_fk (db (run_enrolls reqs w))
  ∧ enrollment_course_fk (db (run_enrolls reqs w))
  ∧ Relational.enrollments (db w) `prefix_of` Relational.enrollments (db (run_enrolls reqs w)).
Proof.
  unfold run_enrolls. revert w.
  induction reqs as [|r reqs IH]; intros w Huniq Hfresh Hsfk Hcfk; [done|].
  cbn [foldl].
  set (w1 := snd (CourseController.enrollInCourse (er_student r) (er_course r) (er_now r) w)).
  assert (enrollment_unique (db w1) ∧ enrollment_ids_fresh (db w1)
          ∧ enrollment_student_fk (db w1) ∧ enrollment_course_fk (db w1)
          ∧ Relational.enrollments (db w) `prefix_of` Relational.enrollments (db w1))
    as (Hu1 & Hf1 & Hs1 & Hc1 & Hp1).
  { subst w1.
    destruct (enrollInCourse_db (er_student r) (er_course r) (er_now r) w)
      as [->|[id Hins]]; [done|].
    apply insert_enrollment_inv in Hins
      as (Henr & Husers & Hcourses & Hnext & Hu & Hc & Hnew).
    unfold enrollment_unique, enrollment_ids_fresh, enrollment_student_fk,
      enrollment_course_fk in *.
    rewrite Henr, Husers, Hcourses, Hnext, !fmap_app. cbn [fmap list_fmap].
    destruct Hfresh as [Hids Hbelow].
    split; [|split; [split|split; [|split]]].
    - apply NoDup_app. split; [done|]. split; [|apply NoDup_singleton].
      intros p (e & -> & He)%list_elem_of_fmap Heq%list_elem_of_singleton.
      by apply (Hnew e He).
    - apply NoDup_app. split; [done|]. split; [|apply NoDup_singleton].
      intros i (e & -> & He)%list_elem_of_fmap Heq%list_elem_of_singleton.
      specialize (Hbelow e He). cbn in Heq. lia.
    - intros e [He|Heq%list_elem_of_singleton]%elem_of_app.
      + specialize (Hbelow e He). lia.
      + subst e. cbn. lia.
    - intros e [He|Heq%list_elem_of_singleton]%elem_of_app;
        [by apply Hsfk|by subst e].
    - intros e [He|Heq%list_elem_of_singleton]%elem_of_app;
        [by apply Hcfk|by subst e].
    - by apply prefix_app_r. }
  destruct (IH w1 Hu1 Hf1 Hs1 Hc1) as (? & ? & ? & ? & Hp).
  do 4 (split; [done|]). by etransitivity.
Qed.

Lemma sample_db_integrity :
  enrollment_unique sample_db ∧ enrollment_ids_fresh sample_db
  ∧ enrollment_student_fk sample_db ∧ enrollment_course_fk sample_db.
Proof.
  split; [|split; [split|split]].
  - unfold enrollment_unique. apply (bool_decide_unpack _). by vm_compute.
  - apply (bool_decide_unpack _). by vm_compute.
  - intros e He. cbn in He.
    repeat (apply elem_of_cons in He as [->|He]; [reflexivity|]).
    by apply elem_of_nil in He.
  - assert (Forall (λ e, Exists (λ u, Relational.user_id u = Relational.e_student_id e)
                                (Relational.users sample_db))
                   (Relational.enrollments sample_db)) as Hall
      by (apply (bool_decide_unpack _); by vm_compute).
    intros e He. rewrite Forall_forall in Hall.
    by apply Exists_exists, Hall.
  - assert (Forall (λ e, Exists (λ c, Relational.course_id c = Relational.e_course_id e)
                                (Relational.courses sample_db))
                   (Relational.enrollments sample_db)) as Hall
      by (apply (bool_decide_unpack _); by vm_compute).
    intros e He. rewrite Forall_forall in Hall.
    by apply Exists_exists, Hall.
Qed.

Lemma enroll_run_keeps_table_integrity_witness :
  let w := run_enrolls [mkEnrollRequest 4 2 50; mkEnrollRequest 4 2 60;
                        mkEnrollRequest 6 999 70; mkEnrollRequest 7 4 80]
                       (world_of sample_db []) in
  enrollment_unique (db w)
  ∧ length (Relational.enrollments (db w)) = 11%nat.
Proof.
  cbn zeta.
  destruct sample_db_integrity as (Hu & Hf & Hs & Hc).
  destruct (enroll_run_keeps_table_integrity
              [mkEnrollRequest 4 2 50; mkEnrollRequest 4 2 60;
               mkEnrollRequest 6 999 70; mkEnrollRequest 7 4 80]
              (world_of sample_db []) Hu Hf Hs Hc) as (Huniq & _).
  split; [exact Huniq | reflexivity].
Defined.

(** ** Listing the students of a course *)

(** X15. [getCourseStudents] answers 404 without data when no course row
    has the id; 403 without data when the user has role [instructor] and is
    not the instructor of the course; and 200 with the rows of the query in
    every other case: only the role [instructor] is compared with the owner,
    so an admin, and a student that reaches the handler, get the list. *)
Theorem getCourseStudents_access
  (user : ActivityLogger.ReqUser) (courseId : Z) (d : Relational.Db) :
  (Relational.select_course courseId d = [] →
   CourseController.getCourseStudents user courseId d
   = fail_response 404 "Course not found" None)
  ∧ (∀ course rest,
       Relational.select_course courseId d = course :: rest →
       (ActivityLogger.user_role user = Relational.instructor →
        Relational.instructor_id course ≠ ActivityLogger.user_id user →
        CourseController.getCourseStudents user courseId d
        = fail_response 403 "Access denied" None)
       ∧ (ActivityLogger.user_role user ≠ Relational.instructor
          ∨ Relational.instructor_id course = ActivityLogger.user_id user →
          CourseController.getCourseStudents user courseId d
          = ok_response 200 None (Relational.course_students courseId d))).
Proof.
  unfold CourseController.getCourseStudents, Relational.select_course.
  split; [by intros ->|].
  intros course rest ->. split.
  - intros -> Hother. rewrite bool_decide_eq_true_2 by done.
    by replace (Relational.instructor_id course =? ActivityLogger.user_id user)
      with false by lia.
  - intros [Hrole| ->].
    + by rewrite bool_decide_eq_false_2.
    + by rewrite Z.eqb_refl, andb_false_r.
Qed.

Lemma getCourseStudents_access_witness :
  CourseController.getCourseStudents
    (ActivityLogger.mkReqUser 3 "Dr. Neelu Jyoti Ahuja" Relational.instructor) 1 sample_db
  = fail_response 403 "Access denied" None
  ∧ status (CourseController.getCourseStudents
              (ActivityLogger.mkReqUser 2 "Dr. Divya Mishra" Relational.instructor)
              1 sample_db) = 200
  ∧ status (CourseController.getCourseStudents alice 1 sample_db) = 200
  ∧ status (CourseController.getCourseStudents alice 999 sample_db) = 404.
Proof.
  destruct (getCourseStudents_access
              (ActivityLogger.mkReqUser 3 "Dr. Neelu Jyoti Ahuja" Relational.instructor)
              1 sample_db) as [_ Hother].
  destruct (getCourseStudents_access
              (ActivityLogger.mkReqUser 2 "Dr. Divya Mishra" Relational.instructor)
              1 sample_db) as [_ Howner].
  destruct (getCourseStudents_access alice 1 sample_db) as [_ Hstudent].
  destruct (getCourseStudents_access alice 999 sample_db) as [Hmissing _].
  split; [|split; [|split]].
  - apply (Hother _ _ eq_refl); [reflexivity | discriminate].
  - rewrite (proj2 (Howner _ _ eq_refl)); [reflexivity | by right].
  - rewrite (proj2 (Hstudent _ _ eq_refl)); [reflexivity | left; discriminate].
  - by rewrite Hmissing.
Defined.

Lemma left_rows_inhabited {B : Type} (matching : list B) :
  ∃ o, o ∈ Relational.left_rows matching.
Proof.
  destruct matching as [|b l]; [exists None | exists (Some b)]; cbn; left.
Qed.

Lemma left_rows_intro {B : Type} (matching : list B) (b : B) :
  b ∈ matching → Some b ∈ Relational.left_rows matching.
Proof.
  intros Hb. unfold Relational.left_rows. destruct matching as [|x l].
  - by apply elem_of_nil in Hb.
  - apply list_elem_of_fmap. by exists b.
Qed.

Lemma group_by_intro {A K : Type} `{EqDecision K} (key : A → K) (l : list A) (x : A) :
  x ∈ l →
  ∃ rows, (key x, rows) ∈ Relational.group_by key l
          ∧ x ∈ rows
          ∧ ∀ y, y ∈ l → key y = key x → y ∈ rows.
Proof.
  intros Hx. exists (List.filter (λ r, bool_decide (key r = key x)) l).
  unfold Relational.group_by. split; [|split].
  - apply list_elem_of_fmap. exists (key x). split; [done|].
    apply elem_of_remove_dups, list_elem_of_fmap. by exists x.
  - apply elem_of_filter_bool. split; [done|]. by apply bool_decide_eq_true_2.
  - intros y Hy Hk. apply elem_of_filter_bool. split; [done|].
    by apply bool_decide_eq_true_2.
Qed.

Lemma group_by_complete {A K : Type} `{EqDecision K} (key : A → K) (l : list A)
    (k : K) (rows : list A) :
  (k, rows) ∈ Relational.group_by key l →
  (∃ x, x ∈ rows) ∧ ∀ y, y ∈ l → key y = k → y ∈ rows.
Proof.
  unfold Relational.group_by.
  intros (k' & [= -> ->] & Hk)%list_elem_of_fmap.
  apply (proj1 (elem_of_remove_dups _ _)) in Hk.
  apply list_elem_of_fmap in Hk as (x & -> & Hx). split.
  - exists x. apply elem_of_filter_bool. split; [done|]. by apply bool_decide_eq_true_2.
  - intros y Hy Hkey. apply elem_of_filter_bool. split; [done|].
    by apply bool_decide_eq_true_2.
Qed.

(** The rows the joins of getCourseStudents build from an enrollment, its
    user and a submission of that user. *)
Lemma students_from_intro (d : Relational.Db) (e : Relational.Enrollment)
    (u : Relational.User) (qs : option Relational.QuizSubmission) :
  e ∈ Relational.enrollments d → u ∈ Relational.users d →
  Relational.e_student_id e = Relational.user_id u →
  qs ∈ Relational.left_rows
         (List.filter (λ s, Relational.user_id u =? Relational.qs_student_id s)
                      (Relational.quiz_submissions d)) →
  ∃ q, Relational.mkStudentsJoin e u qs q ∈ Relational.students_from d.
Proof.
  intros He Hu Hid Hqs.
  destruct (left_rows_inhabited
              match qs with
              | None => []
              | Some s =>
                  List.filter
                    (λ z, (Relational.qs_quiz_id s =? Relational.quiz_id z)
                          && (Relational.q_course_id z =? Relational.e_course_id e))
                    (Relational.quizzes d)
              end) as [q Hq].
  exists q. unfold Relational.students_from.
  apply list_elem_of_bind. exists e. split; [|done].
  apply list_elem_of_bind. exists u. split.
  2:{ apply elem_of_filter_bool. split; [done|]. lia. }
  apply list_elem_of_bind. exists qs. split; [|done].
  apply list_elem_of_bind. exists q. split; [|done].
  by apply list_elem_of_singleton.
Qed.

Lemma students_from_inv (d : Relational.Db) (j : Relational.StudentsJoin) :
  j ∈ Relational.students_from d →
  Relational.st_e j ∈ Relational.enrollments d
  ∧ Relational.st_u j ∈ Relational.users d
  ∧ Relational.e_student_id (Relational.st_e j) = Relational.user_id (Relational.st_u j)
  ∧ ∀ s, Relational.st_qs j = Some s →
         s ∈ Relational.quiz_submissions d
         ∧ Relational.qs_student_id s = Relational.user_id (Relational.st_u j).
Proof.
  unfold Relational.students_from.
  intros (e & Hj & He)%list_elem_of_bind.
  apply list_elem_of_bind in Hj as (u & Hj & [Hu Hid]%elem_of_filter_bool).
  apply list_elem_of_bind in Hj as (qs & Hj & Hqs).
  apply list_elem_of_bind in Hj as (q & Hj & Hq).
  apply list_elem_of_singleton in Hj as ->. cbn.
  split; [done|]. split; [done|]. split; [lia|].
  intros s ->. apply left_rows_Some, elem_of_filter_bool in Hqs as [Hs Hsid].
  split; [done|]. lia.
Qed.

(** X16. The rows [getCourseStudents] lists are those of the active
    enrollments of the course: every row has status [active] and carries
    the id, name and e-mail of a user with an active enrollment in the
    course, and every user with an active enrollment in the course has a
    row; dropped and completed enrollments are never listed. *)
Theorem course_students_are_the_active_enrollments
  (courseId : Z) (d : Relational.Db) :
  (∀ r, r ∈ Relational.course_students courseId d →
     Relational.row_status r = Some Relational.active
     ∧ ∃ e u, e ∈ Relational.enrollments d ∧ u ∈ Relational.users d
              ∧ Relational.e_student_id e = Relational.user_id u
              ∧ Relational.e_course_id e = courseId
              ∧ Relational.e_status e = Some Relational.active
              ∧ Relational.row_user_id r = Relational.user_id u
              ∧ Relational.row_name r = Relational.name u
              ∧ Relational.row_email r = Relational.email u
              ∧ Relational.row_enrolled_at r = Relational.enrolled_at e)
  ∧ (∀ e u, e ∈ Relational.enrollments d → u ∈ Relational.users d →
       Relational.e_student_id e = Relational.user_id u →
       Relational.e_course_id e = courseId →
       Relational.e_status e = Some Relational.active →
       ∃ r, r ∈ Relational.course_students courseId d
            ∧ Relational.row_user_id r = Relational.user_id u
            ∧ Relational.row_name r = Relational.name u).
Proof.
  split.
  - unfold Relational.course_students.
    intros r ([k rows] & -> & Hg)%list_elem_of_fmap.
    destruct (group_by_complete _ _ _ _ Hg) as [[j Hj] _].
    destruct (group_by_rows _ _ _ _ Hg j Hj) as [Hin Hkey].
    apply elem_of_filter_bool in Hin as [Hfrom Hwhere].
    unfold Relational.students_where in Hwhere.
    apply andb_true_iff in Hwhere as [Hc Hst%bool_decide_eq_true].
    destruct (students_from_inv d j Hfrom) as (He & Hu & Hid & _).
    destruct k as [[[[uid uname] uemail] at_] st].
    injection Hkey as <- <- <- <- <-. cbn.
    split; [done|].
    exists (Relational.st_e j), (Relational.st_u j).
    repeat split; try done. lia.
  - intros e u He Hu Hid Hc Hst.
    destruct (left_rows_inhabited
                (List.filter (λ s, Relational.user_id u =? Relational.qs_student_id s)
                             (Relational.quiz_submissions d))) as [qs Hqs].
    destruct (students_from_intro d e u qs He Hu Hid Hqs) as [q Hj].
    destruct (group_by_intro Relational.students_key
                (List.filter (Relational.students_where courseId)
                             (Relational.students_from d))
                (Relational.mkStudentsJoin e u qs q)) as (rows & Hg & _).
    { apply elem_of_filter_bool. split; [done|].
      unfold Relational.students_where. cbn. rewrite Hc, Hst, Z.eqb_refl.
      by rewrite bool_decide_eq_true_2. }
    eexists. split.
    + unfold Relational.course_students. apply list_elem_of_fmap.
      eexists. split; [reflexivity|exact Hg].
    + done.
Qed.

Lemma course_students_are_the_active_enrollments_witness :
  let d := with_enrollments
             [Relational.mkEnrollment 1 4 1 (Some 0) (Some Relational.dropped);
              Relational.mkEnrollment 3 5 1 (Some 0) (Some Relational.active)]
             sample_db in
  Relational.row_user_id <$> Relational.course_students 1 d = [5]
  ∧ ∃ r, r ∈ Relational.course_students 1 d ∧ Relational.row_name r = "Bob Williams".
Proof.
  cbn zeta. split; [reflexivity|].
  destruct (course_students_are_the_active_enrollments 1
              (with_enrollments
                 [Relational.mkEnrollment 1 4 1 (Some 0) (Some Relational.dropped);
                  Relational.mkEnrollment 3 5 1 (Some 0) (Some Relational.active)]
                 sample_db)) as [_ Hcomplete].
  destruct (Hcomplete
              (Relational.mkEnrollment 3 5 1 (Some 0) (Some Relational.active))
              (Relational.mkUser 5 "Bob Williams" "bob.williams@student.edu"
                 Relational.student))
    as (r & Hr & _ & Hname).
  - right. left.
  - do 4 right. left.
  - reflexivity.
  - reflexivity.
  - reflexivity.
  - exists r. split; [exact Hr | exact Hname].
Defined.

Lemma distinct_count_ext (l k : list Z) :
  (∀ x, x ∈ l ↔ x ∈ k) → distinct_count l = distinct_count k.
Proof.
  intros Hext. unfold distinct_count. f_equal.
  apply Permutation_length, NoDup_Permutation; [apply NoDup_remove_dups..|].
  intros x. by rewrite !elem_of_remove_dups.
Qed.

(** X17. The [quizzes_submitted] column of a row of [getCourseStudents] is
    the number of distinct quiz submissions of the student in the whole
    quiz_submissions table: the join to quiz_submissions is on the student
    alone, so submissions to quizzes of other courses are counted too. *)
Theorem course_students_count_all_submissions
  (courseId : Z) (d : Relational.Db) (r : Relational.StudentRow) :
  r ∈ Relational.course_students courseId d →
  Relational.row_quizzes_submitted r
  = distinct_count
      (Relational.submission_id
         <$> List.filter (λ s, Relational.qs_student_id s =? Relational.row_user_id r)
                         (Relational.quiz_submissions d)).
Proof.
  unfold Relational.course_students.
  intros ([k rows] & -> & Hg)%list_elem_of_fmap.
  destruct (group_by_complete _ _ _ _ Hg) as [[j0 Hj0] Hcomplete].
  pose proof (group_by_rows _ _ _ _ Hg) as Hrows.
  destruct k as [[[[uid uname] uemail] at_] st]. cbn.
  unfold Relational.count_distinct. apply distinct_count_ext. intros x. split.
  - intros (j & Hj & Hx)%list_elem_of_omap.
    destruct (Relational.st_qs j) as [s|] eqn:Hs; [|done]. injection Hx as <-.
    destruct (Hrows j Hj) as [[Hfrom _]%elem_of_filter_bool Hkey].
    destruct (students_from_inv d j Hfrom) as (_ & _ & _ & Hqs).
    destruct (Hqs s Hs) as [Hsin Hsid].
    injection Hkey as Hu _ _ _ _.
    apply list_elem_of_fmap. exists s. split; [done|].
    apply elem_of_filter_bool. split; [done|]. lia.
  - intros (s & -> & [Hsin Hsid]%elem_of_filter_bool)%list_elem_of_fmap.
    destruct (Hrows j0 Hj0) as [[Hfrom Hwhere]%elem_of_filter_bool Hkey].
    destruct (students_from_inv d j0 Hfrom) as (He & Hu & Hid & _).
    pose proof Hkey as Hkey'. injection Hkey' as Huid _ _ _ _.
    destruct (students_from_intro d (Relational.st_e j0) (Relational.st_u j0) (Some s)
                He Hu Hid) as [q Hj].
    { apply left_rows_intro, elem_of_filter_bool. split; [done|]. lia. }
    apply list_elem_of_omap.
    exists (Relational.mkStudentsJoin (Relational.st_e j0) (Relational.st_u j0) (Some s) q).
    split; [|done]. apply Hcomplete; [|done].
    apply elem_of_filter_bool. split; [done|]. done.
Qed.

Lemma course_students_count_all_submissions_witness :
  let carol :=
    Relational.mkStudentRow 6 "Carol Davis" "carol.davis@student.edu"
      (Some 0) (Some Relational.active) 1 None in
  carol ∈ Relational.course_students 4 sample_db
  ∧ no_quiz_in_course sample_db 4
  ∧ Relational.row_quizzes_submitted carol = 1.
Proof.
  cbn zeta.
  assert (Relational.mkStudentRow 6 "Carol Davis" "carol.davis@student.edu"
            (Some 0) (Some Relational.active) 1 None
          ∈ Relational.course_students 4 sample_db) as Hin.
  { vm_compute. left. }
  split; [exact Hin|]. split.
  - intros q Hq. cbn in Hq.
    repeat (apply elem_of_cons in Hq as [->|Hq]; [discriminate|]).
    by apply elem_of_nil in Hq.
  - rewrite (course_students_count_all_submissions 4 sample_db _ Hin). reflexivity.
Defined.

(** ** The columns of the view student_course_summary *)

Lemma summary_from_inv (d : Relational.Db) (j : Relational.SummaryJoin) :
  j ∈ Relational.summary_from d →
  Relational.sj_u j ∈ Relational.users d
  ∧ Relational.sj_e j ∈ Relational.enrollments d
  ∧ Relational.user_id (Relational.sj_u j) = Relational.e_student_id (Relational.sj_e j)
  ∧ Relational.sj_c j ∈ Relational.courses d
  ∧ Relational.e_course_id (Relational.sj_e j) = Relational.course_id (Relational.sj_c j)
  ∧ Relational.sj_i j ∈ Relational.users d
  ∧ Relational.instructor_id (Relational.sj_c j) = Relational.user_id (Relational.sj_i j).
Proof.
  unfold Relational.summary_from.
  intros (u & Hj & Hu)%list_elem_of_bind.
  apply list_elem_of_bind in Hj as (e & Hj & [He Hue]%elem_of_filter_bool).
  apply list_elem_of_bind in Hj as (c & Hj & [Hc Hec]%elem_of_filter_bool).
  apply list_elem_of_bind in Hj as (i & Hj & [Hi Hci]%elem_of_filter_bool).
  apply list_elem_of_bind in Hj as (q & Hj & Hq).
  apply list_elem_of_bind in Hj as (qs & Hj & Hqs).
  apply list_elem_of_singleton in Hj as ->. cbn.
  repeat split; try done; lia.
Qed.

(** The rows the joins of the view build from a user, an enrollment, a
    course, its instructor and a quiz of the course. *)
Lemma summary_from_intro (d : Relational.Db) (u : Relational.User)
    (e : Relational.Enrollment) (c : Relational.Course) (i : Relational.User)
    (q : Relational.Quiz) :
  u ∈ Relational.users d → e ∈ Relational.enrollments d →
  Relational.user_id u = Relational.e_student_id e →
  c ∈ Relational.courses d → Relational.e_course_id e = Relational.course_id c →
  i ∈ Relational.users d → Relational.instructor_id c = Relational.user_id i →
  q ∈ Relational.quizzes d → Relational.course_id c = Relational.q_course_id q →
  ∃ qs, Relational.mkSummaryJoin u e c i (Some q) qs ∈ Relational.summary_from d.
Proof.
  intros Hu He Hue Hc Hec Hi Hci Hq Hcq.
  destruct (left_rows_inhabited
              (List.filter
                 (λ s, (Relational.quiz_id q =? Relational.qs_quiz_id s)
                       && (Relational.qs_student_id s =? Relational.user_id u))
                 (Relational.quiz_submissions d))) as [qs Hqs].
  exists qs. unfold Relational.summary_from.
  apply list_elem_of_bind. exists u. split; [|done].
  apply list_elem_of_bind. exists e. split.
  2:{ apply elem_of_filter_bool. split; [done|]. lia. }
  apply list_elem_of_bind. exists c. split.
  2:{ apply elem_of_filter_bool. split; [done|]. lia. }
  apply list_elem_of_bind. exists i. split.
  2:{ apply elem_of_filter_bool. split; [done|]. lia. }
  apply list_elem_of_bind. exists (Some q). split.
  2:{ apply left_rows_intro, elem_of_filter_bool. split; [done|]. lia. }
  apply list_elem_of_bind. exists qs. split; [|done].
  by apply list_elem_of_singleton.
Qed.

(** X18. In every row of the view, [total_quizzes] is the number of
    distinct quizzes of the row's course: it does not depend on the student
    or on the submissions. *)
Theorem summary_total_is_quizzes_of_course (d : Relational.Db) (r : Relational.SummaryRow) :
  r ∈ Relational.student_course_summary d →
  Relational.total_quizzes r
  = distinct_count
      (Relational.quiz_id
         <$> List.filter (λ q, Relational.q_course_id q =? Relational.sr_course_id r)
                         (Relational.quizzes d)).
Proof.
  unfold Relational.student_course_summary.
  intros ([k rows] & -> & Hg)%list_elem_of_fmap.
  destruct (group_by_complete _ _ _ _ Hg) as [[j0 Hj0] Hcomplete].
  pose proof (group_by_rows _ _ _ _ Hg) as Hrows.
  destruct k as [[[[[[[[uid uname] uemail] cid] ccode] cname] iname] at_] st]. cbn.
  unfold Relational.count_distinct. apply distinct_count_ext. intros x. split.
  - intros (j & Hj & Hx)%list_elem_of_omap.
    destruct (Relational.sj_q j) as [q|] eqn:Hq; [|done]. injection Hx as <-.
    destruct (Hrows j Hj) as [[Hfrom _]%elem_of_filter_bool Hkey].
    destruct (summary_from_rows d j Hfrom) as [Hquiz _].
    destruct (Hquiz q Hq) as [Hqin Hqc].
    injection Hkey as _ _ _ Hc _ _ _ _ _.
    apply list_elem_of_fmap. exists q. split; [done|].
    apply elem_of_filter_bool. split; [done|]. lia.
  - intros (q & -> & [Hqin Hqc]%elem_of_filter_bool)%list_elem_of_fmap.
    destruct (Hrows j0 Hj0) as [[Hfrom Hrole]%elem_of_filter_bool Hkey].
    destruct (summary_from_inv d j0 Hfrom) as (Hu & He & Hue & Hc & Hec & Hi & Hci).
    pose proof Hkey as Hkey'. injection Hkey' as _ _ _ Hcid _ _ _ _ _.
    destruct (summary_from_intro d _ _ _ _ q Hu He Hue Hc Hec Hi Hci Hqin) as [qs Hj];
      [lia|].
    apply list_elem_of_omap.
    exists (Relational.mkSummaryJoin (Relational.sj_u j0) (Relational.sj_e j0)
              (Relational.sj_c j0) (Relational.sj_i j0) (Some q) qs).
    split; [|done]. apply Hcomplete; [|done].
    apply elem_of_filter_bool. split; [done|]. done.
Qed.

Lemma summary_total_is_quizzes_of_course_witness :
  let alice_cs101 :=
    Relational.mkSummaryRow 4 "Alice Smith" "alice.smith@student.edu"
      1 "CS101" "Introduction to Computer Science" "Dr. Divya Mishra"
      (Some 0) (Some Relational.active) 2 1 (Some (9000 # 100)%Q) in
  alice_cs101 ∈ Relational.student_course_summary sample_db
  ∧ Relational.total_quizzes alice_cs101 = 2.
Proof.
  cbn zeta.
  assert (Relational.mkSummaryRow 4 "Alice Smith" "alice.smith@student.edu"
            1 "CS101" "Introduction to Computer Science" "Dr. Divya Mishra"
            (Some 0) (Some Relational.active) 2 1 (Some (9000 # 100)%Q)
          ∈ Relational.student_course_summary sample_db) as Hin.
  { vm_compute. left. }
  split; [exact Hin|].
  rewrite (summary_total_is_quizzes_of_course sample_db _ Hin). reflexivity.
Defined.

Lemma filter_bool_sublist {A : Type} (f : A → bool) (l : list A) :
  List.filter f l `sublist_of` l.
Proof.
  induction l as [|x l IH]; cbn; [done|].
  destruct (f x); [by apply sublist_skip | by apply sublist_cons].
Qed.

Lemma NoDup_fmap_coarser {A B C : Type} (f : A → B) (g : A → C) (l : list A) :
  NoDup (f <$> l) →
  (∀ x y, x ∈ l → y ∈ l → g x = g y → f x = f y) →
  NoDup (g <$> l).
Proof.
  induction l as [|x l IH]; intros Hnd Hinj; [apply NoDup_nil_2|].
  cbn in *. apply NoDup_cons in Hnd as [Hx Hnd]. apply NoDup_cons. split.
  - intros (y & Hg & Hy)%list_elem_of_fmap. apply Hx.
    apply list_elem_of_fmap. exists y. split; [|done].
    apply Hinj; [left | by right | done].
  - apply IH; [done|]. intros y z Hy Hz. apply Hinj; by right.
Qed.

(** X19. When the quiz_submissions table has at most one row per quiz and
    student (its unique key), every row of the view has
    [quizzes_submitted] at most [total_quizzes]. *)
Theorem summary_submitted_at_most_total (d : Relational.Db) (r : Relational.SummaryRow) :
  submission_unique d →
  r ∈ Relational.student_course_summary d →
  0 ≤ Relational.quizzes_submitted r ≤ Relational.total_quizzes r.
Proof.
  unfold Relational.student_course_summary.
  intros Huniq ([k rows] & -> & Hg)%list_elem_of_fmap.
  destruct (group_by_complete _ _ _ _ Hg) as [[j0 Hj0] Hcomplete].
  pose proof (group_by_rows _ _ _ _ Hg) as Hrows.
  destruct k as [[[[[[[[uid uname] uemail] cid] ccode] cname] iname] at_] st]. cbn.
  unfold Relational.count_distinct. split; [lia|]. apply Nat2Z.inj_le.
  set (L := List.filter
              (λ s, (Relational.qs_student_id s =? uid)
                    && existsb (λ q, (Relational.quiz_id q =? Relational.qs_quiz_id s)
                                     && (Relational.q_course_id q =? cid))
                               (Relational.quizzes d))
              (Relational.quiz_submissions d)).
  transitivity (length L).
  - rewrite <- (length_fmap Relational.submission_id L).
    apply submseteq_length, NoDup_submseteq; [apply NoDup_remove_dups|].
    intros x Hx. apply (proj1 (elem_of_remove_dups _ _)) in Hx.
    apply list_elem_of_omap in Hx as (j & Hj & Hx).
    destruct (Relational.sj_qs j) as [s|] eqn:Hs; [|done]. injection Hx as <-.
    destruct (Hrows j Hj) as [[Hfrom _]%elem_of_filter_bool Hkey].
    destruct (summary_from_rows d j Hfrom) as [Hquiz Hsub].
    destruct (Hsub s Hs) as (q & Hq & Hsin & Hsq & Hsu).
    destruct (Hquiz q Hq) as [Hqin Hqc].
    injection Hkey as Hu _ _ Hc _ _ _ _ _.
    apply list_elem_of_fmap. exists s. split; [done|].
    apply elem_of_filter_bool. split; [done|].
    apply andb_true_iff. split; [lia|].
    apply existsb_elem_of. exists q. split; [done|]. lia.
  - rewrite <- (length_fmap Relational.qs_quiz_id L).
    apply submseteq_length, NoDup_submseteq.
    + apply (NoDup_fmap_coarser
               (λ s, (Relational.qs_quiz_id s, Relational.qs_student_id s))).
      * refine (sublist_NoDup _ _ Huniq _).
        apply fmap_sublist, filter_bool_sublist.
      * intros x y [_ [Hx _]%andb_true_iff]%elem_of_filter_bool
               [_ [Hy _]%andb_true_iff]%elem_of_filter_bool Heq.
        f_equal; [done|lia].
    + intros x (s & -> & [Hsin [Hsu Hex]%andb_true_iff]%elem_of_filter_bool)%list_elem_of_fmap.
      apply existsb_elem_of in Hex as (q & Hqin & Hq).
      apply elem_of_remove_dups, list_elem_of_omap.
      destruct (Hrows j0 Hj0) as [[Hfrom Hrole]%elem_of_filter_bool Hkey].
      destruct (summary_from_inv d j0 Hfrom) as (Hu & He & Hue & Hc & Hec & Hi & Hci).
      pose proof Hkey as Hkey'. injection Hkey' as _ _ _ Hcid _ _ _ _ _.
      destruct (summary_from_intro d _ _ _ _ q Hu He Hue Hc Hec Hi Hci Hqin) as [qs Hj];
        [lia|].
      exists (Relational.mkSummaryJoin (Relational.sj_u j0) (Relational.sj_e j0)
                (Relational.sj_c j0) (Relational.sj_i j0) (Some q) qs).
      split; [|cbn; f_equal; lia].
      apply Hcomplete; [|done].
      apply elem_of_filter_bool. split; [done|]. done.
Qed.

Lemma summary_submitted_at_most_total_witness :
  submission_unique sample_db
  ∧ Forall (λ r, Relational.quizzes_submitted r ≤ Relational.total_quizzes r)
           (Relational.student_course_summary sample_db).
Proof.
  assert (submission_unique sample_db) as Huniq.
  { unfold submission_unique. apply (bool_decide_unpack _). by vm_compute. }
  split; [exact Huniq|].
  apply Forall_forall. intros r Hr.
  apply (summary_submitted_at_most_total sample_db r Huniq Hr).
Defined.

(** ** Read queries *)

Lemma page_sublist {A : Type} (R : relation A) `{∀ x y, Decision (R x y)}
    (sk lim : nat) (l : list A) :
  Query.page R sk lim l `sublist_of` merge_sort R l.
Proof.
  unfold Query.page, Query.limit. destruct lim as [|n].
  - apply sublist_drop.
  - etransitivity; [apply sublist_take | apply sublist_drop].
Qed.

Lemma page_elem_of {A : Type} (R : relation A) `{∀ x y, Decision (R x y)}
    (sk lim : nat) (l : list A) (x : A) :
  x ∈ Query.page R sk lim l → x ∈ l.
Proof.
  intros Hx. rewrite <- (merge_sort_Permutation R l).
  eapply elem_of_sublist; [exact Hx | apply page_sublist].
Qed.

Lemma page_sorted {A : Type} (R : relation A) `{∀ x y, Decision (R x y)}
    `{!Transitive R, !Total R} (sk lim : nat) (l : list A) :
  StronglySorted R (Query.page R sk lim l).
Proof.
  pose proof (StronglySorted_merge_sort R l) as Hsorted.
  unfold Query.page, Query.limit.
  rewrite <- (take_drop sk (merge_sort R l)) in Hsorted.
  apply StronglySorted_app_1_r in Hsorted.
  destruct lim as [|n]; [done|].
  rewrite <- (take_drop (S n) (drop sk (merge_sort R l))) in Hsorted.
  by apply StronglySorted_app_1_l in Hsorted.
Qed.

Lemma page_length {A : Type} (R : relation A) `{∀ x y, Decision (R x y)}
    (sk lim : nat) (l : list A) :
  lim ≠ 0%nat → (length (Query.page R sk lim l) ≤ lim)%nat.
Proof.
  intros Hlim. unfold Query.page, Query.limit. destruct lim as [|n]; [done|].
  rewrite length_take. lia.
Qed.

Lemma page_everything {A : Type} (R : relation A) `{∀ x y, Decision (R x y)}
    (l : list A) :
  Query.page R 0 0 l ≡ₚ l.
Proof. unfold Query.page. cbn. apply merge_sort_Permutation. Qed.

#[local] Instance before_transitive : Transitive DiscussionStatics.before.
Proof.
  intros x y z. unfold DiscussionStatics.before.
  destruct (Discussion.is_pinned x), (Discussion.is_pinned y),
    (Discussion.is_pinned z); try done; lia.
Qed.

#[local] Instance before_total : Total DiscussionStatics.before.
Proof.
  intros x y. unfold DiscussionStatics.before.
  destruct (Discussion.is_pinned x), (Discussion.is_pinned y); try lia; tauto.
Qed.

(** X20. [Discussion.findByCourse] returns threads of the collection that
    belong to the course, pinned ones first and then the most recently
    updated first, and at most [limit] of them (20 by default) unless the
    limit is 0.  Called without options, or with [pinned] absent, it never
    returns a pinned thread: the default [pinned = false] becomes a filter.
    With [pinned: null], no skip and no limit, it returns every thread of
    the course. *)
Theorem findByCourse_filters_sorts_and_bounds
  (courseId : Z) (o : DiscussionStatics.Options) (collection : list Discussion.t) :
  let result := DiscussionStatics.findByCourse courseId o collection in
  (∀ d, d ∈ result → d ∈ collection ∧ Discussion.course_id d = courseId)
  ∧ StronglySorted DiscussionStatics.before result
  ∧ (DiscussionStatics.o_limit o ≠ Some 0%nat →
     (length result ≤ default 20 (DiscussionStatics.o_limit o))%nat)
  ∧ (DiscussionStatics.o_pinned o = DiscussionStatics.PinnedAbsent →
     ∀ d, d ∈ result → Discussion.is_pinned d = false)
  ∧ (DiscussionStatics.o_pinned o = DiscussionStatics.PinnedNull →
     DiscussionStatics.o_skip o = None → DiscussionStatics.o_limit o = Some 0%nat →
     ∀ d, d ∈ collection → Discussion.course_id d = courseId → d ∈ result).
Proof.
  cbn zeta. unfold DiscussionStatics.findByCourse.
  split; [|split; [|split; [|split]]].
  - intros d [Hd Hm]%page_elem_of%elem_of_filter_bool.
    split; [done|]. unfold DiscussionStatics.matches in Hm.
    apply andb_true_iff in Hm as [Hc _]. lia.
  - apply page_sorted; apply _.
  - intros Hlim. apply page_length.
    destruct (DiscussionStatics.o_limit o) as [[|n]|]; done.
  - intros Hp d [Hd Hm]%page_elem_of%elem_of_filter_bool.
    unfold DiscussionStatics.matches in Hm. rewrite Hp in Hm. cbn in Hm.
    apply andb_true_iff in Hm as [_ Hpin]. by apply bool_decide_eq_true in Hpin.
  - intros Hp -> -> d Hd Hc. cbn [from_option id]. rewrite page_everything.
    apply elem_of_filter_bool. split; [done|].
    unfold DiscussionStatics.matches. rewrite Hp. cbn. rewrite andb_true_r. lia.
Qed.

Lemma findByCourse_filters_sorts_and_bounds_witness :
  let pinned := Discussion.mkDiscussion 1 "Rules" 2 0 5 true false [] [] 0 in
  let plain := Discussion.mkDiscussion 1 "Question" 4 0 9 false false [] [] 0 in
  DiscussionStatics.findByCourse 1 DiscussionStatics.no_options [pinned; plain] = [plain]
  ∧ DiscussionStatics.findByCourse 1
      (DiscussionStatics.mkOptions (Some 0%nat) None DiscussionStatics.PinnedNull)
      [plain; pinned] = [pinned; plain]
  ∧ Forall (λ d, Discussion.is_pinned d = false)
           (DiscussionStatics.findByCourse 1 DiscussionStatics.no_options [pinned; plain]).
Proof.
  cbn zeta. split; [reflexivity|]. split; [reflexivity|].
  apply Forall_forall.
  apply (findByCourse_filters_sorts_and_bounds 1 DiscussionStatics.no_options).
  reflexivity.
Defined.

#[local] Instance newest_first_transitive : Transitive ActivityLogStatics.newest_first.
Proof. intros x y z. unfold ActivityLogStatics.newest_first. lia. Qed.

#[local] Instance newest_first_total : Total ActivityLogStatics.newest_first.
Proof. intros x y. unfold ActivityLogStatics.newest_first. lia. Qed.

Lemma in_range_bounds (startDate endDate : option Z) (l : ActivityLog.t) :
  ActivityLogStatics.in_range startDate endDate l = true →
  (∀ s, startDate = Some s → s ≤ ActivityLog.timestamp l)
  ∧ (∀ e, endDate = Some e → ActivityLog.timestamp l ≤ e).
Proof.
  unfold ActivityLogStatics.in_range. intros [Hs He]%andb_true_iff. split.
  - intros s ->. lia.
  - intros e ->. lia.
Qed.

(** X21. [getUserActivity] returns entries of the collection that belong to
    the user, carry the requested action when a non-empty one is given, and
    are stamped within the requested dates, the bounds included; they come
    newest first, and at most [limit] of them (50 by default) unless the
    limit is 0.  [getCourseActivity] does the same for the entries of a
    course (same action filter, same date bounds, same order), with a
    default limit of 100. *)
Theorem activity_queries_filter_sort_and_bound
  (id : Z) (o : ActivityLogStatics.Options) (collection : list ActivityLog.t) :
  let mine := ActivityLogStatics.getUserActivity id o collection in
  let of_course := ActivityLogStatics.getCourseActivity id o collection in
  (∀ l, l ∈ mine →
     l ∈ collection ∧ ActivityLog.user_id l = id
     ∧ (∀ a, ActivityLogStatics.o_action o = Some a → a ≠ "" → ActivityLog.action l = a)
     ∧ (∀ s, ActivityLogStatics.o_startDate o = Some s → s ≤ ActivityLog.timestamp l)
     ∧ (∀ e, ActivityLogStatics.o_endDate o = Some e → ActivityLog.timestamp l ≤ e))
  ∧ StronglySorted ActivityLogStatics.newest_first mine
  ∧ (ActivityLogStatics.o_limit o ≠ Some 0%nat →
     (length mine ≤ default 50 (ActivityLogStatics.o_limit o))%nat)
  ∧ (∀ l, l ∈ of_course →
       l ∈ collection ∧ ActivityLog.course_id l = Some id
       ∧ (∀ a, ActivityLogStatics.o_action o = Some a → a ≠ "" → ActivityLog.action l = a)
       ∧ (∀ s, ActivityLogStatics.o_startDate o = Some s → s ≤ ActivityLog.timestamp l)
       ∧ (∀ e, ActivityLogStatics.o_endDate o = Some e → ActivityLog.timestamp l ≤ e))
  ∧ StronglySorted ActivityLogStatics.newest_first of_course
  ∧ (ActivityLogStatics.o_limit o ≠ Some 0%nat →
     (length of_course ≤ default 100 (ActivityLogStatics.o_limit o))%nat).
Proof.
  cbn zeta. unfold ActivityLogStatics.getUserActivity, ActivityLogStatics.getCourseActivity.
  split; [|split; [|split; [|split; [|split]]]].
  - intros l [Hl Hm]%page_elem_of%elem_of_filter_bool.
    apply andb_true_iff in Hm as [[Hu Ha]%andb_true_iff Hr].
    apply in_range_bounds in Hr as [Hs He].
    split; [done|]. split; [lia|]. split; [|done].
    intros a Hact Hne. unfold ActivityLogStatics.action_matches in Ha.
    rewrite Hact in Ha. destruct a; [done|]. cbn in Ha.
    apply bool_decide_eq_true in Ha. by injection Ha.
  - apply page_sorted; apply _.
  - intros Hlim. apply page_length.
    destruct (ActivityLogStatics.o_limit o) as [[|n]|]; done.
  - intros l [Hl Hm]%page_elem_of%elem_of_filter_bool.
    apply andb_true_iff in Hm as [[Hc Ha]%andb_true_iff Hr].
    apply in_range_bounds in Hr as [Hs He].
    split; [done|]. split; [by apply bool_decide_eq_true in Hc|]. split; [|done].
    intros a Hact Hne. unfold ActivityLogStatics.action_matches in Ha.
    rewrite Hact in Ha. destruct a; [done|]. cbn in Ha.
    apply bool_decide_eq_true in Ha. by injection Ha.
  - apply page_sorted; apply _.
  - intros Hlim. apply page_length.
    destruct (ActivityLogStatics.o_limit o) as [[|n]|]; done.
Qed.

Lemma activity_queries_filter_sort_and_bound_witness :
  let log (u t : Z) (a : string) :=
    ActivityLog.build (ActivityLog.mkLogData u a None (Some 1) None None None None) t in
  let collection := [log 4 10 "LOGIN"; log 5 20 "LOGIN"; log 4 30 "VIEW_COURSE";
                     log 4 40 "LOGIN"] in
  ActivityLog.timestamp
    <$> ActivityLogStatics.getUserActivity 4
          (ActivityLogStatics.mkOptions None None (Some "LOGIN") (Some 10) None) collection
  = [40; 10]
  ∧ Forall (λ l, ActivityLog.action l = "LOGIN")
           (ActivityLogStatics.getUserActivity 4
              (ActivityLogStatics.mkOptions None None (Some "LOGIN") (Some 10) None)
              collection)
  ∧ ActivityLog.timestamp
      <$> ActivityLogStatics.getCourseActivity 1
            (ActivityLogStatics.mkOptions None None (Some "LOGIN") (Some 10) None) collection
    = [40; 20; 10]
  ∧ Forall (λ l, ActivityLog.action l = "LOGIN")
           (ActivityLogStatics.getCourseActivity 1
              (ActivityLogStatics.mkOptions None None (Some "LOGIN") (Some 10) None)
              collection).
Proof.
  cbn zeta. split; [reflexivity|]. split; [|split; [reflexivity|]].
  - apply Forall_forall. intros l Hl.
    match type of Hl with _ ∈ ActivityLogStatics.getUserActivity ?id ?o ?c =>
      destruct (activity_queries_filter_sort_and_bound id o c) as (Hmine & _) end.
    destruct (Hmine l Hl) as (_ & _ & Hact & _).
    apply Hact; [reflexivity | discriminate].
  - apply Forall_forall. intros l Hl.
    match type of Hl with _ ∈ ActivityLogStatics.getCourseActivity ?id ?o ?c =>
      destruct (activity_queries_filter_sort_and_bound id o c)
        as (_ & _ & _ & Hcourse & _) end.
    destruct (Hcourse l Hl) as (_ & _ & Hact & _).
    apply Hact; [reflexivity | discriminate].
Defined.

Lemma sumZ_cons {A : Type} (f : A → Z) (x : A) (l : list A) :
  sumZ f (x :: l) = f x + sumZ f l.
Proof. reflexivity. Qed.

Lemma sumZ_ext {A : Type} (f g : A → Z) (l : list A) :
  (∀ x, x ∈ l → f x = g x) → sumZ f l = sumZ g l.
Proof.
  induction l as [|x l IH]; intros Hext; [done|].
  rewrite !sumZ_cons, (Hext x) by left. rewrite IH; [done|].
  intros y Hy. apply Hext. by right.
Qed.

Lemma sumZ_add {A : Type} (f g : A → Z) (l : list A) :
  sumZ (λ x, f x + g x) l = sumZ f l + sumZ g l.
Proof. induction l as [|x l IH]; [done|]. rewrite !sumZ_cons, IH. lia. Qed.

Lemma sumZ_fmap {A B : Type} (h : A → B) (f : B → Z) (l : list A) :
  sumZ f (h <$> l) = sumZ (λ x, f (h x)) l.
Proof.
  induction l as [|x l IH]; [done|].
  rewrite fmap_cons, !sumZ_cons. by rewrite IH.
Qed.

Lemma sumZ_Permutation {A : Type} (f : A → Z) (l k : list A) :
  l ≡ₚ k → sumZ f l = sumZ f k.
Proof. induction 1; rewrite ?sumZ_cons; lia. Qed.

Lemma sumZ_indicator {K : Type} `{EqDecision K} (k0 : K) (ks : list K) :
  NoDup ks →
  sumZ (λ k, if bool_decide (k0 = k) then 1 else 0) ks
  = if bool_decide (k0 ∈ ks) then 1 else 0.
Proof.
  induction ks as [|k ks IH]; intros Hnd; [done|].
  apply NoDup_cons in Hnd as [Hk Hnd]. rewrite sumZ_cons, (IH Hnd).
  destruct (decide (k0 = k)) as [->|Hne].
  - rewrite bool_decide_eq_true_2 by done.
    rewrite (bool_decide_eq_false_2 (k ∈ ks)) by done.
    by rewrite bool_decide_eq_true_2 by left.
  - rewrite bool_decide_eq_false_2 by done.
    destruct (decide (k0 ∈ ks)) as [Hin|Hout].
    + rewrite !bool_decide_eq_true_2; [done|by right|done].
    + rewrite !bool_decide_eq_false_2; [done| |done].
      by intros [?|?]%elem_of_cons.
Qed.

(** The groups of a [GROUP BY] partition the rows. *)
Lemma group_sizes_sum {A K : Type} `{EqDecision K} (key : A → K) (l : list A) :
  sumZ (λ g : K * list A, Z.of_nat (length (snd g))) (Relational.group_by key l)
  = Z.of_nat (length l).
Proof.
  unfold Relational.group_by. rewrite sumZ_fmap. cbn [snd].
  assert (∀ ks, NoDup ks → (∀ x, x ∈ l → key x ∈ ks) →
            sumZ (λ k, Z.of_nat (length (List.filter (λ r, bool_decide (key r = k)) l))) ks
            = Z.of_nat (length l)) as Hsum.
  { intros ks Hnd. induction l as [|x l IH]; intros Hkeys.
    - clear. induction ks as [|k ks IH]; [done|]. rewrite sumZ_cons, IH. done.
    - etrans.
      { apply (sumZ_ext _
                 (λ k, (if bool_decide (key x = k) then 1 else 0)
                       + Z.of_nat (length (List.filter
                                             (λ r, bool_decide (key r = k)) l)))).
        intros k _. cbn. destruct (bool_decide (key x = k)); cbn; lia. }
      rewrite sumZ_add, sumZ_indicator by done.
      rewrite bool_decide_eq_true_2 by (apply Hkeys; left).
      rewrite IH; [cbn; lia|]. intros y Hy. apply Hkeys. by right. }
  apply Hsum; [apply NoDup_remove_dups|].
  intros x Hx. apply elem_of_remove_dups, list_elem_of_fmap. by exists x.
Qed.

Lemma group_by_keys_NoDup {A K : Type} `{EqDecision K} (key : A → K) (l : list A) :
  NoDup (fst <$> Relational.group_by key l).
Proof.
  unfold Relational.group_by. rewrite <- list_fmap_compose.
  generalize (NoDup_remove_dups (key <$> l)).
  generalize (remove_dups (key <$> l)). intros ks Hnd.
  replace (_ <$> ks) with ks; [done|].
  clear. induction ks as [|k ks IH]; [done|]. rewrite fmap_cons, <- IH. done.
Qed.

#[local] Instance most_frequent_first_transitive
  : Transitive ActivityLogStatics.most_frequent_first.
Proof. intros x y z. unfold ActivityLogStatics.most_frequent_first. lia. Qed.

#[local] Instance most_frequent_first_total
  : Total ActivityLogStatics.most_frequent_first.
Proof. intros x y. unfold ActivityLogStatics.most_frequent_first. lia. Qed.

(** X22. The rows of [ActivityLog.getStatistics] partition the matched
    entries by action: every action occurs in one row only, the count of a
    row is the number of matched entries with that action and is at least
    1, every matched entry is counted in the row of its action, the counts
    add up to the number of matched entries, and the rows come with the
    largest count first. *)
Theorem activity_statistics_partition_by_action
  (o : ActivityLogStatics.StatOptions) (collection : list ActivityLog.t) :
  let matched := List.filter (ActivityLogStatics.stat_matches o) collection in
  let rows := ActivityLogStatics.getStatistics o collection in
  NoDup (fst <$> rows)
  ∧ (∀ a n, (a, n) ∈ rows →
       1 ≤ n
       ∧ n = Z.of_nat (length (List.filter
                                 (λ l, bool_decide (ActivityLog.action l = a)) matched)))
  ∧ (∀ l, l ∈ matched → ∃ n, (ActivityLog.action l, n) ∈ rows)
  ∧ sumZ snd rows = Z.of_nat (length matched)
  ∧ StronglySorted ActivityLogStatics.most_frequent_first rows.
Proof.
  cbn zeta. unfold ActivityLogStatics.getStatistics.
  set (matched := List.filter (ActivityLogStatics.stat_matches o) collection).
  set (counted := (λ g : string * list ActivityLog.t, (fst g, Z.of_nat (length (snd g))))
                    <$> Relational.group_by ActivityLog.action matched).
  pose proof (merge_sort_Permutation ActivityLogStatics.most_frequent_first counted)
    as Hperm.
  split; [|split; [|split; [|split]]].
  - rewrite Hperm. unfold counted. rewrite <- list_fmap_compose.
    apply (group_by_keys_NoDup ActivityLog.action matched).
  - intros a n Han. rewrite Hperm in Han.
    apply list_elem_of_fmap in Han as ([k rows] & [= -> ->] & Hg).
    destruct (group_by_complete _ _ _ _ Hg) as [[x Hx] _].
    unfold Relational.group_by in Hg.
    apply list_elem_of_fmap in Hg as (k' & [= <- ->] & _). cbn. split; [|done].
    apply list_elem_of_In in Hx. destruct (List.filter _ matched); [done|]. cbn. lia.
  - intros l Hl.
    destruct (group_by_intro ActivityLog.action matched l Hl) as (rows & Hg & _).
    exists (Z.of_nat (length rows)). rewrite Hperm.
    apply list_elem_of_fmap. by exists (ActivityLog.action l, rows).
  - rewrite (sumZ_Permutation _ _ _ Hperm). unfold counted. rewrite sumZ_fmap. cbn [snd].
    apply group_sizes_sum.
  - apply StronglySorted_merge_sort; apply _.
Qed.

(** The statistics of a small collection: three logins and one course view
    of user 4 are counted, the entry of user 5 is not. *)
Example activity_statistics_of_sample :
  let log (u t : Z) (a : string) :=
    ActivityLog.build (ActivityLog.mkLogData u a None (Some 1) None None None None) t in
  ActivityLogStatics.getStatistics
    (ActivityLogStatics.mkStatOptions (Some 4) None None None)
    [log 4 10 "VIEW_COURSE"; log 4 20 "LOGIN"; log 5 25 "LOGIN"; log 4 30 "LOGIN";
     log 4 40 "LOGIN"]
  = [("LOGIN", 3); ("VIEW_COURSE", 1)].
Proof. reflexivity. Qed.

(** * The per-student course summary: rows and averages *)

(** ** Joins as list comprehensions *)

Lemma filter_bind {A B : Type} (P : B → bool) (f : A → list B) (l : list A) :
  List.filter P (l ≫= f) = l ≫= (λ x, List.filter P (f x)).
Proof.
  induction l as [|x l IH]; [done|].
  rewrite !bind_cons, List.filter_app, IH. done.
Qed.

Lemma bind_all_nil {A B : Type} (g : A → list B) (l : list A) :
  (∀ x, x ∈ l → g x = []) → l ≫= g = [].
Proof.
  induction l as [|x l IH]; intros Hnil; [done|].
  rewrite bind_cons, (Hnil x) by left. apply IH. intros y Hy. apply Hnil. by right.
Qed.

Lemma bind_ext_in {A B : Type} (f g : A → list B) (l : list A) :
  (∀ x, x ∈ l → f x = g x) → l ≫= f = l ≫= g.
Proof. intros Hext. apply Forall_bind_ext, Forall_forall, Hext. Qed.

(** A comprehension over rows with distinct keys, all of whose rows but
    the one with the key of [x0] contribute nothing, is the contribution of
    [x0]. *)
Lemma bind_unique {A B K : Type} (key : A → K) (g : A → list B) (l : list A) (x0 : A) :
  NoDup (key <$> l) → x0 ∈ l →
  (∀ x, x ∈ l → key x ≠ key x0 → g x = []) →
  l ≫= g = g x0.
Proof.
  induction l as [|a l IH]; intros Hnd Hin Hothers.
  - by apply elem_of_nil in Hin.
  - rewrite fmap_cons in Hnd. apply NoDup_cons in Hnd as [Ha Hnd].
    rewrite bind_cons. apply elem_of_cons in Hin as [->|Hin].
    + rewrite bind_all_nil; [by rewrite app_nil_r|].
      intros x Hx. apply Hothers; [by right|].
      intros Hkey. apply Ha. rewrite <- Hkey. apply list_elem_of_fmap. by exists x.
    + rewrite (Hothers a); [|left|].
      * apply IH; [done|done|]. intros x Hx. apply Hothers. by right.
      * intros Hkey. apply Ha. rewrite Hkey. apply list_elem_of_fmap. by exists x0.
Qed.

Lemma filter_bool_all {A : Type} (f : A → bool) (l : list A) :
  (∀ x, x ∈ l → f x = true) → List.filter f l = l.
Proof.
  induction l as [|x l IH]; intros Hall; [done|].
  cbn. rewrite (Hall x) by left. f_equal. apply IH. intros y Hy. apply Hall. by right.
Qed.

Lemma filter_bool_comm {A : Type} (f g : A → bool) (l : list A) :
  List.filter f (List.filter g l) = List.filter g (List.filter f l).
Proof.
  induction l as [|x l IH]; [done|].
  cbn. destruct (f x) eqn:Hf, (g x) eqn:Hg; cbn; rewrite ?Hf, ?Hg, IH; done.
Qed.

Lemma NoDup_fmap_filter {A K : Type} (key : A → K) (f : A → bool) (l : list A) :
  NoDup (key <$> l) → NoDup (key <$> List.filter f l).
Proof.
  intros Hnd. refine (sublist_NoDup _ _ Hnd _).
  apply fmap_sublist, filter_bool_sublist.
Qed.

Lemma omap_bind {A B C : Type} (f : B → option C) (g : A → list B) (l : list A) :
  omap f (l ≫= g) = l ≫= (λ x, omap f (g x)).
Proof.
  induction l as [|x l IH]; [done|].
  rewrite !bind_cons, omap_app, IH. done.
Qed.

(** A [LEFT JOIN] whose NULL row contributes nothing is the inner join. *)
Lemma left_rows_bind {B C : Type} (matching : list B) (h : option B → list C) :
  h None = [] →
  Relational.left_rows matching ≫= h = matching ≫= (λ b, h (Some b)).
Proof.
  intros Hnull. unfold Relational.left_rows. destruct matching as [|b m].
  - rewrite bind_singleton. by rewrite Hnull.
  - by rewrite list_fmap_bind.
Qed.

(** ** The rows of one group of the view *)

(** Under the keys of the tables, the joined rows that share the group key
    of [j0] are those of one student, one enrollment, one course and one
    instructor: one row per quiz of the course and submission of the student
    for it, with the NULL rows of the two left joins. *)
Lemma summary_group_rows (d : Relational.Db) (j0 : Relational.SummaryJoin) :
  table_keys d → j0 ∈ Relational.summary_from d →
  List.filter (λ r, bool_decide (Relational.summary_key r = Relational.summary_key j0))
              (Relational.summary_from d)
  = (q ← Relational.left_rows
           (List.filter (λ q, Relational.course_id (Relational.sj_c j0)
                              =? Relational.q_course_id q)
                        (Relational.quizzes d));
     qs ← Relational.left_rows
            match q with
            | None => []
            | Some z =>
                List.filter
                  (λ s, (Relational.quiz_id z =? Relational.qs_quiz_id s)
                        && (Relational.qs_student_id s
                            =? Relational.user_id (Relational.sj_u j0)))
                  (Relational.quiz_submissions d)
            end;
     [Relational.mkSummaryJoin (Relational.sj_u j0) (Relational.sj_e j0)
                               (Relational.sj_c j0) (Relational.sj_i j0) q qs]).
Proof.
  intros (Hku & Hkc & Hke) Hj0.
  pose proof (summary_from_inv d j0 Hj0) as (Hu0 & He0 & Hue & Hc0 & Hec & Hi0 & Hci).
  destruct j0 as [u0 e0 c0 i0 q0 qs0]. cbn [Relational.sj_u Relational.sj_e
    Relational.sj_c Relational.sj_i] in *.
  unfold Relational.summary_from.
  (* the student *)
  rewrite filter_bind.
  rewrite (bind_unique Relational.user_id _ (Relational.users d) u0 Hku Hu0).
  2:{ intros u _ Hne. apply filter_bool_nil. intros r Hr.
      apply list_elem_of_bind in Hr as (e & Hr & _).
      apply list_elem_of_bind in Hr as (c & Hr & _).
      apply list_elem_of_bind in Hr as (i & Hr & _).
      apply list_elem_of_bind in Hr as (q & Hr & _).
      apply list_elem_of_bind in Hr as (qs & Hr & _).
      apply list_elem_of_singleton in Hr as ->.
      apply bool_decide_eq_false. intros [=]. done. }
  (* the enrollment *)
  rewrite filter_bind.
  rewrite (bind_unique Relational.e_course_id _ _ e0).
  2:{ apply (NoDup_fmap_coarser
               (λ e, (Relational.e_student_id e, Relational.e_course_id e))).
      - by apply NoDup_fmap_filter.
      - intros x y [_ Hx%Z.eqb_eq]%elem_of_filter_bool
                   [_ Hy%Z.eqb_eq]%elem_of_filter_bool Hxy.
        congruence. }
  2:{ apply elem_of_filter_bool. split; [done|lia]. }
  2:{ intros e _ Hne. apply filter_bool_nil. intros r Hr.
      apply list_elem_of_bind in Hr as (c & Hr & [_ Hc]%elem_of_filter_bool).
      apply list_elem_of_bind in Hr as (i & Hr & _).
      apply list_elem_of_bind in Hr as (q & Hr & _).
      apply list_elem_of_bind in Hr as (qs & Hr & _).
      apply list_elem_of_singleton in Hr as ->.
      apply bool_decide_eq_false. intros [=]. lia. }
  (* the course *)
  rewrite filter_bind.
  rewrite (bind_unique Relational.course_id _ _ c0).
  2:{ by apply NoDup_fmap_filter. }
  2:{ apply elem_of_filter_bool. split; [done|lia]. }
  2:{ intros c [_ Hc]%elem_of_filter_bool Hne. lia. }
  (* the instructor *)
  rewrite filter_bind.
  rewrite (bind_unique Relational.user_id _ _ i0).
  2:{ by apply NoDup_fmap_filter. }
  2:{ apply elem_of_filter_bool. split; [done|lia]. }
  2:{ intros i [_ Hi]%elem_of_filter_bool Hne. lia. }
  (* the quizzes and the submissions *)
  apply filter_bool_all. intros r Hr.
  apply list_elem_of_bind in Hr as (q & Hr & _).
  apply list_elem_of_bind in Hr as (qs & Hr & _).
  apply list_elem_of_singleton in Hr as ->.
  by apply bool_decide_eq_true.
Qed.

Lemma AVG_is_mean {A : Type} (expr : A → option Q) (rows : list A) :
  Relational.AVG expr rows = mean (omap expr rows).
Proof. unfold Relational.AVG, mean. by destruct (omap expr rows). Qed.

(** The percentages a group of the view averages are all the percentages
    of the student in the course. *)
Lemma summary_group_percentages (d : Relational.Db) (j0 : Relational.SummaryJoin) :
  table_keys d → j0 ∈ Relational.summary_from d →
  omap (λ r, Relational.percentage (Relational.sj_qs r) (Relational.sj_q r))
       (List.filter (λ r, bool_decide (Relational.summary_key r = Relational.summary_key j0))
                    (Relational.summary_from d))
  = percentages_of d (Relational.user_id (Relational.sj_u j0))
                   (Relational.course_id (Relational.sj_c j0)).
Proof.
  intros Hkeys Hj0. rewrite summary_group_rows by done.
  rewrite omap_bind, left_rows_bind by done.
  unfold percentages_of. apply bind_ext_in. intros z _.
  rewrite omap_bind, left_rows_bind by done.
  apply bind_ext_in. intros s _. cbn.
  by destruct (Relational.percentage (Some s) (Some z)).
Qed.

(** A row of the view restricted to a course is the aggregate of the group
    of one joined row of a student of that course. *)
Lemma summary_row_origin (d : Relational.Db) (courseId : Z) (r : Relational.SummaryRow) :
  r ∈ Relational.courseStudentSummary courseId d →
  ∃ j0, j0 ∈ Relational.summary_from d
        ∧ Relational.role (Relational.sj_u j0) = Relational.student
        ∧ Relational.course_id (Relational.sj_c j0) = courseId
        ∧ Relational.sr_student_id r = Relational.user_id (Relational.sj_u j0)
        ∧ Relational.avg_percentage r
          = Relational.ROUND2
              (Relational.AVG
                 (λ j, Relational.percentage (Relational.sj_qs j) (Relational.sj_q j))
                 (List.filter
                    (λ j, bool_decide (Relational.role (Relational.sj_u j)
                                       = Relational.student))
                    (List.filter
                       (λ j, bool_decide (Relational.summary_key j
                                          = Relational.summary_key j0))
                       (Relational.summary_from d)))).
Proof.
  unfold Relational.courseStudentSummary, Relational.student_course_summary.
  intros [Hr Hc]%elem_of_filter_bool.
  apply list_elem_of_fmap in Hr as ([k rows] & -> & Hg).
  unfold Relational.group_by in Hg.
  apply list_elem_of_fmap in Hg as (k' & [= <- ->] & Hk).
  apply (proj1 (elem_of_remove_dups _ _)) in Hk.
  apply list_elem_of_fmap in Hk as (j0 & -> & [Hj0 Hrole]%elem_of_filter_bool).
  apply bool_decide_eq_true in Hrole.
  exists j0. rewrite filter_bool_comm.
  destruct j0 as [u0 e0 c0 i0 q0 qs0]. cbn in Hc |- *.
  split; [done|]. split; [done|]. split; [lia|]. by split.
Qed.

(** Every student with an enrollment in a course whose row and whose
    instructor's row exist has a row in the view. *)
Lemma summary_row_exists (d : Relational.Db) (u : Relational.User)
    (e : Relational.Enrollment) (c : Relational.Course) (i : Relational.User) :
  u ∈ Relational.users d → Relational.role u = Relational.student →
  e ∈ Relational.enrollments d → Relational.e_student_id e = Relational.user_id u →
  c ∈ Relational.courses d → Relational.course_id c = Relational.e_course_id e →
  i ∈ Relational.users d → Relational.user_id i = Relational.instructor_id c →
  ∃ r, r ∈ Relational.courseStudentSummary (Relational.course_id c) d
       ∧ Relational.sr_student_id r = Relational.user_id u
       ∧ Relational.sr_enrollment_status r = Relational.e_status e.
Proof.
  intros Hu Hrole He Heu Hc Hce Hi Hic.
  destruct (left_rows_inhabited
              (List.filter (λ q, Relational.course_id c =? Relational.q_course_id q)
                           (Relational.quizzes d))) as [q Hq].
  destruct (left_rows_inhabited
              match q with
              | None => []
              | Some z =>
                  List.filter
                    (λ s, (Relational.quiz_id z =? Relational.qs_quiz_id s)
                          && (Relational.qs_student_id s =? Relational.user_id u))
                    (Relational.quiz_submissions d)
              end) as [qs Hqs].
  assert (Relational.mkSummaryJoin u e c i q qs ∈ Relational.summary_from d) as Hj.
  { unfold Relational.summary_from.
    apply list_elem_of_bind. exists u. split; [|done].
    apply list_elem_of_bind. exists e. split; [|apply elem_of_filter_bool; split; [done|lia]].
    apply list_elem_of_bind. exists c. split; [|apply elem_of_filter_bool; split; [done|lia]].
    apply list_elem_of_bind. exists i. split; [|apply elem_of_filter_bool; split; [done|lia]].
    apply list_elem_of_bind. exists q. split; [|done].
    apply list_elem_of_bind. exists qs. split; [|done].
    by apply list_elem_of_singleton. }
  destruct (group_by_intro Relational.summary_key
              (List.filter (λ r, bool_decide (Relational.role (Relational.sj_u r)
                                              = Relational.student))
                           (Relational.summary_from d))
              (Relational.mkSummaryJoin u e c i q qs)) as (rows & Hg & _).
  { apply elem_of_filter_bool. split; [done|]. by apply bool_decide_eq_true. }
  exists (Relational.summary_select
            (Relational.summary_key (Relational.mkSummaryJoin u e c i q qs), rows)).
  split; [|done].
  unfold Relational.courseStudentSummary, Relational.student_course_summary.
  apply elem_of_filter_bool. split; [|cbn; lia].
  apply list_elem_of_fmap. by eexists.
Qed.

(** The average of a row of the view is the rounded mean of all the
    percentages of the student in the course. *)
Lemma summary_row_average (d : Relational.Db) (courseId : Z) (r : Relational.SummaryRow) :
  table_keys d → r ∈ Relational.courseStudentSummary courseId d →
  Relational.avg_percentage r
  = Relational.ROUND2 (mean (percentages_of d (Relational.sr_student_id r) courseId)).
Proof.
  intros Hkeys (j0 & Hj0 & Hrole & <- & -> & ->)%summary_row_origin.
  rewrite AVG_is_mean, filter_bool_all.
  - by rewrite summary_group_percentages.
  - intros j Hj. rewrite summary_group_rows in Hj by done.
    apply list_elem_of_bind in Hj as (q & Hj & _).
    apply list_elem_of_bind in Hj as (qs & Hj & _).
    apply list_elem_of_singleton in Hj as ->. by apply bool_decide_eq_true.
Qed.

(** ** The rows of one group of the query of getCourseStudents *)

Lemma students_group_rows (d : Relational.Db) (courseId : Z) (j0 : Relational.StudentsJoin) :
  table_keys d → j0 ∈ Relational.students_from d →
  Relational.students_where courseId j0 = true →
  List.filter (λ r, bool_decide (Relational.students_key r = Relational.students_key j0))
              (List.filter (Relational.students_where courseId)
                           (Relational.students_from d))
  = (qs ← Relational.left_rows
            (List.filter (λ s, Relational.user_id (Relational.st_u j0)
                               =? Relational.qs_student_id s)
                         (Relational.quiz_submissions d));
     q ← Relational.left_rows
           match qs with
           | None => []
           | Some s =>
               List.filter
                 (λ z, (Relational.qs_quiz_id s =? Relational.quiz_id z)
                       && (Relational.q_course_id z
                           =? Relational.e_course_id (Relational.st_e j0)))
                 (Relational.quizzes d)
           end;
     [Relational.mkStudentsJoin (Relational.st_e j0) (Relational.st_u j0) qs q]).
Proof.
  intros (Hku & Hkc & Hke) Hj0 Hwhere.
  pose proof (students_from_inv d j0 Hj0) as (He0 & Hu0 & Heu & _).
  destruct j0 as [e0 u0 qs0 q0]. cbn [Relational.st_e Relational.st_u] in *.
  unfold Relational.students_where in Hwhere. cbn in Hwhere.
  apply andb_true_iff in Hwhere as [Hcourse Hactive].
  unfold Relational.students_from.
  (* the enrollment *)
  rewrite !filter_bind.
  rewrite (bind_unique (λ e, (Relational.e_student_id e, Relational.e_course_id e))
                       _ (Relational.enrollments d) e0 Hke He0).
  2:{ intros e _ Hne. apply filter_bool_nil. intros r [Hr Hw]%elem_of_filter_bool.
      apply list_elem_of_bind in Hr as (u & Hr & [_ Hu]%elem_of_filter_bool).
      apply list_elem_of_bind in Hr as (qs & Hr & _).
      apply list_elem_of_bind in Hr as (q & Hr & _).
      apply list_elem_of_singleton in Hr as ->.
      unfold Relational.students_where in Hw. cbn in Hw.
      apply andb_true_iff in Hw as [Hc _].
      apply bool_decide_eq_false. intros [=]. apply Hne. f_equal; lia. }
  (* the student *)
  rewrite !filter_bind.
  rewrite (bind_unique Relational.user_id _ _ u0).
  2:{ by apply NoDup_fmap_filter. }
  2:{ apply elem_of_filter_bool. split; [done|lia]. }
  2:{ intros u [_ Hu]%elem_of_filter_bool Hne. lia. }
  (* the submissions and the quizzes *)
  assert (∀ l : list Relational.StudentsJoin,
            (∀ r, r ∈ l → Relational.st_e r = e0 ∧ Relational.st_u r = u0) →
            List.filter
              (λ r, bool_decide (Relational.students_key r
                                 = Relational.students_key
                                     (Relational.mkStudentsJoin e0 u0 qs0 q0)))
              (List.filter (Relational.students_where courseId) l) = l) as Hall.
  { intros l Hl. rewrite (filter_bool_all (Relational.students_where courseId)).
    - apply filter_bool_all. intros r [Hre Hru]%Hl. apply bool_decide_eq_true.
      unfold Relational.students_key. by rewrite Hre, Hru.
    - intros r [Hre Hru]%Hl. unfold Relational.students_where. rewrite Hre.
      by rewrite Hcourse, Hactive. }
  apply Hall. intros r Hr.
  apply list_elem_of_bind in Hr as (qs & Hr & _).
  apply list_elem_of_bind in Hr as (q & Hr & _).
  by apply list_elem_of_singleton in Hr as ->.
Qed.

Lemma filter_bind_guard {A B : Type} (P : A → bool) (f : A → list B) (l : list A) :
  List.filter P l ≫= f = l ≫= (λ x, if P x then f x else []).
Proof.
  induction l as [|x l IH]; [done|].
  cbn [List.filter]. rewrite bind_cons. destruct (P x).
  - by rewrite bind_cons, IH.
  - by rewrite IH.
Qed.

Lemma bind_app_perm {A B : Type} (g h : A → list B) (l : list A) :
  l ≫= (λ x, g x ++ h x) ≡ₚ (l ≫= g) ++ (l ≫= h).
Proof.
  induction l as [|x l IH]; [done|].
  rewrite !bind_cons, IH, <- !app_assoc. apply Permutation_app_head.
  rewrite !app_assoc. apply Permutation_app_tail, Permutation_app_comm.
Qed.

(** The two orders in which the pairs of a join can be enumerated. *)
Lemma bind_swap_perm {A B C : Type} (f : A → B → list C) (l1 : list A) (l2 : list B) :
  (l1 ≫= λ a, l2 ≫= f a) ≡ₚ (l2 ≫= λ b, l1 ≫= λ a, f a b).
Proof.
  induction l1 as [|a l1 IH].
  - rewrite (bind_all_nil (λ b, [] ≫= λ a, f a b)); done.
  - rewrite bind_cons, IH, <- bind_app_perm. done.
Qed.

(** Enumerated submission by submission, the percentages of the student in
    the course are the same, up to their order. *)
Lemma percentages_by_submission (d : Relational.Db) (studentId courseId : Z) :
  (s ← List.filter (λ s, studentId =? Relational.qs_student_id s)
                   (Relational.quiz_submissions d);
   z ← List.filter (λ z, (Relational.qs_quiz_id s =? Relational.quiz_id z)
                         && (Relational.q_course_id z =? courseId))
                   (Relational.quizzes d);
   option_list (Relational.percentage (Some s) (Some z)))
  ≡ₚ percentages_of d studentId courseId.
Proof.
  unfold percentages_of.
  set (F := λ (s : Relational.QuizSubmission) (z : Relational.Quiz),
         if (studentId =? Relational.qs_student_id s)
            && ((Relational.qs_quiz_id s =? Relational.quiz_id z)
                && (Relational.q_course_id z =? courseId))
         then option_list (Relational.percentage (Some s) (Some z)) else []).
  trans (Relational.quiz_submissions d ≫= λ s, Relational.quizzes d ≫= F s).
  { rewrite filter_bind_guard. apply reflexive_eq, bind_ext_in. intros s _.
    destruct (studentId =? Relational.qs_student_id s) eqn:Hs.
    - rewrite filter_bind_guard. apply bind_ext_in. intros z _.
      unfold F. by rewrite Hs.
    - symmetry. apply bind_all_nil. intros z _. unfold F. by rewrite Hs. }
  rewrite bind_swap_perm.
  rewrite filter_bind_guard. apply reflexive_eq, bind_ext_in. intros z _.
  destruct (courseId =? Relational.q_course_id z) eqn:Hz.
  - rewrite filter_bind_guard. apply bind_ext_in. intros s _. unfold F.
    replace (Relational.q_course_id z =? courseId) with true by lia.
    rewrite andb_true_r, (Z.eqb_sym studentId), (Z.eqb_sym (Relational.qs_quiz_id s)).
    by rewrite andb_comm.
  - apply bind_all_nil. intros s _. unfold F.
    replace (Relational.q_course_id z =? courseId) with false by lia.
    by rewrite !andb_false_r.
Qed.

Lemma students_row_origin (d : Relational.Db) (courseId : Z) (r : Relational.StudentRow) :
  r ∈ Relational.course_students courseId d →
  ∃ j0, j0 ∈ Relational.students_from d
        ∧ Relational.students_where courseId j0 = true
        ∧ Relational.row_user_id r = Relational.user_id (Relational.st_u j0)
        ∧ Relational.row_avg_percentage r
          = Relational.ROUND2
              (Relational.AVG
                 (λ j, Relational.percentage (Relational.st_qs j) (Relational.st_q j))
                 (List.filter
                    (λ j, bool_decide (Relational.students_key j
                                       = Relational.students_key j0))
                    (List.filter (Relational.students_where courseId)
                                 (Relational.students_from d)))).
Proof.
  unfold Relational.course_students.
  intros ([k rows] & -> & Hg)%list_elem_of_fmap.
  unfold Relational.group_by in Hg.
  apply list_elem_of_fmap in Hg as (k' & [= <- ->] & Hk).
  apply (proj1 (elem_of_remove_dups _ _)) in Hk.
  apply list_elem_of_fmap in Hk as (j0 & -> & [Hj0 Hwhere]%elem_of_filter_bool).
  exists j0. destruct j0 as [e0 u0 qs0 q0]. by cbn.
Qed.

(** The average of a row of getCourseStudents is the rounded mean of all
    the percentages of the student in the course, taken in the order of the
    submissions. *)
Lemma students_row_average (d : Relational.Db) (courseId : Z) (r : Relational.StudentRow) :
  table_keys d → r ∈ Relational.course_students courseId d →
  ∃ vals, vals ≡ₚ percentages_of d (Relational.row_user_id r) courseId
          ∧ Relational.row_avg_percentage r = Relational.ROUND2 (mean vals).
Proof.
  intros Hkeys (j0 & Hj0 & Hwhere & -> & ->)%students_row_origin.
  rewrite AVG_is_mean, students_group_rows by done.
  eexists. split; [|reflexivity].
  assert (Relational.e_course_id (Relational.st_e j0) = courseId) as ->.
  { unfold Relational.students_where in Hwhere.
    apply andb_true_iff in Hwhere as [Hc _]. lia. }
  rewrite <- percentages_by_submission.
  rewrite omap_bind, left_rows_bind by done.
  apply reflexive_eq, bind_ext_in. intros s _.
  rewrite omap_bind, left_rows_bind by done.
  apply bind_ext_in. intros z _. cbn.
  by destruct (Relational.percentage (Some s) (Some z)).
Qed.

(** Every user with an active enrollment in the course has a row in the
    answer of the query. *)
Lemma students_row_exists (d : Relational.Db) (courseId : Z)
    (e : Relational.Enrollment) (u : Relational.User) :
  e ∈ Relational.enrollments d → Relational.e_course_id e = courseId →
  Relational.e_status e = Some Relational.active →
  u ∈ Relational.users d → Relational.user_id u = Relational.e_student_id e →
  ∃ r, r ∈ Relational.course_students courseId d
       ∧ Relational.row_user_id r = Relational.user_id u.
Proof.
  intros He Hc Hactive Hu Hue.
  destruct (left_rows_inhabited
              (List.filter (λ s, Relational.user_id u =? Relational.qs_student_id s)
                           (Relational.quiz_submissions d))) as [qs Hqs].
  destruct (students_from_intro d e u qs He Hu (eq_sym Hue) Hqs) as [q Hj].
  destruct (group_by_intro Relational.students_key
              (List.filter (Relational.students_where courseId)
                           (Relational.students_from d))
              (Relational.mkStudentsJoin e u qs q)) as (rows & Hg & _).
  { apply elem_of_filter_bool. split; [done|].
    unfold Relational.students_where. cbn. rewrite Hactive.
    apply andb_true_iff. split; [lia|by apply bool_decide_eq_true]. }
  exists (Relational.students_select
            (Relational.students_key (Relational.mkStudentsJoin e u qs q), rows)).
  split; [|done].
  unfold Relational.course_students. apply list_elem_of_fmap. by eexists.
Qed.

Lemma mean_None (vals : list Q) : mean vals = None ↔ vals = [].
Proof. by destruct vals. Qed.

Lemma ROUND2_None (avg : option Q) : Relational.ROUND2 avg = None ↔ avg = None.
Proof. by destruct avg. Qed.

(** C7. In the view student_course_summary restricted to a course:
    - every student with an enrollment in the course has a row (the course
      row and its instructor's row exist);
    - in a row, [avg_percentage] is NULL when the student has no submission
      for a quiz of the course, and [total_quizzes] is 0 and
      [avg_percentage] is NULL when the course has no quiz;
    - under the keys of the tables, [avg_percentage] is the mean of all the
      percentages of the student in the course rounded to two decimal
      places: it is NULL exactly when there is no such percentage, never 0
      for lack of one.
    The rows that getCourseStudents answers with (they have no
    [total_quizzes] column) are one per user with an active enrollment in
    the course, and their [avg_percentage] is NULL and rounded in the same
    cases. *)
Theorem summary_average_is_null_or_rounded (d : Relational.Db) (courseId : Z) :
  (∀ u e c i,
     u ∈ Relational.users d → Relational.role u = Relational.student →
     e ∈ Relational.enrollments d → Relational.e_student_id e = Relational.user_id u →
     Relational.e_course_id e = courseId →
     c ∈ Relational.courses d → Relational.course_id c = courseId →
     i ∈ Relational.users d → Relational.user_id i = Relational.instructor_id c →
     ∃ r, r ∈ Relational.courseStudentSummary courseId d
          ∧ Relational.sr_student_id r = Relational.user_id u
          ∧ Relational.sr_enrollment_status r = Relational.e_status e)
  ∧ (∀ r, r ∈ Relational.courseStudentSummary courseId d →
       (no_submission_in_course d (Relational.sr_student_id r) courseId →
        Relational.avg_percentage r = None)
       ∧ (no_quiz_in_course d courseId →
          Relational.total_quizzes r = 0 ∧ Relational.avg_percentage r = None)
       ∧ (table_keys d →
          Relational.avg_percentage r
          = Relational.ROUND2
              (mean (percentages_of d (Relational.sr_student_id r) courseId))
          ∧ (Relational.avg_percentage r = None
             ↔ percentages_of d (Relational.sr_student_id r) courseId = [])
          ∧ ∀ x, Relational.avg_percentage r = Some x →
                 ∃ m, mean (percentages_of d (Relational.sr_student_id r) courseId)
                      = Some m
                      ∧ rounded_to_2_places m x))
  ∧ (∀ user rows,
       data (CourseController.getCourseStudents user courseId d) = Some rows →
       (∀ e u,
          e ∈ Relational.enrollments d → Relational.e_course_id e = courseId →
          Relational.e_status e = Some Relational.active →
          u ∈ Relational.users d → Relational.user_id u = Relational.e_student_id e →
          ∃ r, r ∈ rows ∧ Relational.row_user_id r = Relational.user_id u)
       ∧ ∀ r, r ∈ rows →
           (no_submission_in_course d (Relational.row_user_id r) courseId →
            Relational.row_avg_percentage r = None)
           ∧ (no_quiz_in_course d courseId → Relational.row_avg_percentage r = None)
           ∧ (table_keys d →
              ∃ vals,
                vals ≡ₚ percentages_of d (Relational.row_user_id r) courseId
                ∧ Relational.row_avg_percentage r = Relational.ROUND2 (mean vals)
                ∧ (Relational.row_avg_percentage r = None
                   ↔ percentages_of d (Relational.row_user_id r) courseId = [])
                ∧ ∀ x, Relational.row_avg_percentage r = Some x →
                       ∃ m, mean vals = Some m ∧ rounded_to_2_places m x)).
Proof.
  split; [|split].
  - intros u e c i Hu Hrole He Heu Hec Hc Hcc Hi Hic.
    destruct (summary_row_exists d u e c i) as (r & Hr & Hrest); try done; [congruence|].
    exists r. by rewrite <- Hcc.
  - intros r Hr. destruct (summary_row_nulls d courseId r Hr) as [Hnosub Hnoquiz].
    split; [done|]. split; [done|]. intros Hkeys.
    pose proof (summary_row_average d courseId r Hkeys Hr) as Havg.
    split; [done|]. rewrite Havg. split.
    + by rewrite ROUND2_None, mean_None.
    + apply ROUND2_rounds.
  - intros user rows ->%getCourseStudents_rows. split.
    + intros e u. apply students_row_exists.
    + intros r Hr. destruct (students_row_nulls d courseId r Hr) as [Hnosub Hnoquiz].
      split; [done|]. split; [done|]. intros Hkeys.
      destruct (students_row_average d courseId r Hkeys Hr) as (vals & Hperm & Havg).
      exists vals. split; [done|]. split; [done|]. rewrite Havg. split.
      * rewrite ROUND2_None, mean_None. split.
        -- intros ->. symmetry. by apply Permutation_nil_l.
        -- intros Hnil. rewrite Hnil in Hperm. by apply Permutation_nil_r.
      * apply ROUND2_rounds.
Qed.

Lemma sample_db_keys : table_keys sample_db.
Proof.
  split; [|split]; apply (bool_decide_unpack _); by vm_compute.
Qed.

Lemma summary_average_is_null_or_rounded_witness :
  (∃ r, r ∈ Relational.courseStudentSummary 1 sample_db
        ∧ Relational.sr_student_id r = 4
        ∧ Relational.avg_percentage r = Some (9000 # 100)%Q)
  ∧ (∃ r, r ∈ Relational.courseStudentSummary 4 sample_db
          ∧ Relational.sr_student_id r = 6
          ∧ Relational.total_quizzes r = 0
          ∧ Relational.avg_percentage r = None)
  ∧ (∃ r, r ∈ Relational.course_students 4 sample_db
          ∧ Relational.row_user_id r = 6
          ∧ Relational.row_avg_percentage r = None).
Proof.
  split; [|split].
  - destruct (summary_average_is_null_or_rounded sample_db 1) as (Hexists & Hrows & _).
    destruct (Hexists
                (Relational.mkUser 4 "Alice Smith" "alice.smith@student.edu"
                                   Relational.student)
                (Relational.mkEnrollment 1 4 1 (Some 0) (Some Relational.active))
                (Relational.mkCourse 1 "CS101" "Introduction to Computer Science" 2)
                (Relational.mkUser 2 "Dr. Divya Mishra" "divya.mishra@ddn.upes.ac.in"
                                   Relational.instructor))
      as (r & Hr & Hid & _);
      [repeat constructor|reflexivity|repeat constructor|reflexivity|reflexivity
      |repeat constructor|reflexivity|repeat constructor|reflexivity|].
    exists r. split; [exact Hr|]. split; [exact Hid|].
    destruct (Hrows r Hr) as (_ & _ & Hexact).
    destruct (Hexact sample_db_keys) as (Havg & _).
    rewrite Havg, Hid. reflexivity.
  - destruct (summary_average_is_null_or_rounded sample_db 4) as (Hexists & Hrows & _).
    destruct (Hexists
                (Relational.mkUser 6 "Carol Davis" "carol.davis@student.edu"
                                   Relational.student)
                (Relational.mkEnrollment 7 6 4 (Some 0) (Some Relational.active))
                (Relational.mkCourse 4 "CS401" "Web Development" 3)
                (Relational.mkUser 3 "Dr. Neelu Jyoti Ahuja" "neelu.ahuja@ddn.upes.ac.in"
                                   Relational.instructor))
      as (r & Hr & Hid & _);
      [repeat constructor|reflexivity|repeat constructor|reflexivity|reflexivity
      |repeat constructor|reflexivity|repeat constructor|reflexivity|].
    exists r. split; [exact Hr|]. split; [exact Hid|].
    destruct (Hrows r Hr) as (_ & Hnoquiz & _).
    apply Hnoquiz. intros q Hq. cbn in Hq.
    repeat (apply elem_of_cons in Hq as [->|Hq]; [discriminate|]).
    by apply elem_of_nil in Hq.
  - destruct (summary_average_is_null_or_rounded sample_db 4) as (_ & _ & Hstudents).
    destruct (Hstudents (ActivityLogger.mkReqUser 1 "John Admin" Relational.admin)
                (Relational.course_students 4 sample_db) eq_refl) as [Hexists Hrows].
    destruct (Hexists
                (Relational.mkEnrollment 7 6 4 (Some 0) (Some Relational.active))
                (Relational.mkUser 6 "Carol Davis" "carol.davis@student.edu"
                                   Relational.student))
      as (r & Hr & Hid);
      [repeat constructor|reflexivity|reflexivity|repeat constructor|reflexivity|].
    exists r. split; [exact Hr|]. split; [exact Hid|].
    destruct (Hrows r Hr) as (_ & Hnoquiz & _).
    apply Hnoquiz. intros q Hq. cbn in Hq.
    repeat (apply elem_of_cons in Hq as [->|Hq]; [discriminate|]).
    by apply elem_of_nil in Hq.
Defined.
